(** * taserver game-client bit protocol: parser and re-serializer

    A shallow embedding of [gameclient/udk.py]: the bit primitives, the
    property-value classes, the class registry of [ParserState], and the
    [frombitarray] / [tobitarray] pairs of [ObjectProperty], [ObjectInstance],
    [ObjectClass], [PayloadData], [ChannelData], [PacketData], [PacketAck] and
    [Packet].

    Conventions of the embedding.
    - A [bitarray] is a [list bool] in stream order.  The parser is given a
      little-endian bitarray (every bitarray the module builds itself is
      [bitarray(endian='little')]), so the first bit of a byte is its least
      significant bit.
    - Python objects mutated by [frombitarray] are returned explicitly: a method
      [obj.frombitarray(bits, ...)] becomes a function that yields the object
      after the call together with the outcome of the call, which is either the
      returned tail of the stream or the exception raised.  The object is
      yielded in both cases because the callers keep partially filled objects
      when a [ParseError] is caught.
    - [debug] is [False] (its default): the [debugbits] decorator then calls the
      wrapped function and returns its result unchanged. *)

From Stdlib Require Import ZArith Ascii String List Bool Lia.
From stdpp Require Import gmap strings pretty list fin_maps.

Import ListNotations.

Set Warnings "-register-all".

(** ** Bit primitives *)

Definition bitarray := list bool.

(** [bitarray.to01()] *)
Definition to01 (bits : bitarray) : string :=
  string_of_list_ascii (map (fun b : bool => if b then "1"%char else "0"%char) bits).

(** [bitarray('0101...')] on a literal of zeros and ones *)
Definition of01 (s : string) : bitarray :=
  map (fun c => if Ascii.eqb c "1"%char then true else false) (list_ascii_of_string s).

(** One byte of a little-endian bitarray: the first bit is the least
    significant one; missing pad bits count as zero. *)
Definition bits2byte (bits : bitarray) : ascii :=
  let b i := nth i bits false in
  Ascii (b 0) (b 1) (b 2) (b 3) (b 4) (b 5) (b 6) (b 7).

Definition byte2bits (c : ascii) : bitarray :=
  let '(Ascii b0 b1 b2 b3 b4 b5 b6 b7) := c in [b0; b1; b2; b3; b4; b5; b6; b7].

Fixpoint tobytes_n (nbytes : nat) (bits : bitarray) : list ascii :=
  match nbytes with
  | O => []
  | S k => bits2byte (firstn 8 bits) :: tobytes_n k (skipn 8 bits)
  end.

(** [bitarray.tobytes()]: the last byte is padded with zero bits. *)
Definition tobytes (bits : bitarray) : list ascii :=
  tobytes_n ((length bits + 7) / 8) bits.

(** [bitarray.frombytes(...)] on an empty little-endian bitarray *)
Definition frombytes (bytes : list ascii) : bitarray :=
  flat_map byte2bits bytes.

(** The unsigned value of a little-endian bit list. *)
Fixpoint le_value (bits : bitarray) : Z :=
  match bits with
  | [] => 0
  | b :: rest => Z.b2z b + 2 * le_value rest
  end.

(** [struct.pack('<L', n)] read back as 32 little-endian bits *)
Definition pack_L (n : Z) : bitarray :=
  map (fun i => Z.testbit n (Z.of_nat i)) (seq 0 32).

(** <<
def int2bitarray(n, nbits):
    bits = bitarray(endian='little')
    bits.frombytes(struct.pack('<L', n))
    return bits[:nbits]
>> *)
Definition int2bitarray (n : Z) (nbits : nat) : bitarray :=
  firstn nbits (pack_L n).

(** <<
def toint(bits):
    zerobytes = bytes( (0,0,0,0) )
    longbytes = (bits.tobytes() + zerobytes)[0:4]
    return struct.unpack('<L', longbytes)[0]
>> *)
Definition toint (bits : bitarray) : Z :=
  let zerobytes := repeat zero 4 in
  let longbytes := firstn 4 (tobytes bits ++ zerobytes) in
  le_value (frombytes longbytes).

(** ** Exceptions *)

(** The messages of the [ParseError]s the module raises, with the values
    that are formatted into them. *)
Inductive message :=
  | MsgMoreBits (n available : nat)
      (* 'Tried to get more bits (%d) than are available (%d)' *)
  | MsgStringSize (actual expected : Z)
      (* 'ERROR: string size (%d) was not equal to expected size (%d)' *)
  | MsgUnknownProperty (propertykey classname : string)
      (* 'Unknown property %s for class %s' *)
  | MsgPayloadLeftOver
      (* 'Bits of payload left over' *)
  | MsgUnknownbits10 (bits01 : string)
      (* 'Unexpected value for unknownbits10: %s' *)
  | MsgFlag1a (bits01 : string)
      (* 'Unexpected value for flag1a: %s' *)
  | MsgPacketLeftOver.
      (* 'Left over bits at the end of the packet' *)

(** Exceptions other than [ParseError]; none of them is caught by the
    module, they abort the decoding of the packet. *)
Inductive failure :=
  | CodingErrorPropertyType (propertyname : option string)
      (* RuntimeError: propertytype of property has invalid value *)
  | CodingErrorParsedBits
      (* RuntimeError: parsed bits + unparsed bits does not equal total bits *)
  | TypeErrorNoSize
      (* getnbits(None, bits): the property has no 'size' *)
  | KeyErrorIdsize
      (* class_['idsize'] read before it was assigned *)
  | KeyErrorChannel
      (* del state.channels[channel] without a binding *)
  | KeyErrorClass
      (* state.class_dict[...] without an entry *)
  | NoProgress.
      (* a [while bits:] loop whose body consumes nothing never ends *)

Inductive exn :=
  | ParseError (msg : message) (bitsleft : bitarray)
  | OtherError (f : failure).

Inductive result (A : Type) :=
  | Return (a : A)
  | Raise (e : exn).
Arguments Return {A} a.
Arguments Raise {A} e.

#[global] Instance result_ret : MRet result := fun A a => Return a.

#[global] Instance result_bind : MBind result := fun A B k r =>
  match r with
  | Return a => k a
  | Raise e => Raise e
  end.

(** <<
def getnbits(n, bits):
    if n > len(bits):
        raise ParseError('Tried to get more bits (%d) than are available (%d)' %
                             (n, len(bits)),
                         bits)
    return bits[0:n], bits[n:]
>> *)
Definition getnbits (n : nat) (bits : bitarray) : result (bitarray * bitarray) :=
  if length bits <? n
  then Raise (ParseError (MsgMoreBits n (length bits)) bits)
  else Return (firstn n bits, skipn n bits).

(** The loop of [getstring]: the characters before the first zero byte. *)
Fixpoint until_zero (stringbytes : list ascii) : list ascii :=
  match stringbytes with
  | [] => []
  | b :: rest => if Ascii.eqb b zero then [] else b :: until_zero rest
  end.

(** <<
def getstring(bits):
    stringbytes = bits.tobytes()
    result = []
    for b in stringbytes:
        if b != 0:
            result.append(chr(b))
        else:
            break
    return ''.join(result), bits[(len(result) + 1) * 8:]
>> *)
Definition getstring (bits : bitarray) : string * bitarray :=
  let stringbytes := tobytes bits in
  let result := until_zero stringbytes in
  (string_of_list_ascii result, skipn ((length result + 1) * 8) bits).

(** ** The class registry of [ParserState] *)

(** The values of a ['type'] entry that [parse_basic_property] dispatches on. *)
Inductive basic_type :=
  | Tstr | Tint | Tfloat | Tbool | Tflag | Tbitarray
  | TMystery1 | TMystery2 | TMystery3.

(** An entry of a member list: [{'name': ..., 'type': ..., 'size': ...}].
    ['type'] is [None] where the table says so or has no such key. *)
Record Member := {
  member_name : string;
  member_type : option basic_type;
  member_size : option nat
}.

(** The ['type'] of a property: a basic type, a list of members (decoded as
    [PropertyValueParams]) or a tuple of members ([PropertyValueStruct]). *)
Inductive property_type :=
  | Basic (t : basic_type)
  | TypeList (members : list Member)
  | TypeTuple (members : list Member).

(** A property descriptor.  ['values'] is a dict from bit strings to labels;
    an absent ['values'] is the empty list, which [if propertyvalues:] treats
    alike. *)
Record Property := {
  property_name : string;
  property_type_ : option property_type;
  property_size : option nat;
  property_values : list (string * string)
}.

(** A class descriptor: [{'name': ..., 'props': ...}], with the ['idsize']
    entry that [PayloadData.frombitarray] assigns when it binds a channel.
    ['props'] keeps the order of the dict literal: [list(props.keys())[0]] is
    its first key. *)
Record Class := {
  class_name : string;
  class_props : list (string * Property);
  class_idsize : option nat
}.

(** [dict.get(key)] on a dict kept in insertion order *)
Fixpoint dict_get {V} (d : list (string * V)) (key : string) : option V :=
  match d with
  | [] => None
  | (k, v) :: rest => if String.eqb k key then Some v else dict_get rest key
  end.

Definition TrInventoryManagerProps : list (string * Property) :=
  [("01111", Build_Property "Instigator" (Some (Basic Tbitarray)) (Some 10) []);
   ("11111", Build_Property "Owner" (Some (Basic Tbitarray)) (Some 10) []);
   ("10101", Build_Property "InventoryChain" (Some (Basic Tbitarray)) (Some 11) [])].

Definition TrPlayerPawnProps : list (string * Property) :=
  [("1010000", Build_Property "bNetOwner" (Some (Basic Tbool)) None []);
   ("1101000", Build_Property "RemoteRole" (Some (Basic Tbitarray)) (Some 2) []);
   ("1111000", Build_Property "Owner" (Some (Basic Tbitarray)) (Some 11) []);
   ("1100100", Build_Property "Rotation" (Some (Basic Tbitarray)) (Some 11) []);
   ("1001100", Build_Property "InvManager" (Some (Basic Tbitarray)) (Some 11) []);
   ("0111100", Build_Property "PlayerReplicationInfo" (Some (Basic Tbitarray)) (Some 11) []);
   ("1111100", Build_Property "HealthMax" (Some (Basic Tint)) None []);
   ("0000010", Build_Property "Health" (Some (Basic Tint)) None []);
   ("1000010", Build_Property "AirControl" (Some (Basic Tint)) None []);
   ("0110010", Build_Property "GroundSpeed" (Some (Basic Tint)) None []);
   ("1101010", Build_Property "bCanSwatTurn" (Some (Basic Tbool)) None []);
   ("0011010", Build_Property "bSimulateGravity" (Some (Basic Tbool)) None []);
   ("1111010", Build_Property "Controller" (Some (Basic Tbitarray)) (Some 11) []);
   ("1000110", Build_Property "CompressedBodyMatColor" (Some (Basic Tbitarray)) (Some 3) []);
   ("0100110", Build_Property "ClientBodyMatDuration" (Some (Basic Tint)) None []);
   ("0101110", Build_Property "LastTakeHitInfo" (Some (Basic Tbitarray)) (Some 139) []);
   ("1001001", Build_Property "CurrentWeaponAttachmentClass" (Some (Basic Tint)) None []);
   ("1100101", Build_Property "r_fPowerPoolRechargeRate" (Some (Basic Tint)) None []);
   ("0010101", Build_Property "r_fMaxPowerPool" (Some (Basic Tint)) None []);
   ("1010101", Build_Property "r_fCurrentPowerPool" (Some (Basic Tint)) None []);
   ("1000011", Build_Property "r_bDetectedByEnemyScanner" (Some (Basic Tbool)) None []);
   ("1100011", Build_Property "r_bIsInvulnerable" (Some (Basic Tbitarray)) (Some 1) []);
   ("1110011", Build_Property "r_bIsSkiing" (Some (Basic Tbitarray)) (Some 1) []);
   ("0111011", Build_Property "RPC ClientUpdateHUDHealth" (Some (TypeList [Build_Member "NewHealth" (Some Tint)
      None; Build_Member "NewHealthMax" (Some Tint) None])) None []);
   ("1111011", Build_Property "RPC PlayHardLandingEffect" (Some (Basic Tbitarray)) (Some 53) []);
   ("1100111", Build_Property "r_nFlashReloadSecondaryWeapon" (Some (Basic Tbitarray)) (Some 8) [])].

Definition TrDeviceProps : list (string * Property) :=
  [("100001", Build_Property "r_AmmoCount" (Some (Basic Tbitarray)) (Some 64) []);
   ("010001", Build_Property "r_bIsReloading" (Some (Basic Tbool)) None []);
   ("110001", Build_Property "r_bReadyToFire" (Some (Basic Tbool)) None []);
   ("001001", Build_Property "r_eEquipAt" (Some (Basic Tbitarray)) (Some 4) []);
   ("111101", Build_Property "Owner" (Some (Basic Tbitarray)) (Some 10) []);
   ("101011", Build_Property "InvManager" (Some (Basic Tbitarray)) (Some 10) []);
   ("011011", Build_Property "Inventory" (Some (Basic Tbitarray)) (Some 10) [])].

Definition TrRadarStationProps : list (string * Property) :=
  [("000111", Build_Property "r_bReset" (Some (Basic Tbitarray)) (Some 7) []);
   ("010111", Build_Property "r_ShieldHealth" (Some (Basic Tbitarray)) (Some 31) [])].

Definition TrInventoryStationProps : list (string * Property) :=
  [("000111", Build_Property "r_bReset" (Some (Basic Tbitarray)) (Some 7) [])].

Definition TrRepairStationProps : list (string * Property) :=
  [("000111", Build_Property "r_bReset" (Some (Basic Tbitarray)) (Some 7) [])].

Definition TrInventoryStationCollisionProps : list (string * Property) :=
  [].

Definition TrPowerGeneratorProps : list (string * Property) :=
  [("111110", Build_Property "r_MaxHealth" (Some (Basic Tbitarray)) (Some 31) [])].

Definition TrPlayerControllerProps : list (string * Property) :=
  [("01000000", Build_Property "bCollideWorld" (Some (Basic Tbitarray)) (Some 2) []);
   ("11000000", Build_Property "RPC ClientMatchOver" (Some (TypeList [Build_Member "unknown" (Some Tflag) None;
      Build_Member "Winner" (Some Tint) None; Build_Member "WinnerName" (Some Tstr) None])) None []);
   ("00100000", Build_Property "!!!!!!!!!INTERESTING Unknown INTERESTING!!!!!!!!!" (Some (Basic
      Tbitarray)) (Some 10) []);
   ("00110000", Build_Property "RPC ClientSetLastDamagerInfo" (Some (Basic Tbitarray)) (Some 35) []);
   ("10101000", Build_Property "PlayerReplicationInfo" (Some (Basic Tbitarray)) (Some 11) []);
   ("01100000", Build_Property "RPC UpdateMatchCountdown" (Some (TypeList [Build_Member "unknown" (Some Tflag)
      None; Build_Member "Seconds" (Some Tint) None])) None []);
   ("01101000", Build_Property "Pawn" (Some (Basic Tbitarray)) (Some 11) []);
   ("00011000", Build_Property "RPC ClientSetRotation" (Some (Basic Tbitarray)) (Some 2) []);
   ("01011000", Build_Property "RPC ClientSwitchToBestWeapon" (Some (Basic Tbitarray)) (Some 1) []);
   ("00100100", Build_Property "RPC ClientGotoState" (Some (TypeList [Build_Member "NewState" (Some Tbitarray)
      (Some 11); Build_Member "NewLabel" (Some Tbitarray) (Some 11)])) None []);
   ("01100100", Build_Property "RPC GivePawn" (Some (TypeList [Build_Member "NewPawn" (Some Tbitarray) (Some
      11)])) None []);
   ("10010100", Build_Property "RPC ReceiveLocalizedMessage" (Some (TypeList [Build_Member "Message" (Some
      Tint) None; Build_Member "Switch" (Some Tint) None;
      Build_Member "RelatedPRI_1" (Some Tbitarray) (Some 11); Build_Member "RelatedPRI_2" (Some Tint) None;
      Build_Member "OptionalObject" (Some Tbitarray) (Some 11)])) None []);
   ("11011100", Build_Property "RPC VeryShortClientAdjustPosition" (Some (TypeList [Build_Member "TimeStamp"
      (Some Tfloat) None; Build_Member "NewLocX" (Some Tfloat) None; Build_Member "NewLocY" (Some Tfloat) None;
      Build_Member "NewLocZ" (Some Tfloat) None; Build_Member "newBase" (Some Tbitarray) (Some 32)])) None []);
   ("00111100", Build_Property "RPC ShortClientAdjustPosition" (Some (TypeList [Build_Member "TimeStamp" (Some
      Tfloat) None; Build_Member "newState" (Some Tbitarray) (Some 11);
      Build_Member "newPhysics" (Some Tbitarray) (Some 4); Build_Member "NewLocX" (Some Tfloat) None;
      Build_Member "NewLocY" (Some Tfloat) None; Build_Member "NewLocZ" (Some Tfloat) None;
      Build_Member "newBase" (Some Tbitarray) (Some 32)])) None []);
   ("01111100", Build_Property "RPC ClientAckGoodMove" (Some (TypeList [Build_Member "TimeStamp" (Some Tfloat)
      None])) None []);
   ("11111100", Build_Property "RPC ClientAdjustPosition" (Some (TypeList [Build_Member "TimeStamp" (Some
      Tfloat) None; Build_Member "newState" (Some Tbitarray) (Some 11);
      Build_Member "newPhysics" (Some Tbitarray) (Some 4); Build_Member "NewLocX" (Some Tfloat) None;
      Build_Member "NewLocY" (Some Tfloat) None; Build_Member "NewLocZ" (Some Tfloat) None;
      Build_Member "NewVelX" (Some Tfloat) None; Build_Member "NewVelY" (Some Tfloat) None;
      Build_Member "NewVelZ" (Some Tfloat) None; Build_Member "newBase" (Some Tbitarray) (Some 32)])) None []);
   ("00110010", Build_Property "RPC ClientGameEnded" (Some (Basic Tbitarray)) (Some 2) []);
   ("10110010", Build_Property "RPC ClientSetViewTarget" (Some (Basic Tbitarray)) (Some 81) []);
   ("11101010", Build_Property "RPC ClientPlayForceFeedbackWaveform" (Some (TypeList [Build_Member "FFWaveform"
      (Some Tint) None; Build_Member "FFWaveformInstigator" None None])) None []);
   ("10110110", Build_Property "RPC ClientWriteLeaderboardStats" (Some (TypeList [Build_Member
      "OnlineStatsWriteClass" None None])) None []);
   ("11101110", Build_Property "RPC ClientEndOnlineGame" (Some (Basic Tflag)) None []);
   ("01001001", Build_Property "RPC PlayStartupMessage" (Some (TypeList [Build_Member "StartupStage" (Some
      Tbitarray) (Some 8)])) None []);
   ("11001001", Build_Property "RPC ClientPlayTakeHit" (Some (Basic Tbitarray)) (Some 43) []);
   ("00101011", Build_Property "RPC ClientEndTeamSelect" (Some (TypeList [Build_Member "RequestedTeamNum" (Some
      Tint) None])) None []);
   ("10111101", Build_Property "r_nCurrentCredits" (Some (Basic Tbitarray)) (Some 32) []);
   ("01000011", Build_Property "r_bNeedLoadout" (Some (Basic Tbool)) None []);
   ("11000011", Build_Property "r_bNeedTeam" (Some (Basic Tbool)) None []);
   ("11100011", Build_Property "RPC ClientSeekingMissileTargetingSelfEvent" (Some (TypeList [Build_Member
      "EventSwitch" (Some Tint) None])) None [])].

Definition TrBaseTurretProps : list (string * Property) :=
  [("010001", Build_Property "r_TargetPawn" (Some (Basic Tbitarray)) (Some 11) []);
   ("110001", Build_Property "r_FlashCount" (Some (Basic Tbitarray)) (Some 8) []);
   ("000111", Build_Property "r_bReset" (Some (Basic Tbitarray)) (Some 7) []);
   ("010111", Build_Property "r_ShieldHealth" (Some (Basic Tbitarray)) (Some 31) [])].

Definition TrProj_BaseTurretProps : list (string * Property) :=
  [("011100", Build_Property "Rotation" (Some (Basic Tbitarray)) (Some 18) []);
   ("000001", Build_Property "Velocity" (Some (Basic Tbitarray)) (Some 42) [])].

Definition TrProj_SpinfusorProps : list (string * Property) :=
  [("10000", Build_Property "bCollideActors" (Some (Basic Tbool)) None []);
   ("11100", Build_Property "bTearOff" (Some (Basic Tbool)) None []);
   ("10110", Build_Property "Base" (Some (Basic Tbitarray)) (Some 31) []);
   ("10011", Build_Property "r_vSpawnLocation" (Some (Basic Tbitarray)) (Some 52) [])].

Definition TrDroppedPickupProps : list (string * Property) :=
  [("101101", Build_Property "InventoryClass" (Some (Basic Tbitarray)) (Some 31) []);
   ("011101", Build_Property "Base" (Some (Basic Tbitarray)) (Some 30) []);
   ("110011", Build_Property "Rotation" (Some (Basic Tbitarray)) (Some 10) []);
   ("101011", Build_Property "bFadeOut" (Some (Basic Tflag)) None [])].

Definition TrGameReplicationInfoProps : list (string * Property) :=
  [("000000", Build_Property "netflags" (Some (Basic Tbitarray)) (Some 5) []);
   ("011000", Build_Property "m_Flags" (Some (Basic Tbitarray)) (Some 20) []);
   ("101000", Build_Property "r_ServerConfig" (Some (Basic Tbitarray)) (Some 12) []);
   ("111000", Build_Property "FlagReturnTime" (Some (Basic Tbitarray)) (Some 41) []);
   ("011010", Build_Property "ServerName" (Some (Basic Tstr)) None []);
   ("111010", Build_Property "TimeLimit" (Some (Basic Tint)) None []);
   ("000110", Build_Property "GoalScore" (Some (Basic Tint)) None []);
   ("100110", Build_Property "RemainingMinute" (Some (Basic Tint)) None []);
   ("010110", Build_Property "ElapsedTime" (Some (Basic Tint)) None []);
   ("110110", Build_Property "RemainingTime" (Some (Basic Tint)) None []);
   ("101110", Build_Property "bMatchIsOver" (Some (Basic Tbool)) None []);
   ("111110", Build_Property "bStopCountDown" (Some (Basic Tbool)) None []);
   ("000001", Build_Property "GameClass" (Some (Basic Tint)) None []);
   ("100001", Build_Property "MessageOfTheDay" (Some (Basic Tstr)) None []);
   ("010001", Build_Property "RulesString" (Some (Basic Tstr)) None []);
   ("001001", Build_Property "FlagState" (Some (Basic Tbitarray)) (Some 10) [("0000000000",
      "Enemy flag on stand"); ("0000000001", "Enemy flag taken"); ("0000000011", "Enemy flag dropped");
      ("1000000000", "Own flag on stand"); ("1000000001", "Own flag taken");
      ("1000000011", "Own flag dropped")]);
   ("111001", Build_Property "bAllowKeyboardAndMouse" (Some (Basic Tbool)) None []);
   ("010101", Build_Property "bWarmupRound" (Some (Basic Tbool)) None []);
   ("001101", Build_Property "MinNetPlayers" (Some (Basic Tint)) None []);
   ("101111", Build_Property "r_nBlip" (Some (Basic Tbitarray)) (Some 8) [])].

Definition TrFlagCTFProps : list (string * Property) :=
  [("10000", Build_Property "bCollideActors" (Some (Basic Tbool)) None []);
   ("11000", Build_Property "bHardAttach" (Some (Basic Tbool)) None []);
   ("00010", Build_Property "Physics" (Some (Basic Tbitarray)) (Some 4) []);
   ("00001", Build_Property "Location" (Some (Basic Tbitarray)) (Some 52) []);
   ("10001", Build_Property "RelativeLocation" (Some (Basic Tbitarray)) (Some 22) []);
   ("11001", Build_Property "Rotation" (Some (Basic Tbitarray)) (Some 11) []);
   ("00101", Build_Property "Velocity" (Some (Basic Tbitarray)) (Some 40) []);
   ("10111", Build_Property "Base" (Some (Basic Tbitarray)) (Some 10) []);
   ("01000", Build_Property "bCollideWorld" (Some (Basic Tbool)) None []);
   ("01101", Build_Property "bHome" (Some (Basic Tbool)) None []);
   ("01001", Build_Property "RelativeRotation" (Some (Basic Tbitarray)) (Some 27) []);
   ("11101", Build_Property "Team" (Some (Basic Tbitarray)) (Some 11) []);
   ("00011", Build_Property "HolderPRI" (Some (Basic Tbitarray)) (Some 11) [])].

Definition TrPlayerReplicationInfoProps : list (string * Property) :=
  [("000000", Build_Property "netflags" (Some (Basic Tbitarray)) (Some 5) []);
   ("000010", Build_Property "Location" (Some (Basic Tbitarray)) (Some 51) []);
   ("110010", Build_Property "Rotation" (Some (Basic Tbitarray)) (Some 10) []);
   ("101010", Build_Property "UniqueId" (Some (Basic Tbitarray)) (Some 64) []);
   ("011010", Build_Property "Unknown field" (Some (Basic Tint)) None []);
   ("110110", Build_Property "bWaitingPlayer" (Some (Basic Tbool)) None []);
   ("000110", Build_Property "bBot" (Some (Basic Tbool)) None []);
   ("101110", Build_Property "bIsSpectator" (Some (Basic Tbool)) None []);
   ("111110", Build_Property "Team (11 bits)" (Some (Basic Tbitarray)) (Some 11) [("10001000000",
      "DiamondSword"); ("11110000000", "BloodEagle")]);
   ("000001", Build_Property "PlayerID" (Some (Basic Tint)) None []);
   ("100001", Build_Property "PlayerName" (Some (Basic Tstr)) None []);
   ("110001", Build_Property "Deaths" (Some (Basic Tint)) None []);
   ("001001", Build_Property "Score" (Some (Basic Tint)) None []);
   ("011001", Build_Property "CharClassInfo" (Some (Basic Tint)) None []);
   ("010101", Build_Property "bHasFlag" (Some (Basic Tbool)) None []);
   ("101101", Build_Property "r_bSkinId" (Some (Basic Tint)) None []);
   ("111101", Build_Property "r_EquipLevels" (Some (Basic Tbitarray)) (Some 48) []);
   ("000011", Build_Property "r_VoiceClass" (Some (Basic Tint)) None []);
   ("001011", Build_Property "m_nPlayerClassId" (Some (Basic Tint)) None []);
   ("101011", Build_Property "m_nCreditsEarned" (Some (Basic Tint)) None []);
   ("000111", Build_Property "m_nPlayerIconIndex" (Some (Basic Tint)) None []);
   ("001111", Build_Property "m_PendingBaseClass" (Some (Basic Tint)) None []);
   ("101111", Build_Property "m_CurrentBaseClass" (Some (Basic Tint)) None [])].

Definition TrServerSettingsInfoProps : list (string * Property) :=
  [].

Definition FirstClientObjectProps : list (string * Property) :=
  [("000100", Build_Property "prop8" (Some (Basic Tbitarray)) (Some 162) [])].

Definition FirstServerObjectProps : list (string * Property) :=
  [("10000000", Build_Property "mysteryproperty3" (Some (Basic TMystery3)) None []);
   ("11000000", Build_Property "mysteryproperty5" (Some (TypeTuple [Build_Member "unknown" (Some Tint) None;
      Build_Member "unknown2" (Some Tstr) None])) None []);
   ("00100000", Build_Property "mysteryproperty4" (Some (TypeTuple [Build_Member "unknown" (Some Tbitarray)
      (Some 88); Build_Member "server url" (Some Tstr) None])) None []);
   ("11100000", Build_Property "mysteryproperty1" (Some (Basic TMystery1)) None []);
   ("11010000", Build_Property "mysteryproperty2" (Some (Basic TMystery2)) None [])].

Definition MatineeActorProps : list (string * Property) :=
  [("00000", Build_Property "netflags" (Some (Basic Tbitarray)) (Some 6) []);
   ("11101", Build_Property "Position" (Some (Basic Tbitarray)) (Some 32) []);
   ("00011", Build_Property "PlayRate" (Some (Basic Tint)) None []);
   ("11011", Build_Property "bIsPlaying" (Some (Basic Tbool)) None []);
   ("00111", Build_Property "InterpAction" (Some (Basic Tbitarray)) (Some 32) [])].

Definition UTTeamInfoFlags : list (string * Property) :=
  [("00000", Build_Property "netflags" (Some (Basic Tbitarray)) (Some 6) []);
   ("10101", Build_Property "TeamIndex" (Some (Basic Tint)) None []);
   ("00011", Build_Property "TeamFlag" (Some (Basic Tbitarray)) (Some 11) []);
   ("10011", Build_Property "HomeBase" (Some (Basic Tint)) None [])].

Definition WorldInfo2Props : list (string * Property) :=
  [("00011", Build_Property "TimeDilation" (Some (Basic Tint)) None []);
   ("01101", Build_Property "WorldGravityZ" (Some (Basic Tint)) None [])].

Definition class_dict_literal : list (option string * Class) :=
  [(None, Build_Class "FirstServerObject" FirstServerObjectProps None);
   (Some "00001000100000000111111011011000", Build_Class "FirstClientObject" FirstClientObjectProps None);
   (Some "10001000000000000000000000000000", Build_Class "FirstServerObject" FirstServerObjectProps None);
   (Some "00101100100100010000000000000000", Build_Class "MatineeActor" MatineeActorProps None);
   (Some "00011100001100100100000000000000", Build_Class "TrBaseTurret_BloodEagle" TrBaseTurretProps
      None);
   (Some "00111100001100100100000000000000", Build_Class "TrBaseTurret_DiamondSword" TrBaseTurretProps
      None);
   (Some "01010111000101011110000000000000", Build_Class "TrCTFBase_BloodEagle" [] None);
   (Some "00110111000101011110000000000000", Build_Class "TrCTFBase_DiamondSword" [] None);
   (Some "01111000100110010100000000000000", Build_Class "TrDevice_Blink" TrDeviceProps None);
   (Some "01000011100110010100000000000000", Build_Class "TrDevice_ConcussionGrenade" TrDeviceProps None);
   (Some "01100101110110010100000000000000", Build_Class "TrDevice_GrenadeLauncher_Light" TrDeviceProps
      None);
   (Some "00111001001110010100000000000000", Build_Class "TrDevice_Twinfusor" TrDeviceProps None);
   (Some "01001000101110010100000000000000", Build_Class "TrDevice_LaserTargeter" TrDeviceProps None);
   (Some "01101100101110010100000000000000", Build_Class "TrDevice_LightAssaultRifle" TrDeviceProps None);
   (Some "01111100101110010100000000000000", Build_Class "TrDevice_LightSpinfusor" TrDeviceProps None);
   (Some "00100111101110010100000000000000", Build_Class "TrDevice_Melee_DS" TrDeviceProps None);
   (Some "01011001000001010100000000000000", Build_Class "TrDevice_Spinfusor_100X" TrDeviceProps None);
   (Some "01011000100001010100000000000000", Build_Class "TrDevice_UtilityPack_Soldier" TrDeviceProps
      None);
   (Some "01110101110110010100000000000000", Build_Class "TrDevice_GrenadeXL" TrDeviceProps None);
   (Some "01001011001001010100000000000000", Build_Class "TrDroppedPickup" TrDroppedPickupProps None);
   (Some "00100100101111010100000000000000", Build_Class "TrFlagCTF_BloodEagle" TrFlagCTFProps None);
   (Some "00110100101111010100000000000000", Build_Class "TrFlagCTF_DiamondSword" TrFlagCTFProps None);
   (Some "01110001101110110100000000000000", Build_Class "TrGameReplicationInfo"
      TrGameReplicationInfoProps None);
   (Some "01101101010100001100000000000000", Build_Class "TrInventoryManager" TrInventoryManagerProps
      None);
   (Some "01010000100101011110000000000000", Build_Class "TrInventoryStation_BloodEagle0101?"
      TrInventoryStationProps None);
   (Some "01000000100101011110000000000000", Build_Class "TrInventoryStation_BloodEagle0100?"
      TrInventoryStationProps None);
   (Some "01100000100101011110000000000000", Build_Class "TrInventoryStation_BloodEagle0110?"
      TrInventoryStationProps None);
   (Some "00100000100101011110000000000000", Build_Class "TrInventoryStation_BloodEagle0010?"
      TrInventoryStationProps None);
   (Some "01001000100101011110000000000000", Build_Class "TrInventoryStation_DiamondSword"
      TrInventoryStationProps None);
   (Some "01001011110100001100000000000000", Build_Class "TrInventoryStationCollision"
      TrInventoryStationCollisionProps None);
   (Some "00110001010000010100000000000000", Build_Class "TrPlayerController" TrPlayerControllerProps
      None);
   (Some "00111010100001100100000000000000", Build_Class "TrPlayerPawn" TrPlayerPawnProps None);
   (Some "00000110101111001100000000000000", Build_Class "TrPlayerReplicationInfo"
      TrPlayerReplicationInfoProps None);
   (Some "00111100100101011110000000000000", Build_Class "TrPowerGenerator_BloodEagle"
      TrPowerGeneratorProps None);
   (Some "01111100100101011110000000000000", Build_Class "TrPowerGenerator_DiamondSword"
      TrPowerGeneratorProps None);
   (Some "01111010010000101100000000000000", Build_Class "TrProj_BaseTurret" TrProj_BaseTurretProps None);
   (Some "00101010111000101100000000000000", Build_Class "TrProj_Spinfusor_100X" TrProj_SpinfusorProps
      None);
   (Some "01110010100010101100000000000000", Build_Class "TrRadarStation_BloodEagle" TrRadarStationProps
      None);
   (Some "01001010100010101100000000000000", Build_Class "TrRadarStation_DiamondSword"
      TrRadarStationProps None);
   (Some "00000000110010101100000000000000", Build_Class "TrRepairStationCollision" TrRepairStationProps
      None);
   (Some "00010011100001101100000000000000", Build_Class "TrServerSettingsInfo" TrServerSettingsInfoProps
      None);
   (Some "00000011110100001100000000000000", Build_Class "TrStationCollision" [] None);
   (Some "00100010100101011110000000000000", Build_Class "TrRepairStation_BloodEagle0010?"
      TrRepairStationProps None);
   (Some "01010010100101011110000000000000", Build_Class "TrRepairStation_BloodEagle0101?"
      TrRepairStationProps None);
   (Some "00110010100101011110000000000000", Build_Class "TrRepairStation_BloodEagle0011?"
      TrRepairStationProps None);
   (Some "01100010100101011110000000000000", Build_Class "TrRepairStation_BloodEagle0110?"
      TrRepairStationProps None);
   (Some "01011010100101011110000000000000", Build_Class "TrRepairStation_DiamondSword"
      TrRepairStationProps None);
   (Some "00100110100101011110000000000000", Build_Class "TrVehicleStation_BloodEagle" [] None);
   (Some "01100110100101011110000000000000", Build_Class "TrVehicleStation_DiamondSword" [] None);
   (Some "00100111010010011000000000000000", Build_Class "UTTeamInfo" UTTeamInfoFlags None);
   (Some "00000101100101011110000000000000", Build_Class "WorldInfo1" [] None);
   (Some "01010101111001011110000000000000", Build_Class "WorldInfo2" WorldInfo2Props None)].

(** A channel binding: [{'class': class_, 'instancename': instancename}].
    The binding refers to the descriptor object of the registry; the only
    assignment ever made to a descriptor is ['idsize'], made before the binding
    is stored and always with the value derived from its immutable ['props'],
    so the binding is kept here as the descriptor's value at binding time. *)
Record Binding := {
  binding_class : Class;
  binding_instancename : string
}.

(** <<
class ParserState():
    def __init__(self):
        ...
        self.class_dict = { None: {...}, '0000...': {...}, ... }
        self.instance_count = {}
        self.channels = {}
>> *)
Record ParserState := {
  class_dict : gmap (option string) Class;
  instance_count : gmap string Z;
  channels : gmap Z Binding
}.

Definition ParserState_init : ParserState :=
  {| class_dict := list_to_map class_dict_literal;
     instance_count := ∅;
     channels := ∅ |}.

(** ** Property values *)

(** The value objects.  Every attribute that [__init__] sets to [None] is an
    [option].  [PropertyValueFloat] keeps the float as the 32 bits that
    [struct.unpack('<f', ...)] read; [float2bitarray] gives them back except
    for a signalling NaN, which the conversion quiets, so no statement below
    about the bits of [tobitarray] covers a float value. *)
Inductive PropertyValue :=
  | PropertyValueMultipleChoice (value : option string) (valuebits : option bitarray)
  | PropertyValueString (size : option Z) (value : option string)
  | PropertyValueInt (value : option Z)
  | PropertyValueFloat (value : option bitarray)
  | PropertyValueBool (value : option bool)
  | PropertyValueFlag
  | PropertyValueBitarray (value : option bitarray)
  | PropertyValueMystery1
      (int1 int2 int3 int4 string1 string2 int5 int6 string3 : PropertyValue)
  | PropertyValueMystery2 (string1 string2 string3 : PropertyValue)
  | PropertyValueMystery3 (string1 string2 : PropertyValue)
  | PropertyValueStruct (member_list : list Member) (values : list PropertyValue)
  | PropertyValueParams (param_list : list Member) (presence : list bool)
      (values : list (option PropertyValue)).

(** [itertools.zip_longest] with the default fill value [None] *)
Fixpoint zip_longest {A B} (l1 : list A) (l2 : list B) : list (option A * option B) :=
  match l1 with
  | [] => map (fun b => (None, Some b)) l2
  | a :: l1' =>
      match l2 with
      | [] => (Some a, None) :: zip_longest l1' []
      | b :: l2' => (Some a, Some b) :: zip_longest l1' l2'
      end
  end.

(** The loop of [PropertyValueParams.tobitarray], on the presence flags and,
    for every entry of [values], the bits of [value.tobitarray()] or [None]
    for a [None] entry:
<<
        for present, value in zip_longest(self.presence, self.values):
            if present:
                allbits += bitarray([1])
                if value is not None:
                    allbits += value.tobitarray()
            else:
                allbits += bitarray([0])
>> *)
Definition Params_tobitarray_loop (presence : list bool)
    (values : list (option bitarray)) : bitarray :=
  flat_map (fun pv : option bool * option (option bitarray) =>
              match fst pv with
              | Some true =>
                  [true] ++ match snd pv with
                            | Some (Some valuebits) => valuebits
                            | _ => []
                            end
              | _ => [false]
              end)
           (zip_longest presence values).

(** The [tobitarray] methods of the value classes.  In
    [PropertyValueString] the attributes [size] and [value] are assigned
    together by [frombitarray], a value without a size does not occur. *)
Fixpoint PropertyValue_tobitarray (v : PropertyValue) : bitarray :=
  match v with
  | PropertyValueMultipleChoice value valuebits =>
      match value, valuebits with
      | Some _, Some bits => bits
      | _, _ => []
      end
  | PropertyValueString size value =>
      match value, size with
      | Some value, Some size =>
          int2bitarray size 32 ++
          (if (0 <? size)%Z
           then frombytes (list_ascii_of_string value) ++ of01 "00000000"
           else [])
      | _, _ => []
      end
  | PropertyValueInt value =>
      match value with Some n => int2bitarray n 32 | None => [] end
  | PropertyValueFloat value =>
      match value with Some pattern => pattern | None => [] end
  | PropertyValueBool value =>
      match value with Some b => [b] | None => [] end
  | PropertyValueFlag => []
  | PropertyValueBitarray value =>
      match value with Some bits => bits | None => [] end
  | PropertyValueMystery1 int1 int2 int3 int4 string1 string2 int5 int6 string3 =>
      PropertyValue_tobitarray int1 ++
      PropertyValue_tobitarray int2 ++
      PropertyValue_tobitarray int3 ++
      PropertyValue_tobitarray int4 ++
      PropertyValue_tobitarray string1 ++
      PropertyValue_tobitarray string2 ++
      PropertyValue_tobitarray int5 ++
      PropertyValue_tobitarray int6 ++
      PropertyValue_tobitarray string3
  | PropertyValueMystery2 string1 string2 string3 =>
      PropertyValue_tobitarray string1 ++
      PropertyValue_tobitarray string2 ++
      PropertyValue_tobitarray string3
  | PropertyValueMystery3 string1 string2 =>
      PropertyValue_tobitarray string1 ++
      PropertyValue_tobitarray string2
  | PropertyValueStruct _ values =>
      flat_map PropertyValue_tobitarray values
  | PropertyValueParams _ presence values =>
      Params_tobitarray_loop presence
        (map (option_map PropertyValue_tobitarray) values)
  end.

(** <<
    def frombitarray(self, bits, debug = False):
        stringsizebits, bits = getnbits(32, bits)
        self.size = toint(stringsizebits)
        if self.size > 0:
            self.value, bits = getstring(bits)
            if len(self.value) + 1 != self.size:
                raise ParseError(..., bits)
        else:
            self.value = ''
        return bits
>> *)
Definition PropertyValueString_frombitarray (bits : bitarray)
    : result (PropertyValue * bitarray) :=
  '(stringsizebits, bits) ← getnbits 32 bits;
  let size := toint stringsizebits in
  if (0 <? size)%Z then
    let '(value, bits) := getstring bits in
    let actual := (Z.of_nat (String.length value) + 1)%Z in
    if (actual =? size)%Z
    then Return (PropertyValueString (Some size) (Some value), bits)
    else Raise (ParseError (MsgStringSize actual size) bits)
  else Return (PropertyValueString (Some size) (Some ""%string), bits).

Definition PropertyValueInt_frombitarray (bits : bitarray)
    : result (PropertyValue * bitarray) :=
  '(valuebits, bits) ← getnbits 32 bits;
  Return (PropertyValueInt (Some (toint valuebits)), bits).

Definition PropertyValueFloat_frombitarray (bits : bitarray)
    : result (PropertyValue * bitarray) :=
  '(valuebits, bits) ← getnbits 32 bits;
  Return (PropertyValueFloat (Some valuebits), bits).

Definition PropertyValueBool_frombitarray (bits : bitarray)
    : result (PropertyValue * bitarray) :=
  '(valuebits, bits) ← getnbits 1 bits;
  Return (PropertyValueBool (Some (nth 0 valuebits false)), bits).

Definition PropertyValueFlag_frombitarray (bits : bitarray)
    : result (PropertyValue * bitarray) :=
  Return (PropertyValueFlag, bits).

Definition PropertyValueBitarray_frombitarray (bits : bitarray) (size : nat)
    : result (PropertyValue * bitarray) :=
  '(value, bits) ← getnbits size bits;
  Return (PropertyValueBitarray (Some value), bits).

Definition PropertyValueMystery1_frombitarray (bits : bitarray)
    : result (PropertyValue * bitarray) :=
  '(int1, bits) ← PropertyValueInt_frombitarray bits;
  '(int2, bits) ← PropertyValueInt_frombitarray bits;
  '(int3, bits) ← PropertyValueInt_frombitarray bits;
  '(int4, bits) ← PropertyValueInt_frombitarray bits;
  '(string1, bits) ← PropertyValueString_frombitarray bits;
  '(string2, bits) ← PropertyValueString_frombitarray bits;
  '(int5, bits) ← PropertyValueInt_frombitarray bits;
  '(int6, bits) ← PropertyValueInt_frombitarray bits;
  '(string3, bits) ← PropertyValueString_frombitarray bits;
  Return (PropertyValueMystery1 int1 int2 int3 int4 string1 string2 int5 int6 string3,
          bits).

Definition PropertyValueMystery2_frombitarray (bits : bitarray)
    : result (PropertyValue * bitarray) :=
  '(string1, bits) ← PropertyValueString_frombitarray bits;
  '(string2, bits) ← PropertyValueString_frombitarray bits;
  '(string3, bits) ← PropertyValueString_frombitarray bits;
  Return (PropertyValueMystery2 string1 string2 string3, bits).

Definition PropertyValueMystery3_frombitarray (bits : bitarray)
    : result (PropertyValue * bitarray) :=
  '(string1, bits) ← PropertyValueString_frombitarray bits;
  '(string2, bits) ← PropertyValueString_frombitarray bits;
  Return (PropertyValueMystery3 string1 string2, bits).

(** [parse_basic_property]: the value object is a local of the function, so
    it exists for the caller only when the function returns.  A ['type'] that
    is none of the basic ones raises the [RuntimeError] of the last branch; a
    [bitarray] without a ['size'] fails in [getnbits(None, bits)]. *)
Definition parse_basic_property (propertyname : string)
    (propertytype : option basic_type) (bits : bitarray) (size : option nat)
    : result (PropertyValue * bitarray) :=
  match propertytype with
  | Some Tstr => PropertyValueString_frombitarray bits
  | Some Tint => PropertyValueInt_frombitarray bits
  | Some Tfloat => PropertyValueFloat_frombitarray bits
  | Some Tbool => PropertyValueBool_frombitarray bits
  | Some Tflag => PropertyValueFlag_frombitarray bits
  | Some Tbitarray =>
      match size with
      | Some size => PropertyValueBitarray_frombitarray bits size
      | None => Raise (OtherError TypeErrorNoSize)
      end
  | Some TMystery1 => PropertyValueMystery1_frombitarray bits
  | Some TMystery2 => PropertyValueMystery2_frombitarray bits
  | Some TMystery3 => PropertyValueMystery3_frombitarray bits
  | None => Raise (OtherError (CodingErrorPropertyType (Some propertyname)))
  end.

(** The loop of [PropertyValueStruct.frombitarray]; [values] is the list
    filled so far, which the object keeps when a member raises. *)
Fixpoint PropertyValueStruct_loop (member_list : list Member) (bits : bitarray)
    (values : list PropertyValue) : list PropertyValue * result bitarray :=
  match member_list with
  | [] => (values, Return bits)
  | member :: rest =>
      match parse_basic_property (member_name member) (member_type member) bits
              (member_size member) with
      | Return (value, bits) => PropertyValueStruct_loop rest bits (values ++ [value])
      | Raise e => (values, Raise e)
      end
  end.

Definition PropertyValueStruct_frombitarray (member_list : list Member)
    (bits : bitarray) : PropertyValue * result bitarray :=
  let '(values, r) := PropertyValueStruct_loop member_list bits [] in
  (PropertyValueStruct member_list values, r).

(** The loop of [PropertyValueParams.frombitarray]:
<<
        for member in self.param_list:
            ...
            present, bits = getnbits(1, bits)
            self.presence.append(present[0])
            if present[0] == 1:
                value, bits = parse_basic_property(...)
            else:
                value = None
            self.values.append(value)
>> *)
Fixpoint PropertyValueParams_loop (param_list : list Member) (bits : bitarray)
    (presence : list bool) (values : list (option PropertyValue))
    : list bool * list (option PropertyValue) * result bitarray :=
  match param_list with
  | [] => (presence, values, Return bits)
  | member :: rest =>
      match getnbits 1 bits with
      | Raise e => (presence, values, Raise e)
      | Return (present, bits) =>
          let present0 := nth 0 present false in
          let presence := presence ++ [present0] in
          if present0 then
            match parse_basic_property (member_name member) (member_type member) bits
                    (member_size member) with
            | Return (value, bits) =>
                PropertyValueParams_loop rest bits presence (values ++ [Some value])
            | Raise e => (presence, values, Raise e)
            end
          else PropertyValueParams_loop rest bits presence (values ++ [None])
      end
  end.

Definition PropertyValueParams_frombitarray (param_list : list Member)
    (bits : bitarray) : PropertyValue * result bitarray :=
  let '(presence, values, r) := PropertyValueParams_loop param_list bits [] [] in
  (PropertyValueParams param_list presence values, r).

(** ** Objects: properties, instances and classes *)

(** <<
class ObjectProperty():
    def __init__(self, id_size = 6):
        self.propertyid_size = id_size
        self.propertyid = None
        self.property_ = { 'name' : 'Unknown' }
        self.value = None
>> *)
Record ObjectProperty := {
  propertyid_size : nat;
  propertyid : option Z;
  property_ : Property;
  op_value : option PropertyValue
}.

Definition UnknownProperty : Property :=
  {| property_name := "Unknown"; property_type_ := None;
     property_size := None; property_values := [] |}.

Definition ObjectProperty_init (id_size : nat) : ObjectProperty :=
  {| propertyid_size := id_size; propertyid := None;
     property_ := UnknownProperty; op_value := None |}.

(** [elif propertytype:] a missing type and an empty list or tuple are false. *)
Definition type_is_true (propertytype : option property_type) : bool :=
  match propertytype with
  | None => false
  | Some (TypeList []) => false
  | Some (TypeTuple []) => false
  | Some _ => true
  end.

(** [ObjectProperty.frombitarray]: the property after the call and the
    outcome.  The bare [except:] around [parse_basic_property] leaves an
    empty [PropertyValueBitarray] as the value and re-raises. *)
Definition ObjectProperty_frombitarray (self : ObjectProperty) (bits : bitarray)
    (class_ : Class) : ObjectProperty * result bitarray :=
  match getnbits (propertyid_size self) bits with
  | Raise e => (self, Raise e)
  | Return (propertyidbits, bits) =>
      let propertykey := to01 propertyidbits in
      let property_ := default UnknownProperty (dict_get (class_props class_) propertykey) in
      let self := {| propertyid_size := propertyid_size self;
                     propertyid := Some (toint propertyidbits);
                     property_ := property_;
                     op_value := op_value self |} in
      let set_value v := {| propertyid_size := propertyid_size self;
                            propertyid := propertyid self;
                            property_ := property_;
                            op_value := Some v |} in
      let propertyname := property_name property_ in
      let propertytype := property_type_ property_ in
      let propertysize := property_size property_ in
      let propertyvalues := property_values property_ in
      match propertyvalues with
      | _ :: _ =>
          let empty := PropertyValueMultipleChoice None None in
          match propertysize with
          | None => (set_value empty, Raise (OtherError TypeErrorNoSize))
          | Some size =>
              match getnbits size bits with
              | Raise e => (set_value empty, Raise e)
              | Return (valuebits, bits) =>
                  let value := default "Unknown"%string
                                 (dict_get propertyvalues (to01 valuebits)) in
                  (set_value (PropertyValueMultipleChoice (Some value) (Some valuebits)),
                   Return bits)
              end
          end
      | [] =>
          if type_is_true propertytype then
            match propertytype with
            | Some (TypeList param_list) =>
                let '(value, r) := PropertyValueParams_frombitarray param_list bits in
                (set_value value, r)
            | Some (TypeTuple member_list) =>
                let '(value, r) := PropertyValueStruct_frombitarray member_list bits in
                (set_value value, r)
            | Some (Basic t) =>
                match parse_basic_property propertyname (Some t) bits propertysize with
                | Return (value, bits) => (set_value value, Return bits)
                | Raise e => (set_value (PropertyValueBitarray None), Raise e)
                end
            | None => (self, Raise (OtherError (CodingErrorPropertyType None)))
            end
          else
            (self, Raise (ParseError (MsgUnknownProperty propertykey (class_name class_))
                            bits))
      end
  end.

(** <<
    def tobitarray(self):
        bits = bitarray(endian='little')
        if self.propertyid is not None:
            bits.extend(int2bitarray(self.propertyid, self.propertyid_size))
        if self.value is not None:
            bits.extend(self.value.tobitarray())
        return bits
>> *)
Definition ObjectProperty_tobitarray (self : ObjectProperty) : bitarray :=
  match propertyid self with
  | Some id => int2bitarray id (propertyid_size self)
  | None => []
  end ++
  match op_value self with
  | Some value => PropertyValue_tobitarray value
  | None => []
  end.

(** <<
class ObjectInstance():
    def __init__(self, is_rpc = False):
        self.class_ = None
        self.properties = []
        self.is_rpc = is_rpc
>> ([class_] is never assigned again and is left out.) *)
Record ObjectInstance := {
  properties : list ObjectProperty;
  is_rpc : bool
}.

(** The loop of [ObjectInstance.frombitarray]:
<<
        while bits:
            property_ = ObjectProperty(id_size = class_['idsize'])
            self.properties.append(property_)
            bits = property_.frombitarray(bits, class_, debug = debug)
        return bits
>>
    [fuel] bounds the number of iterations; an iteration that returns has
    consumed [idsize] bits, so [S (length bits)] iterations are enough
    unless [idsize] is 0, in which case the source may loop forever
    ([NoProgress]). *)
Fixpoint ObjectInstance_loop (fuel : nat) (bits : bitarray) (class_ : Class)
    (properties : list ObjectProperty) : list ObjectProperty * result bitarray :=
  match bits with
  | [] => (properties, Return bits)
  | _ :: _ =>
      match fuel with
      | O => (properties, Raise (OtherError NoProgress))
      | S fuel =>
          match class_idsize class_ with
          | None => (properties, Raise (OtherError KeyErrorIdsize))
          | Some id_size =>
              let '(property_, r) :=
                ObjectProperty_frombitarray (ObjectProperty_init id_size) bits class_ in
              match r with
              | Return bits => ObjectInstance_loop fuel bits class_ (properties ++ [property_])
              | Raise e => (properties ++ [property_], Raise e)
              end
          end
      end
  end.

Definition ObjectInstance_frombitarray (self : ObjectInstance) (bits : bitarray)
    (class_ : Class) : ObjectInstance * result bitarray :=
  let '(props, r) := ObjectInstance_loop (S (length bits)) bits class_ (properties self) in
  ({| properties := props; is_rpc := is_rpc self |}, r).

Definition ObjectInstance_tobitarray (self : ObjectInstance) : bitarray :=
  flat_map ObjectProperty_tobitarray (properties self).

(** <<
class ObjectClass():
    def __init__(self):
        self.classid = None
>> *)
Record ObjectClass := { classid : option Z }.

(** [classbits[5:] = False] *)
Definition clear_from (n : nat) (bits : bitarray) : bitarray :=
  firstn n bits ++ repeat false (length bits - n).

(** <<
    def getclasskey(self):
        classbits = int2bitarray(self.classid, 32)
        if classbits[0:5] == bitarray('10001'):
            classbits[5:] = False
        return classbits.to01()
>> *)
Definition getclasskey (classid : Z) : string :=
  let classbits := int2bitarray classid 32 in
  let classbits :=
    if decide (firstn 5 classbits = of01 "10001") then clear_from 5 classbits
    else classbits in
  to01 classbits.

(** <<
    def frombitarray(self, bits, state, debug = False):
        classbits, bits = getnbits(32, bits)
        self.classid = toint(classbits)
        classkey = self.getclasskey()
        if classkey not in state.class_dict:
            classname = 'unknown%d' % len(state.class_dict)
            state.class_dict[classkey] = { 'name' : classname,
                                           'props' : {} }
        return bits
>> *)
Definition register_unknown (classkey : string) (state : ParserState) : ParserState :=
  match class_dict state !! Some classkey with
  | Some _ => state
  | None =>
      let classname := ("unknown" +:+ pretty (size (class_dict state)))%string in
      {| class_dict :=
           <[Some classkey := {| class_name := classname; class_props := [];
                                 class_idsize := None |}]> (class_dict state);
         instance_count := instance_count state;
         channels := channels state |}
  end.

Definition ObjectClass_frombitarray (self : ObjectClass) (bits : bitarray)
    (state : ParserState) : ObjectClass * ParserState * result bitarray :=
  match getnbits 32 bits with
  | Raise e => (self, state, Raise e)
  | Return (classbits, bits) =>
      let classid := toint classbits in
      let classkey := getclasskey classid in
      ({| classid := Some classid |}, register_unknown classkey state, Return bits)
  end.

Definition ObjectClass_tobitarray (self : ObjectClass) : bitarray :=
  match classid self with
  | Some id => int2bitarray id 32
  | None => []
  end.

(** ** Payloads *)

(** <<
class PayloadData():
    def __init__(self, reliable = False):
        self.reliable = reliable
        self.size = None
        self.object_class = None
        self.object_deleted = False
        self.instancename = None
        self.instance = None
        self.bitsleftreason = None
        self.bitsleft = None
>> [nr_of_payload_bits] is the attribute that [frombitarray] adds. *)
Record PayloadData := {
  reliable : bool;
  pd_size : option Z;
  nr_of_payload_bits : option nat;
  object_class : option ObjectClass;
  object_deleted : bool;
  instancename : option string;
  instance : option ObjectInstance;
  bitsleftreason : option message;
  bitsleft : option bitarray
}.

Definition PayloadData_init (reliable : bool) : PayloadData :=
  {| reliable := reliable; pd_size := None; nr_of_payload_bits := None;
     object_class := None; object_deleted := false; instancename := None;
     instance := None; bitsleftreason := None; bitsleft := None |}.

(** [len(prop_keys[0]) if prop_keys else 6] *)
Definition derive_idsize (props : list (string * Property)) : nat :=
  match props with
  | (key, _) :: _ => String.length key
  | [] => 6
  end.

(** ['%s_%d' % (classname, n)] *)
Definition format_instancename (classname : string) (n : Z) : string :=
  (classname +:+ "_" +:+ pretty n)%string.

(** The binding of a channel to the descriptor registered under [key]:
<<
                classname = class_['name']
                prop_keys = list(class_['props'].keys())
                class_['idsize'] = len(prop_keys[0]) if prop_keys else 6
                state.instance_count[classname] = state.instance_count.get(classname, -1) + 1
                instancename = '%s_%d' % (classname, state.instance_count[classname])
                state.channels[channel] = { 'class' : class_,
                                            'instancename' : instancename }
>> *)
Definition with_idsize (class_ : Class) : Class :=
  {| class_name := class_name class_;
     class_props := class_props class_;
     class_idsize := Some (derive_idsize (class_props class_)) |}.

Definition next_count (state : ParserState) (classname : string) : Z :=
  (default (-1) (instance_count state !! classname) + 1)%Z.

Definition new_binding (state : ParserState) (class_ : Class) : Binding :=
  {| binding_class := with_idsize class_;
     binding_instancename :=
       format_instancename (class_name class_) (next_count state (class_name class_)) |}.

Definition bind_channel (key : option string) (class_ : Class) (channel : Z)
    (state : ParserState) : ParserState :=
  {| class_dict := <[key := with_idsize class_]> (class_dict state);
     instance_count :=
       <[class_name class_ := next_count state (class_name class_)]> (instance_count state);
     channels := <[channel := new_binding state class_]> (channels state) |}.

(** The statements of the [try] block up to the binding of the channel:
<<
            if channel not in state.channels:
                newinstance = True
                self.object_class = ObjectClass()
                payloadbits = self.object_class.frombitarray(payloadbits, state, debug = debug)
                class_ = state.class_dict[self.object_class.getclasskey() if channel != 0 else None]
                ...
            else:
                newinstance = False
                class_ = state.channels[channel]['class']
                instancename = state.channels[channel]['instancename']
>>
    It yields the [object_class] attribute, the state, and either the
    exception raised or [(newinstance, class_, instancename, payloadbits)]. *)
Definition PayloadData_bind (payloadbits : bitarray) (channel : Z) (state : ParserState)
    : option ObjectClass * ParserState * result (bool * Class * string * bitarray) :=
  match channels state !! channel with
  | None =>
      let '(oc, state, r) := ObjectClass_frombitarray {| classid := None |} payloadbits state in
      match r with
      | Raise e => (Some oc, state, Raise e)
      | Return payloadbits =>
          let key := if decide (channel ≠ 0%Z)
                     then option_map getclasskey (classid oc)
                     else None in
          match class_dict state !! key with
          | None => (Some oc, state, Raise (OtherError KeyErrorClass))
          | Some class_ =>
              let b := new_binding state class_ in
              (Some oc, bind_channel key class_ channel state,
               Return (true, binding_class b, binding_instancename b, payloadbits))
          end
      end
  | Some binding =>
      (None, state,
       Return (false, binding_class binding, binding_instancename binding, payloadbits))
  end.

(** Assignments to the attributes of a payload. *)
Definition set_size (self : PayloadData) (size : Z) (nbits : nat) : PayloadData :=
  {| reliable := reliable self; pd_size := Some size; nr_of_payload_bits := Some nbits;
     object_class := object_class self; object_deleted := object_deleted self;
     instancename := instancename self; instance := instance self;
     bitsleftreason := bitsleftreason self; bitsleft := bitsleft self |}.

Definition set_object_class (self : PayloadData) (oc : ObjectClass) : PayloadData :=
  {| reliable := reliable self; pd_size := pd_size self;
     nr_of_payload_bits := nr_of_payload_bits self;
     object_class := Some oc; object_deleted := object_deleted self;
     instancename := instancename self; instance := instance self;
     bitsleftreason := bitsleftreason self; bitsleft := bitsleft self |}.

Definition set_instance (self : PayloadData) (name : string) (inst : ObjectInstance)
    : PayloadData :=
  {| reliable := reliable self; pd_size := pd_size self;
     nr_of_payload_bits := nr_of_payload_bits self;
     object_class := object_class self; object_deleted := object_deleted self;
     instancename := Some name; instance := Some inst;
     bitsleftreason := bitsleftreason self; bitsleft := bitsleft self |}.

Definition set_object_deleted (self : PayloadData) : PayloadData :=
  {| reliable := reliable self; pd_size := pd_size self;
     nr_of_payload_bits := nr_of_payload_bits self;
     object_class := object_class self; object_deleted := true;
     instancename := instancename self; instance := instance self;
     bitsleftreason := bitsleftreason self; bitsleft := bitsleft self |}.

Definition set_bitsleft (self : PayloadData) (msg : message) (bits : bitarray)
    : PayloadData :=
  {| reliable := reliable self; pd_size := pd_size self;
     nr_of_payload_bits := nr_of_payload_bits self;
     object_class := object_class self; object_deleted := object_deleted self;
     instancename := instancename self; instance := instance self;
     bitsleftreason := Some msg; bitsleft := Some bits |}.

Definition del_channel (state : ParserState) (channel : Z) : ParserState :=
  {| class_dict := class_dict state;
     instance_count := instance_count state;
     channels := delete channel (channels state) |}.

(** The rest of the [try] block, after the channel is bound:
<<
            self.instancename = instancename
            self.instance = ObjectInstance(is_rpc = self.reliable and not newinstance)
            payloadbits = self.instance.frombitarray(payloadbits, class_, state, debug = debug)
            if payloadbits:
                raise ParseError('Bits of payload left over',
                                 payloadbits)
            if self.size == 0:
                self.object_deleted = True
                del state.channels[channel]
>> *)
Definition PayloadData_decode (self : PayloadData) (newinstance : bool) (class_ : Class)
    (name : string) (payloadbits : bitarray) (channel : Z) (state : ParserState)
    : PayloadData * ParserState * result unit :=
  let '(inst, r) :=
    ObjectInstance_frombitarray
      {| properties := []; is_rpc := reliable self && negb newinstance |}
      payloadbits class_ in
  let self := set_instance self name inst in
  match r with
  | Raise e => (self, state, Raise e)
  | Return ((_ :: _) as payloadbits) =>
      (self, state, Raise (ParseError MsgPayloadLeftOver payloadbits))
  | Return [] =>
      if decide (pd_size self = Some 0%Z) then
        match channels state !! channel with
        | None => (self, state, Raise (OtherError KeyErrorChannel))
        | Some _ => (set_object_deleted self, del_channel state channel, Return ())
        end
      else (self, state, Return ())
  end.

(** The [try] block of [PayloadData.frombitarray] without its [except]
    clause: the payload and the state after it, and the exception if one was
    raised. *)
Definition PayloadData_try (self : PayloadData) (payloadbits : bitarray) (channel : Z)
    (state : ParserState) : PayloadData * ParserState * result unit :=
  let '(oc, state, r) := PayloadData_bind payloadbits channel state in
  let self := match oc with Some oc => set_object_class self oc | None => self end in
  match r with
  | Raise e => (self, state, Raise e)
  | Return (newinstance, class_, name, payloadbits) =>
      PayloadData_decode self newinstance class_ name payloadbits channel state
  end.

(** The size field, with its escape:
<<
        payloadsizebits, bits = getnbits(14, bits)
        if payloadsizebits[10] and payloadsizebits[13]:
            payloadsizebits = payloadsizebits[:-1]
            bits.insert(0, True)
>>
    It yields the size bits and the stream after them. *)
Definition read_payloadsize (bits : bitarray) : result (bitarray * bitarray) :=
  '(payloadsizebits, bits) ← getnbits 14 bits;
  if nth 10 payloadsizebits false && nth 13 payloadsizebits false
  then Return (removelast payloadsizebits, true :: bits)
  else Return (payloadsizebits, bits).

(** <<
    def frombitarray(self, bits, channel, state, debug = False):
        ...
        self.nr_of_payload_bits = len(payloadsizebits)
        self.size = toint(payloadsizebits)
        payloadbits, bits = getnbits(self.size, bits)
        originalpayloadbits = bitarray(payloadbits)
        try:
            ...
        except ParseError as e:
            self.bitsleftreason = str(e)
            self.bitsleft = e.bitsleft
        return bits
>>
    Exceptions other than [ParseError] pass through the [except] clause. *)
Definition PayloadData_frombitarray (self : PayloadData) (bits : bitarray) (channel : Z)
    (state : ParserState) : PayloadData * ParserState * result bitarray :=
  match read_payloadsize bits with
  | Raise e => (self, state, Raise e)
  | Return (payloadsizebits, bits) =>
      let size := toint payloadsizebits in
      let self := set_size self size (length payloadsizebits) in
      match getnbits (Z.to_nat size) bits with
      | Raise e => (self, state, Raise e)
      | Return (payloadbits, bits) =>
          let '(self, state, r) := PayloadData_try self payloadbits channel state in
          match r with
          | Return _ => (self, state, Return bits)
          | Raise (ParseError msg bitsleft) =>
              (set_bitsleft self msg bitsleft, state, Return bits)
          | Raise (OtherError f) => (self, state, Raise (OtherError f))
          end
      end
  end.

(** <<
    def tobitarray(self):
        bits = bitarray(endian = 'little')
        if self.size is not None:
            bits.extend(int2bitarray(self.size, self.nr_of_payload_bits))
        if self.object_class is not None:
            bits.extend(self.object_class.tobitarray())
        if self.instance is not None:
            bits.extend(self.instance.tobitarray())
        if self.bitsleft is not None:
            bits.extend(self.bitsleft)
        return bits
>> *)
Definition PayloadData_tobitarray (self : PayloadData) : bitarray :=
  match pd_size self, nr_of_payload_bits self with
  | Some size, Some nbits => int2bitarray size nbits
  | _, _ => []
  end ++
  match object_class self with
  | Some oc => ObjectClass_tobitarray oc
  | None => []
  end ++
  match instance self with
  | Some inst => ObjectInstance_tobitarray inst
  | None => []
  end ++
  match bitsleft self with
  | Some bits => bits
  | None => []
  end.

(** ** Channels, packet parts and packets *)

(** <<
class ChannelData():
    def __init__(self):
        self.channel = None
        self.counter = None
        self.unknownbits = None
        self.payload = None
>> *)
Record ChannelData := {
  channel : option Z;
  counter : option Z;
  unknownbits : option bitarray;
  payload : option PayloadData
}.

Definition ChannelData_init : ChannelData :=
  {| channel := None; counter := None; unknownbits := None; payload := None |}.

(** <<
    def frombitarray(self, bits, with_counter, state, debug = False):
        channelbits, bits = getnbits(10, bits)
        self.channel = toint(channelbits)
        if with_counter:
            counterbits, bits = getnbits(5, bits)
            self.counter = toint(counterbits)
            self.unknownbits, bits = getnbits(8, bits)
        self.payload = PayloadData(reliable = with_counter)
        bits = self.payload.frombitarray(bits, self.channel, state, debug = debug)
        return bits
>> *)
Definition ChannelData_frombitarray (self : ChannelData) (bits : bitarray)
    (with_counter : bool) (state : ParserState)
    : ChannelData * ParserState * result bitarray :=
  match getnbits 10 bits with
  | Raise e => (self, state, Raise e)
  | Return (channelbits, bits) =>
      let ch := toint channelbits in
      let header : ChannelData * result bitarray :=
        if with_counter then
          match getnbits 5 bits with
          | Raise e =>
              ({| channel := Some ch; counter := counter self;
                  unknownbits := unknownbits self; payload := payload self |}, Raise e)
          | Return (counterbits, bits) =>
              match getnbits 8 bits with
              | Raise e =>
                  ({| channel := Some ch; counter := Some (toint counterbits);
                      unknownbits := unknownbits self; payload := payload self |}, Raise e)
              | Return (unknown, bits) =>
                  ({| channel := Some ch; counter := Some (toint counterbits);
                      unknownbits := Some unknown; payload := payload self |}, Return bits)
              end
          end
        else
          ({| channel := Some ch; counter := counter self;
              unknownbits := unknownbits self; payload := payload self |}, Return bits) in
      match header with
      | (self, Raise e) => (self, state, Raise e)
      | (self, Return bits) =>
          let '(pd, state, r) :=
            PayloadData_frombitarray (PayloadData_init with_counter) bits ch state in
          ({| channel := channel self; counter := counter self;
              unknownbits := unknownbits self; payload := Some pd |}, state, r)
      end
  end.

(** [ChannelData.tobitarray].  The source fails on a [None] channel, counter
    bits or payload, which only an object whose [frombitarray] raised has;
    such an attribute contributes no bits here. *)
Definition ChannelData_tobitarray (self : ChannelData) : bitarray :=
  match channel self with Some ch => int2bitarray ch 10 | None => [] end ++
  match counter self with
  | Some c => int2bitarray c 5 ++ default [] (unknownbits self)
  | None => []
  end ++
  match payload self with Some pd => PayloadData_tobitarray pd | None => [] end.

(** <<
class PacketData():
    def __init__(self):
        self.flag1a = None
        self.unknownbits11 = None
        self.unknownbits10 = None
        self.channel_data = None
>> *)
Record PacketData := {
  flag1a : option bitarray;
  unknownbits11 : option bool;
  unknownbits10 : option bitarray;
  channel_data : option ChannelData
}.

Definition PacketData_init : PacketData :=
  {| flag1a := None; unknownbits11 := None; unknownbits10 := None;
     channel_data := None |}.

(** The first part of [PacketData.frombitarray], up to the choice of
    [channel_with_counter]:
<<
        self.flag1a, bits = getnbits(2, bits)
        if self.flag1a == bitarray('11'):
            self.unknownbits11 = True
            self.flag1a = None
            self.flag1a, bits = getnbits(2, bits)
        if self.flag1a == bitarray('00'):
            channel_with_counter = False
        elif self.flag1a == bitarray('01'):
            channel_with_counter = True
        elif self.flag1a == bitarray('10'):
            channel_with_counter = True
            self.unknownbits10, bits = getnbits(2, bits)
            if self.unknownbits10 != bitarray('11'):
                raise ParseError(..., bits)
        else:
            raise ParseError(..., bits)
>> *)
Definition PacketData_flags (self : PacketData) (bits : bitarray)
    : PacketData * result (bool * bitarray) :=
  match getnbits 2 bits with
  | Raise e => (self, Raise e)
  | Return (f, bits) =>
      let escaped : PacketData * result (bitarray * bitarray) :=
        if decide (f = of01 "11") then
          match getnbits 2 bits with
          | Raise e =>
              ({| flag1a := None; unknownbits11 := Some true;
                  unknownbits10 := unknownbits10 self;
                  channel_data := channel_data self |}, Raise e)
          | Return (f, bits) =>
              ({| flag1a := Some f; unknownbits11 := Some true;
                  unknownbits10 := unknownbits10 self;
                  channel_data := channel_data self |}, Return (f, bits))
          end
        else
          ({| flag1a := Some f; unknownbits11 := unknownbits11 self;
              unknownbits10 := unknownbits10 self;
              channel_data := channel_data self |}, Return (f, bits)) in
      match escaped with
      | (self, Raise e) => (self, Raise e)
      | (self, Return (f, bits)) =>
          if decide (f = of01 "00") then (self, Return (false, bits))
          else if decide (f = of01 "01") then (self, Return (true, bits))
          else if decide (f = of01 "10") then
            match getnbits 2 bits with
            | Raise e => (self, Raise e)
            | Return (u, bits) =>
                let self := {| flag1a := flag1a self; unknownbits11 := unknownbits11 self;
                               unknownbits10 := Some u;
                               channel_data := channel_data self |} in
                if decide (u ≠ of01 "11")
                then (self, Raise (ParseError (MsgUnknownbits10 (to01 u)) bits))
                else (self, Return (true, bits))
            end
          else (self, Raise (ParseError (MsgFlag1a (to01 f)) bits))
      end
  end.

(** <<
        self.channel_data = ChannelData()
        bits = self.channel_data.frombitarray(bits, channel_with_counter, state, debug = debug)
        return bits
>> *)
Definition PacketData_frombitarray (self : PacketData) (bits : bitarray)
    (state : ParserState) : PacketData * ParserState * result bitarray :=
  match PacketData_flags self bits with
  | (self, Raise e) => (self, state, Raise e)
  | (self, Return (channel_with_counter, bits)) =>
      let '(cd, state, r) :=
        ChannelData_frombitarray ChannelData_init bits channel_with_counter state in
      ({| flag1a := flag1a self; unknownbits11 := unknownbits11 self;
          unknownbits10 := unknownbits10 self; channel_data := Some cd |}, state, r)
  end.

(** <<
    def tobitarray(self):
        bits = bitarray(endian = 'little')
        if self.unknownbits11:
            bits.extend('11')
        if self.flag1a:
            bits.extend(self.flag1a)
        if self.unknownbits10 is not None:
            bits.extend(self.unknownbits10)
        if self.channel_data:
            bits.extend(self.channel_data.tobitarray())
        return bits
>> *)
Definition PacketData_tobitarray (self : PacketData) : bitarray :=
  match unknownbits11 self with Some true => of01 "11" | _ => [] end ++
  default [] (flag1a self) ++
  default [] (unknownbits10 self) ++
  match channel_data self with Some cd => ChannelData_tobitarray cd | None => [] end.

(** <<
class PacketAck():
    def __init__(self):
        self.acknr = None
>> *)
Record PacketAck := { acknr : option Z }.

Definition PacketAck_frombitarray (self : PacketAck) (bits : bitarray)
    : PacketAck * result bitarray :=
  match getnbits 14 bits with
  | Raise e => (self, Raise e)
  | Return (acknrbits, bits) => ({| acknr := Some (toint acknrbits) |}, Return bits)
  end.

(** [int2bitarray(self.acknr, 14)]; a [None] number, which fails in the
    source, contributes no bits. *)
Definition PacketAck_tobitarray (self : PacketAck) : bitarray :=
  match acknr self with Some n => int2bitarray n 14 | None => [] end.

(** The elements of [Packet.parts]; [isinstance(part, PacketData)] tells
    them apart. *)
Inductive Part :=
  | PartData (part : PacketData)
  | PartAck (part : PacketAck).

(** <<
class Packet():
    def __init__(self):
        self.seqnr = None
        self.parts = []
        self.paddingbits = None
>> *)
Record Packet := {
  seqnr : option Z;
  parts : list Part;
  paddingbits : option bitarray
}.

Definition Packet_init : Packet :=
  {| seqnr := None; parts := []; paddingbits := None |}.

(** <<
    def tobitarray(self):
        bits = int2bitarray(self.seqnr, 14)
        for part in self.parts:
            if isinstance(part, PacketData):
                bits.extend('0')
            else:
                bits.extend('1')
            bits.extend(part.tobitarray())
        bits.extend('1')
        if self.paddingbits:
            bits += self.paddingbits
        return bits
>> *)
Definition Part_tobitarray (part : Part) : bitarray :=
  match part with
  | PartData pd => of01 "0" ++ PacketData_tobitarray pd
  | PartAck pa => of01 "1" ++ PacketAck_tobitarray pa
  end.

Definition Packet_tobitarray (self : Packet) : bitarray :=
  match seqnr self with Some n => int2bitarray n 14 | None => [] end ++
  flat_map Part_tobitarray (parts self) ++
  of01 "1" ++
  default [] (paddingbits self).

(** The loop of [Packet.frombitarray]:
<<
        while bits:
            flag1, bits = getnbits(1, bits)
            if flag1 == bitarray('0'):
                part = PacketData()
                self.parts.append(part)
                bits = part.frombitarray(bits, state, debug = debug)
            elif len(bits) >= 14:
                part = PacketAck()
                self.parts.append(part)
                bits = part.frombitarray(bits, debug = debug)
            else:
                # the end
                break
>>
    Every iteration consumes the bit of [flag1], so [length bits] iterations
    are enough. *)
Fixpoint Packet_loop (fuel : nat) (bits : bitarray) (state : ParserState)
    (parts : list Part) : list Part * ParserState * result bitarray :=
  match bits with
  | [] => (parts, state, Return bits)
  | _ :: _ =>
      match fuel with
      | O => (parts, state, Raise (OtherError NoProgress))
      | S fuel =>
          match getnbits 1 bits with
          | Raise e => (parts, state, Raise e)
          | Return (flag1, bits) =>
              if decide (flag1 = of01 "0") then
                let '(part, state, r) := PacketData_frombitarray PacketData_init bits state in
                let parts := parts ++ [PartData part] in
                match r with
                | Return bits => Packet_loop fuel bits state parts
                | Raise e => (parts, state, Raise e)
                end
              else if 14 <=? length bits then
                let '(part, r) := PacketAck_frombitarray {| acknr := None |} bits in
                let parts := parts ++ [PartAck part] in
                match r with
                | Return bits => Packet_loop fuel bits state parts
                | Raise e => (parts, state, Raise e)
                end
              else (parts, state, Return bits)
          end
      end
  end.

(** <<
    def frombitarray(self, bits, state, debug = False):
        original_nbits = len(bits)
        seqnr, bits = getnbits(14, bits)
        self.seqnr = toint(seqnr)
        while bits:
            ...
        parsed_nbits = len(self.tobitarray())
        if len(bits) != original_nbits - parsed_nbits:
            raise RuntimeError('Coding error: ...')
        nr_of_padding_bits = 8 - (parsed_nbits % 8)
        if len(bits) != nr_of_padding_bits:
            raise ParseError('Left over bits at the end of the packet',
                             bits)
        self.paddingbits, bits = getnbits(nr_of_padding_bits, bits)
        return bits
>> *)
Definition nr_of_padding_bits (parsed_nbits : nat) : nat := 8 - (parsed_nbits mod 8).

Definition Packet_frombitarray (self : Packet) (bits : bitarray) (state : ParserState)
    : Packet * ParserState * result bitarray :=
  let original_nbits := length bits in
  match getnbits 14 bits with
  | Raise e => (self, state, Raise e)
  | Return (seqnrbits, bits) =>
      let '(ps, state, r) := Packet_loop (length bits) bits state (parts self) in
      let self := {| seqnr := Some (toint seqnrbits); parts := ps;
                     paddingbits := paddingbits self |} in
      match r with
      | Raise e => (self, state, Raise e)
      | Return bits =>
          let parsed_nbits := length (Packet_tobitarray self) in
          if decide (Z.of_nat (length bits) ≠
                     (Z.of_nat original_nbits - Z.of_nat parsed_nbits)%Z)
          then (self, state, Raise (OtherError CodingErrorParsedBits))
          else if decide (length bits ≠ nr_of_padding_bits parsed_nbits)
          then (self, state, Raise (ParseError MsgPacketLeftOver bits))
          else
            match getnbits (nr_of_padding_bits parsed_nbits) bits with
            | Raise e => (self, state, Raise e)
            | Return (padding, bits) =>
                ({| seqnr := seqnr self; parts := parts self;
                    paddingbits := Some padding |}, state, Return bits)
            end
      end
  end.

(** <<
class Parser():
    def __init__(self):
        self.parser_state = ParserState()

    def parsepacket(self, bits, debug = False, exception_on_failure = True):
        packet = Packet()
        ...
            packet.frombitarray(bits, self.parser_state, debug = debug)
        ...
        return packet
>>
    with the default [exception_on_failure]: the packet if [frombitarray]
    returned, the exception otherwise; and the parser state after the call. *)
Definition parsepacket (parser_state : ParserState) (bits : bitarray)
    : result Packet * ParserState :=
  let '(packet, state, r) := Packet_frombitarray Packet_init bits parser_state in
  match r with
  | Return _ => (Return packet, state)
  | Raise e => (Raise e, state)
  end.

(** ** Sessions *)

(** One call [PayloadData(reliable).frombitarray(bits, channel, state)]. *)
Record Call := {
  call_reliable : bool;
  call_bits : bitarray;
  call_channel : Z
}.

(** The parser state after a call; it is the state the next call sees also
    when the call raised. *)
Definition after_call (state : ParserState) (c : Call) : ParserState :=
  snd (fst (PayloadData_frombitarray (PayloadData_init (call_reliable c))
              (call_bits c) (call_channel c) state)).

(** The state of a session: the calls made on one [ParserState], in order. *)
Definition session (calls : list Call) : ParserState :=
  fold_left after_call calls ParserState_init.

(** The binding a call introduces: the channel had none before the call and
    has one after it. *)
Definition introduction (state state' : ParserState) (channel : Z) : option Binding :=
  match channels state !! channel with
  | Some _ => None
  | None => channels state' !! channel
  end.

(** The introductions of a sequence of calls, in order. *)
Fixpoint introductions (state : ParserState) (calls : list Call) : list Binding :=
  match calls with
  | [] => []
  | c :: rest =>
      let state' := after_call state c in
      match introduction state state' (call_channel c) with
      | Some b => b :: introductions state' rest
      | None => introductions state' rest
      end
  end.

(** The key under which the class of a new instance is looked up, given the
    body of its payload. *)
Definition lookup_key (channel : Z) (payloadbits : bitarray) : option string :=
  if decide (channel ≠ 0%Z) then Some (getclasskey (toint (take 32 payloadbits))) else None.





(** The descriptor the registry holds under the key [None]. *)
Definition root_class : Class :=
  {| class_name := "FirstServerObject"; class_props := FirstServerObjectProps;
     class_idsize := None |}.


(** ** Concrete streams *)

(** A data part [0 00 channel:u10 size:u14 body] for an unreliable frame. *)
Definition data_part (ch : Z) (body : bitarray) : bitarray :=
  of01 "0" ++ of01 "00" ++ int2bitarray ch 10 ++
  int2bitarray (Z.of_nat (length body)) 14 ++ body.

(** Five payloads on channel 1 for class [TrGameReplicationInfo]: the first
    introduces the class, each of the first four carries a [ServerName]
    string of declared size 1 and ends before the string's terminator, the
    fifth declares a string of size 2 and ends as well. *)
Definition ServerName_property (strsize : Z) : bitarray :=
  of01 "011010" ++ int2bitarray strsize 32.

Definition truncated_strings_packet : bitarray :=
  int2bitarray 0 14 ++
  data_part 1 (of01 "01110001101110110100000000000000" ++ ServerName_property 1) ++
  data_part 1 (ServerName_property 1) ++
  data_part 1 (ServerName_property 1) ++
  data_part 1 (ServerName_property 1) ++
  data_part 1 (ServerName_property 2) ++
  of01 "1" ++ of01 "0000".

(** Sequence number 0, seven acks and the terminator: 120 bits, 15 bytes. *)
Definition ack_part (n : Z) : bitarray := of01 "1" ++ int2bitarray n 14.

Definition seven_acks_packet : bitarray :=
  int2bitarray 0 14 ++
  ack_part 1 ++ ack_part 2 ++ ack_part 3 ++ ack_part 4 ++ ack_part 5 ++ ack_part 6 ++
  ack_part 7 ++ of01 "1".

(** A payload for channel 0: size 104, the class key of [FirstServerObject],
    property [10000000] ([mysteryproperty3]) with two empty strings. *)
Definition root_payload : bitarray :=
  int2bitarray 104 14 ++ of01 "10001000000000000000000000000000" ++
  of01 "10000000" ++ int2bitarray 0 32 ++ int2bitarray 0 32.

(** A payload of size 40 for a new channel: a class key that is not in the
    registry, followed by eight more bits. *)
Definition unknown_class_payload : bitarray :=
  int2bitarray 40 14 ++ of01 "11111111111111111111111111111111" ++ of01 "00000000".

(** A payload of size 0, and one of size 5. *)
Definition empty_payload : bitarray := int2bitarray 0 14.

Definition five_bit_payload : bitarray := int2bitarray 5 14 ++ of01 "10101".


(** A parameter list with one [int] member, and a stream that flags the
    member as present but ends before its 32 bits. *)
Definition one_int_param : list Member :=
  [{| member_name := "NewHealth"; member_type := Some Tint; member_size := None |}].

Definition two_int_params : list Member := one_int_param ++ one_int_param.

(** A payload of size 32 that holds the class key of [TrGameReplicationInfo]
    and nothing else, and the calls of a session that opens channel 1 with
    it, closes the channel and opens it again. *)
Definition class_only_payload : bitarray :=
  int2bitarray 32 14 ++ of01 "01110001101110110100000000000000".

Definition open_call : Call :=
  {| call_reliable := false; call_bits := class_only_payload; call_channel := 1 |}.

Definition close_call : Call :=
  {| call_reliable := false; call_bits := empty_payload; call_channel := 1 |}.

(** The packet that [seven_acks_packet] encodes. *)
Definition seven_acks : Packet :=
  {| seqnr := Some 0%Z;
     parts := map (fun n => PartAck {| acknr := Some n |}) [1; 2; 3; 4; 5; 6; 7]%Z;
     paddingbits := None |}.

(** The payload object and the outcome of a call. *)
Definition payload_after (state : ParserState) (c : Call) : PayloadData :=
  fst (fst (PayloadData_frombitarray (PayloadData_init (call_reliable c))
              (call_bits c) (call_channel c) state)).

Definition outcome_of (state : ParserState) (c : Call) : result bitarray :=
  snd (PayloadData_frombitarray (PayloadData_init (call_reliable c))
         (call_bits c) (call_channel c) state).

Definition short_call : Call :=
  {| call_reliable := false; call_bits := five_bit_payload; call_channel := 1 |}.

Definition unknown_class_call : Call :=
  {| call_reliable := false; call_bits := unknown_class_payload; call_channel := 5 |}.

Definition empty_call : Call :=
  {| call_reliable := false; call_bits := empty_payload; call_channel := 5 |}.

Definition root_call : Call :=
  {| call_reliable := false; call_bits := root_payload; call_channel := 0 |}.

(** ** Predicates for the round trips *)

(** The first 32 bits of a bitarray, padded with zero bits: what
    [toint] reads. *)
Definition pad32 (bits : bitarray) : bitarray :=
  map (fun i => nth i bits false) (seq 0 32).

(** No character of the string is the zero byte. *)
Definition no_zero (s : string) : Prop :=
  Forall (fun c => c <> zero) (list_ascii_of_string s).

(** The basic types whose value is the bits that one [getnbits] read: all
    but [str], the three composite types built from it, and [float], whose
    value goes through [struct.unpack] and [struct.pack]. *)
Definition simple_basic (t : basic_type) : bool :=
  match t with
  | Tint | Tbool | Tflag | Tbitarray => true
  | Tstr | Tfloat | TMystery1 | TMystery2 | TMystery3 => false
  end.

Definition simple_member (m : Member) : bool :=
  match member_type m with
  | Some t => simple_basic t
  | None => true
  end.

(** A property descriptor that leads to no string or float decoder. *)
Definition simple_property (d : Property) : bool :=
  match property_values d with
  | _ :: _ => true
  | [] =>
      match property_type_ d with
      | Some (Basic t) => simple_basic t
      | Some (TypeList members) => forallb simple_member members
      | Some (TypeTuple members) => forallb simple_member members
      | None => true
      end
  end.

(** Decoded objects all of whose properties have such a descriptor and a
    property id of at most 32 bits. *)
Definition plain_property (p : ObjectProperty) : bool :=
  (propertyid_size p <=? 32) && simple_property (property_ p).

Definition plain_instance (inst : ObjectInstance) : bool :=
  forallb plain_property (properties inst).

Definition plain_payload (p : PayloadData) : bool :=
  match instance p with
  | Some inst => plain_instance inst
  | None => true
  end.

Definition plain_part (part : Part) : bool :=
  match part with
  | PartData pd =>
      match channel_data pd with
      | Some cd =>
          match payload cd with
          | Some p => plain_payload p
          | None => true
          end
      | None => true
      end
  | PartAck _ => true
  end.

Definition plain_packet (packet : Packet) : bool :=
  forallb plain_part (parts packet).

(** The bits that [PropertyValueParams.tobitarray] emits for the given
    flags and values. *)
Definition Params_emitted (presence : list bool) (values : list (option PropertyValue))
    : bitarray :=
  Params_tobitarray_loop presence (map (option_map PropertyValue_tobitarray) values).

(** ** Bits accounted for *)

(** What a decoder that returned or raised a [ParseError] left of [bits],
    after the bits [emitted] by the object it filled. *)
Definition accounts_for (emitted bits : bitarray) (r : result bitarray) : Prop :=
  match r with
  | Return rest => emitted ++ rest = bits
  | Raise (ParseError _ bitsleft) => emitted ++ bitsleft = bits
  | Raise (OtherError _) => True
  end.

(** The bits of the body that a payload emits after its size field. *)
Definition body_bits (p : PayloadData) : bitarray :=
  match object_class p with Some oc => ObjectClass_tobitarray oc | None => [] end ++
  match instance p with Some inst => ObjectInstance_tobitarray inst | None => [] end.

(** ** [PropertyValueVector] *)

(** <<
class PropertyValueVector():
    def __init__(self):
        self.short1 = None
        self.short2 = None
        self.short3 = None
>> *)
Record PropertyValueVector := {
  short1 : option Z;
  short2 : option Z;
  short3 : option Z
}.

Definition PropertyValueVector_init : PropertyValueVector :=
  {| short1 := None; short2 := None; short3 := None |}.

(** <<
    def frombitarray(self, bits, debug = False):
        valuebits, bits = getnbits(16, bits)
        self.short1 = toint(valuebits)
        valuebits, bits = getnbits(16, bits)
        self.short2 = toint(valuebits)
        valuebits, bits = getnbits(16, bits)
        self.short3 = toint(valuebits)
        return bits
>> *)
Definition PropertyValueVector_frombitarray (self : PropertyValueVector) (bits : bitarray)
    : PropertyValueVector * result bitarray :=
  match getnbits 16 bits with
  | Raise e => (self, Raise e)
  | Return (valuebits, bits) =>
      let self := {| short1 := Some (toint valuebits); short2 := short2 self;
                     short3 := short3 self |} in
      match getnbits 16 bits with
      | Raise e => (self, Raise e)
      | Return (valuebits, bits) =>
          let self := {| short1 := short1 self; short2 := Some (toint valuebits);
                         short3 := short3 self |} in
          match getnbits 16 bits with
          | Raise e => (self, Raise e)
          | Return (valuebits, bits) =>
              ({| short1 := short1 self; short2 := short2 self;
                  short3 := Some (toint valuebits) |}, Return bits)
          end
      end
  end.

(** <<
    def tobitarray(self):
        if self.short3 is not None:
            return (int2bitarray(self.short1, 16) +
                    int2bitarray(self.short2, 16) +
                    int2bitarray(self.short3, 16))
        else:
            return bitarray()
>>
    With [short3] set and [short1] or [short2] not, which [frombitarray]
    never leaves, the source fails in [int2bitarray(None, 16)]; such a short
    contributes no bits here. *)
Definition PropertyValueVector_tobitarray (self : PropertyValueVector) : bitarray :=
  match short3 self with
  | Some s3 =>
      match short1 self with Some s1 => int2bitarray s1 16 | None => [] end ++
      match short2 self with Some s2 => int2bitarray s2 16 | None => [] end ++
      int2bitarray s3 16
  | None => []
  end.

(** ** Predicates for the exceptions of a parse *)

(** The exceptions that a [raise] statement of the module produces:
    [ParseError] and the two [RuntimeError]s.  The others are failures of a
    Python operation ([KeyError], [TypeError]) or a loop that never ends. *)
Definition raised_by_module (e : exn) : bool :=
  match e with
  | ParseError _ _ => true
  | OtherError (CodingErrorPropertyType (Some _)) => true
  | OtherError CodingErrorParsedBits => true
  | OtherError _ => false
  end.

(** The outcome of a decoder on [bits]: it returns a stream that is at
    least [n] bits shorter, or raises one of the exceptions above. *)
Definition advances (n : nat) (bits : bitarray) (r : result bitarray) : Prop :=
  match r with
  | Return rest => n + length rest <= length bits
  | Raise e => raised_by_module e = true
  end.

Definition rest_of {A} (r : result (A * bitarray)) : result bitarray :=
  match r with
  | Return (_, rest) => Return rest
  | Raise e => Raise e
  end.

(** A member or property of type [bitarray], and a property with
    ['values'], has a ['size']. *)
Definition member_sized (m : Member) : bool :=
  match member_type m with
  | Some Tbitarray => bool_decide (is_Some (member_size m))
  | _ => true
  end.

Definition property_sized (d : Property) : bool :=
  match property_values d with
  | _ :: _ => bool_decide (is_Some (property_size d))
  | [] =>
      match property_type_ d with
      | Some (Basic Tbitarray) => bool_decide (is_Some (property_size d))
      | Some (Basic _) => true
      | Some (TypeList members) => forallb member_sized members
      | Some (TypeTuple members) => forallb member_sized members
      | None => true
      end
  end.

(** A class all of whose properties are sized and whose property ids are
    not empty. *)
Definition class_sized (c : Class) : bool :=
  forallb (fun kp => property_sized (snd kp)) (class_props c) &&
  (1 <=? derive_idsize (class_props c)).

(** The invariant of the parser state: the registry has its entry [None],
    every class of the registry and of a binding is [class_sized], and the
    class of a binding has its ['idsize']. *)
Definition sound_state (state : ParserState) : Prop :=
  is_Some (class_dict state !! None) /\
  (forall key c, class_dict state !! key = Some c -> class_sized c = true) /\
  (forall ch b, channels state !! ch = Some b ->
     class_sized (binding_class b) = true /\
     class_idsize (binding_class b)
       = Some (derive_idsize (class_props (binding_class b)))).

(** The state of a [Parser] after [parsepacket] was called on each of the
    packets, in order, whether the calls returned or raised. *)
Definition Parser_after (packets : list bitarray) : ParserState :=
  fold_left (fun state bits => snd (parsepacket state bits)) packets ParserState_init.

(** ** Packets of acks *)

(** A packet that holds the given acks and padding bits and no data. *)
Definition ack_parts (acks : list Z) : list Part :=
  map (fun n => PartAck {| acknr := Some n |}) acks.

Definition ack_packet (seq : Z) (acks : list Z) (padding : bitarray) : Packet :=
  {| seqnr := Some seq; parts := ack_parts acks; paddingbits := Some padding |}.

(** ** The registry over time *)

(** Every class of the registry of [state] is still registered in [state']
    under the same key, with the same name and properties, and no instance
    counter of [state] is missing or smaller in [state']. *)
Definition registry_grows (state state' : ParserState) : Prop :=
  (forall key c, class_dict state !! key = Some c ->
     exists c', class_dict state' !! key = Some c' /\
       class_name c' = class_name c /\ class_props c' = class_props c) /\
  (forall name n, instance_count state !! name = Some n ->
     exists n', instance_count state' !! name = Some n' /\ (n <= n')%Z).

(** ** Streams for the round trips *)

(** The class key of [TrPlayerPawn], the descriptor a channel is bound to,
    and the property [HealthMax] with the value 1000. *)
Definition TrPlayerPawn_key : bitarray := of01 "00111010100001100100000000000000".

Definition TrPlayerPawn_class : Class :=
  with_idsize {| class_name := "TrPlayerPawn"; class_props := TrPlayerPawnProps;
                 class_idsize := None |}.

Definition HealthMax_property : bitarray := of01 "1111100" ++ int2bitarray 1000 32.

(** The RPC [ClientUpdateHUDHealth] with its first parameter present and
    its second absent. *)
Definition UpdateHUDHealth_property : bitarray :=
  of01 "0111011" ++ of01 "1" ++ int2bitarray 75 32 ++ of01 "0".

(** A payload that introduces a [TrPlayerPawn], a data part that carries it
    on channel 3, and a packet of that part and one ack; its 128 bits before
    the padding ask for eight padding bits. *)
Definition pawn_payload : bitarray :=
  int2bitarray 71 14 ++ TrPlayerPawn_key ++ HealthMax_property.

Definition pawn_channel : bitarray := int2bitarray 3 10 ++ pawn_payload.

Definition pawn_packet : bitarray :=
  int2bitarray 5 14 ++
  data_part 3 (TrPlayerPawn_key ++ HealthMax_property) ++
  ack_part 9 ++ of01 "1" ++ of01 "00000000".

(** A packet whose data part introduces a [TrPlayerController] and calls the
    RPC [ClientWriteLeaderboardStats] with its parameter, of type [None],
    flagged as present. *)
Definition leaderboard_packet : bitarray :=
  int2bitarray 0 14 ++
  data_part 2 (of01 "00110001010000010100000000000000" ++ of01 "10110110" ++ of01 "1") ++
  of01 "1" ++ of01 "0000000".

(** A string value of declared size 3, and the bits that follow it. *)
Definition hi_string : bitarray :=
  int2bitarray 3 32 ++ frombytes (list_ascii_of_string "hi") ++ of01 "00000000".


(** * Properties

    ** Reading bits *)

Lemma getnbits_Return n bits a b :
  getnbits n bits = Return (a, b) ->
  a = firstn n bits /\ b = skipn n bits /\ n <= length bits.
Proof.
  unfold getnbits. destruct (Nat.ltb_spec (length bits) n); [discriminate|].
  intros [= <- <-]. auto.
Qed.

Lemma getnbits_Raise n bits e :
  getnbits n bits = Raise e ->
  e = ParseError (MsgMoreBits n (length bits)) bits /\ length bits < n.
Proof.
  unfold getnbits. destruct (Nat.ltb_spec (length bits) n); [|discriminate].
  intros [= <-]. auto.
Qed.

Lemma ObjectInstance_loop_nil fuel class_ props :
  ObjectInstance_loop fuel [] class_ props = (props, Return []).
Proof. destruct fuel; reflexivity. Qed.

Lemma ObjectClass_frombitarray_short self bits state :
  length bits < 32 ->
  ObjectClass_frombitarray self bits state =
    (self, state, Raise (ParseError (MsgMoreBits 32 (length bits)) bits)).
Proof.
  intros H. unfold ObjectClass_frombitarray, getnbits.
  destruct (Nat.ltb_spec (length bits) 32); [reflexivity|lia].
Qed.

Lemma PayloadData_bind_bound payloadbits channel state b :
  channels state !! channel = Some b ->
  PayloadData_bind payloadbits channel state =
    (None, state, Return (false, binding_class b, binding_instancename b, payloadbits)).
Proof. intros H. unfold PayloadData_bind. rewrite H. reflexivity. Qed.

Lemma PayloadData_bind_short payloadbits channel state :
  channels state !! channel = None -> length payloadbits < 32 ->
  PayloadData_bind payloadbits channel state =
    (Some {| classid := None |}, state,
     Raise (ParseError (MsgMoreBits 32 (length payloadbits)) payloadbits)).
Proof.
  intros H Hl. unfold PayloadData_bind. rewrite H.
  rewrite ObjectClass_frombitarray_short by assumption. reflexivity.
Qed.


Lemma PayloadData_decode_attrs self newinstance class_ name payloadbits channel state p state' r :
  PayloadData_decode self newinstance class_ name payloadbits channel state = (p, state', r) ->
  pd_size p = pd_size self /\ nr_of_payload_bits p = nr_of_payload_bits self /\
  bitsleftreason p = bitsleftreason self /\ bitsleft p = bitsleft self /\
  object_class p = object_class self /\ reliable p = reliable self.
Proof.
  unfold PayloadData_decode.
  destruct (ObjectInstance_frombitarray _ payloadbits class_) as [inst [[|b rest]|e]].
  - destruct (decide _).
    + destruct (channels state !! channel); intros [= <- <- <-]; cbn; auto 10.
    + intros [= <- <- <-]; cbn; auto 10.
  - intros [= <- <- <-]; cbn; auto 10.
  - intros [= <- <- <-]; cbn; auto 10.
Qed.

Lemma PayloadData_try_attrs self payloadbits channel state p state' r :
  PayloadData_try self payloadbits channel state = (p, state', r) ->
  pd_size p = pd_size self /\ nr_of_payload_bits p = nr_of_payload_bits self /\
  bitsleftreason p = bitsleftreason self /\ bitsleft p = bitsleft self /\
  reliable p = reliable self.
Proof.
  unfold PayloadData_try.
  destruct (PayloadData_bind payloadbits channel state) as [[oc st1] [[[[ni c] nm] pb]|e]].
  - intros H. apply PayloadData_decode_attrs in H. destruct oc; cbn in H; intuition congruence.
  - intros [= <- <- <-]. destruct oc; cbn; auto.
Qed.

(** C10: a payload of declared size 0 on a channel without a binding fails in
    the 32-bit read of the class key on its empty body; the failure is
    captured on the payload (reason set, no bits left over), the payload is
    not marked deleted, the call returns, and the channel table, the instance
    counts and the class registry are what they were. *)
Theorem unbound_size0 rel bits channel state p state' r :
  PayloadData_frombitarray (PayloadData_init rel) bits channel state = (p, state', r) ->
  pd_size p = Some 0%Z ->
  channels state !! channel = None ->
  bitsleftreason p = Some (MsgMoreBits 32 0) /\ bitsleft p = Some [] /\
  object_deleted p = false /\ state' = state /\
  (exists rest, r = Return rest).
Proof.
  unfold PayloadData_frombitarray.
  destruct (read_payloadsize bits) as [[sz rest]|e] eqn:Hsz.
  2:{ intros [= <- <- <-]. discriminate. }
  destruct (getnbits _ rest) as [[payloadbits rest']|e] eqn:Hget.
  2:{ intros [= <- <- <-] [= Hz]. rewrite Hz in Hget. discriminate. }
  destruct (PayloadData_try _ payloadbits channel state) as [[p1 st1] r1] eqn:Htry.
  intros Hres Hsize Hch.
  pose proof (PayloadData_try_attrs _ _ _ _ _ _ _ Htry) as (Hs & _).
  assert (Hz : toint sz = 0%Z).
  { destruct r1 as [|[|]]; injection Hres as <- <- <-; cbn in Hsize;
      rewrite Hs in Hsize; injection Hsize; auto. }
  rewrite Hz in Hget. apply getnbits_Return in Hget as (-> & -> & _).
  unfold PayloadData_try in Htry.
  change (Z.to_nat 0) with 0%nat in *.
  rewrite PayloadData_bind_short in Htry; [|assumption|rewrite length_take; lia].
  injection Htry as <- <- <-. injection Hres as <- <- <-.
  cbn. eauto 10.
Qed.

Lemma PayloadData_decode_Raise self newinstance class_ name payloadbits channel state p state' e :
  PayloadData_decode self newinstance class_ name payloadbits channel state = (p, state', Raise e) ->
  state' = state.
Proof.
  unfold PayloadData_decode.
  destruct (ObjectInstance_frombitarray _ payloadbits class_) as [inst [[|b rest]|e']];
    [destruct (decide _); [destruct (channels state !! channel)|]| |];
    intros H; try discriminate H; injection H as <- <- <-; reflexivity.
Qed.

Lemma PayloadData_decode_channels self newinstance class_ name payloadbits channel state p state' r :
  PayloadData_decode self newinstance class_ name payloadbits channel state = (p, state', r) ->
  class_dict state' = class_dict state /\ instance_count state' = instance_count state /\
  ((state' = state /\ object_deleted p = object_deleted self) \/
   (pd_size self = Some 0%Z /\ is_Some (channels state !! channel) /\
    state' = del_channel state channel /\ object_deleted p = true /\ r = Return ())) /\
  (pd_size self = Some 0%Z -> is_Some (channels state !! channel) -> payloadbits = [] ->
   state' = del_channel state channel /\ object_deleted p = true /\ r = Return ()).
Proof.
  unfold PayloadData_decode, ObjectInstance_frombitarray.
  destruct (ObjectInstance_loop _ payloadbits class_ _) as [props [[|b rest]|e']] eqn:Hloop.
  - destruct (decide _) as [Hs|Hs]; cbn in Hs.
    + destruct (channels state !! channel) eqn:Hc; intros [= <- <- <-]; cbn.
      * split; [auto|]. split; [auto|]. split; [right; eauto 10|auto].
      * split; [auto|]. split; [auto|]. split; [left; auto|].
        intros _ [? [=]].
    + intros [= <- <- <-]; cbn. split; [auto|]. split; [auto|]. split; [left; auto|].
      intros; contradiction.
  - intros [= <- <- <-]; cbn. split; [auto|]. split; [auto|]. split; [left; auto|].
    intros _ _ ->. rewrite ObjectInstance_loop_nil in Hloop. discriminate.
  - intros [= <- <- <-]; cbn. split; [auto|]. split; [auto|]. split; [left; auto|].
    intros _ _ ->. rewrite ObjectInstance_loop_nil in Hloop. discriminate.
Qed.

Lemma PayloadData_frombitarray_eq self bits channel state sz rest body rest' :
  read_payloadsize bits = Return (sz, rest) ->
  getnbits (Z.to_nat (toint sz)) rest = Return (body, rest') ->
  PayloadData_frombitarray self bits channel state =
    let '(p1, st1, r1) :=
      PayloadData_try (set_size self (toint sz) (length sz)) body channel state in
    match r1 with
    | Return _ => (p1, st1, Return rest')
    | Raise (ParseError msg bitsleft) => (set_bitsleft p1 msg bitsleft, st1, Return rest')
    | Raise (OtherError f) => (p1, st1, Raise (OtherError f))
    end.
Proof. intros H1 H2. unfold PayloadData_frombitarray. rewrite H1, H2. reflexivity. Qed.

(** Every call fails on the size field, or on the body, leaving the state
    alone, or runs the [try] block on the body. *)
Lemma PayloadData_frombitarray_inv self bits channel state p state' r :
  PayloadData_frombitarray self bits channel state = (p, state', r) ->
  (exists e, read_payloadsize bits = Raise e /\ p = self /\ state' = state /\ r = Raise e) \/
  (exists sz rest e,
     read_payloadsize bits = Return (sz, rest) /\
     getnbits (Z.to_nat (toint sz)) rest = Raise e /\
     p = set_size self (toint sz) (length sz) /\ state' = state /\ r = Raise e) \/
  (exists sz rest body rest' p1 r1,
     read_payloadsize bits = Return (sz, rest) /\
     getnbits (Z.to_nat (toint sz)) rest = Return (body, rest') /\
     PayloadData_try (set_size self (toint sz) (length sz)) body channel state
       = (p1, state', r1) /\
     pd_size p = Some (toint sz) /\ nr_of_payload_bits p = Some (length sz) /\
     match r1 with
     | Return _ => p = p1 /\ r = Return rest'
     | Raise (ParseError msg bitsleft) => p = set_bitsleft p1 msg bitsleft /\ r = Return rest'
     | Raise (OtherError f) => p = p1 /\ r = Raise (OtherError f)
     end).
Proof.
  unfold PayloadData_frombitarray.
  destruct (read_payloadsize bits) as [[sz rest]|e] eqn:Hsz.
  2:{ intros [= <- <- <-]. left. eauto 10. }
  destruct (getnbits _ rest) as [[body rest']|e] eqn:Hget.
  2:{ intros [= <- <- <-]. right. left. eauto 10. }
  destruct (PayloadData_try _ body channel state) as [[p1 st1] r1] eqn:Htry.
  intros Hres. right. right. exists sz, rest, body, rest', p1, r1.
  pose proof (PayloadData_try_attrs _ _ _ _ _ _ _ Htry) as (Hs & Hn & _).
  cbn [pd_size nr_of_payload_bits set_size] in Hs, Hn.
  destruct r1 as [[]|[msg bl|f]]; injection Hres as <- <- <-;
    cbn [pd_size nr_of_payload_bits set_bitsleft]; rewrite ?Hs, ?Hn; auto 10.
Qed.

(** C4, as amended: when decoding a payload captures a parse error and the
    channel was bound before the call, or the declared size is below the 32
    bits of a class key, the parser state after the call equals the state
    before it. *)
Theorem captured_error_keeps_state rel bits channel state p state' r :
  PayloadData_frombitarray (PayloadData_init rel) bits channel state = (p, state', r) ->
  is_Some (bitsleftreason p) ->
  is_Some (channels state !! channel) \/ (exists n, pd_size p = Some n /\ (n < 32)%Z) ->
  state' = state.
Proof.
  intros H Hreason Hcase.
  apply PayloadData_frombitarray_inv in H
    as [(e & _ & _ & -> & _)|[(sz & rest & e & _ & _ & _ & -> & _)|
        (sz & rest & body & rest' & p1 & r1 & Hsz & Hget & Htry & Hsize & _ & Hr)]];
    [reflexivity|reflexivity|].
  pose proof (PayloadData_try_attrs _ _ _ _ _ _ _ Htry) as (_ & _ & Hbr & _). cbn in Hbr.
  destruct r1 as [[]|[msg bl|f]]; destruct Hr as [-> ->].
  - rewrite Hbr in Hreason. destruct Hreason; discriminate.
  - unfold PayloadData_try in Htry.
    destruct Hcase as [[b Hb]|(n & Hn & Hlt)].
    + rewrite (PayloadData_bind_bound _ _ _ _ Hb) in Htry.
      apply PayloadData_decode_Raise in Htry. auto.
    + destruct (channels state !! channel) as [b|] eqn:Hb.
      * rewrite (PayloadData_bind_bound _ _ _ _ Hb) in Htry.
        apply PayloadData_decode_Raise in Htry. auto.
      * apply getnbits_Return in Hget as (-> & -> & Hle).
        rewrite Hsize in Hn. injection Hn as <-.
        rewrite PayloadData_bind_short in Htry; [|assumption|rewrite length_take; lia].
        injection Htry as <- <- <-. auto.
  - rewrite Hbr in Hreason. destruct Hreason; discriminate.
Qed.

Lemma ObjectClass_frombitarray_long self bits state :
  32 <= length bits ->
  ObjectClass_frombitarray self bits state =
    ({| classid := Some (toint (take 32 bits)) |},
     register_unknown (getclasskey (toint (take 32 bits))) state,
     Return (drop 32 bits)).
Proof.
  intros H. unfold ObjectClass_frombitarray, getnbits.
  destruct (Nat.ltb_spec (length bits) 32); [lia|reflexivity].
Qed.

Lemma PayloadData_bind_unbound payloadbits channel state :
  channels state !! channel = None -> 32 <= length payloadbits ->
  let oc := {| classid := Some (toint (take 32 payloadbits)) |} in
  let st1 := register_unknown (getclasskey (toint (take 32 payloadbits))) state in
  PayloadData_bind payloadbits channel state =
    match class_dict st1 !! lookup_key channel payloadbits with
    | None => (Some oc, st1, Raise (OtherError KeyErrorClass))
    | Some class_ =>
        (Some oc, bind_channel (lookup_key channel payloadbits) class_ channel st1,
         Return (true, with_idsize class_,
                 binding_instancename (new_binding st1 class_), drop 32 payloadbits))
    end.
Proof.
  intros Hc Hl. unfold PayloadData_bind. rewrite Hc.
  rewrite ObjectClass_frombitarray_long by assumption. cbn [classid option_map].
  unfold lookup_key. destruct (decide (channel ≠ 0%Z)); reflexivity.
Qed.

Lemma register_unknown_attrs classkey state :
  instance_count (register_unknown classkey state) = instance_count state /\
  channels (register_unknown classkey state) = channels state.
Proof. unfold register_unknown. destruct (class_dict state !! Some classkey); auto. Qed.

Lemma register_unknown_lookup classkey state :
  is_Some (class_dict (register_unknown classkey state) !! Some classkey).
Proof.
  unfold register_unknown. destruct (class_dict state !! Some classkey) eqn:H.
  - rewrite H. eauto.
  - cbn. rewrite lookup_insert_eq. eauto.
Qed.

Lemma register_unknown_other classkey state key :
  key ≠ Some classkey ->
  class_dict (register_unknown classkey state) !! key = class_dict state !! key.
Proof.
  intros Hne. unfold register_unknown. destruct (class_dict state !! Some classkey); [auto|].
  cbn. rewrite lookup_insert_ne by congruence. reflexivity.
Qed.

(** A binding is removed by no step of the binding phase. *)
Lemma PayloadData_bind_channels payloadbits channel state oc state' r c :
  PayloadData_bind payloadbits channel state = (oc, state', r) ->
  is_Some (channels state !! c) -> is_Some (channels state' !! c).
Proof.
  intros H Hc. destruct (channels state !! channel) as [b|] eqn:Hb.
  - rewrite (PayloadData_bind_bound _ _ _ _ Hb) in H. injection H as <- <- <-. auto.
  - destruct (Nat.lt_ge_cases (length payloadbits) 32) as [Hl|Hl].
    + rewrite PayloadData_bind_short in H by assumption. injection H as <- <- <-. auto.
    + rewrite PayloadData_bind_unbound in H by assumption.
      set (st1 := register_unknown _ state) in *.
      assert (Hch : channels st1 = channels state) by apply register_unknown_attrs.
      destruct (class_dict st1 !! _); injection H as <- <- <-; rewrite ?Hch; auto.
      cbn. rewrite Hch. rewrite lookup_insert. case_decide; eauto.
Qed.

(** C6, as amended: decoding a payload of declared size 0 on a bound channel
    marks it deleted and removes the binding; a payload of declared size at
    least 32 on a channel without binding decodes the first 32 bits of its
    body as a class key, unless the stream ends before the declared size; a
    payload of declared size 1..31 on a channel without binding fails in the
    read of the class key, the error is captured with the whole body as
    [bitsleft], and the state, so also the channel, is left as it was; and a
    payload of any other size than 0 removes no binding. *)
Theorem channel_lifecycle rel bits channel state p state' r :
  PayloadData_frombitarray (PayloadData_init rel) bits channel state = (p, state', r) ->
  (* a payload of size 0 on a bound channel closes it *)
  (pd_size p = Some 0%Z -> is_Some (channels state !! channel) ->
     object_deleted p = true /\ channels state' = delete channel (channels state) /\
     bitsleftreason p = None /\ exists rest, r = Return rest) /\
  (* a payload of at least 32 bits on an unbound channel decodes a class prefix *)
  (forall n, pd_size p = Some n -> (32 <= n)%Z -> channels state !! channel = None ->
     exists sz rest,
       read_payloadsize bits = Return (sz, rest) /\
       (length rest < Z.to_nat n \/
        object_class p = Some {| classid := Some (toint (take 32 rest)) |})) /\
  (* a payload of another size removes no binding *)
  (pd_size p <> Some 0%Z ->
     forall c, is_Some (channels state !! c) -> is_Some (channels state' !! c)) /\
  (* a payload of 1..31 bits on an unbound channel fails in the class-key read *)
  (forall n, pd_size p = Some n -> (1 <= n < 32)%Z -> channels state !! channel = None ->
     state' = state /\ channels state' !! channel = None /\
     exists sz rest,
       read_payloadsize bits = Return (sz, rest) /\
       (length rest < Z.to_nat n \/
        (object_class p = Some {| classid := None |} /\ instance p = None /\
         bitsleftreason p = Some (MsgMoreBits 32 (Z.to_nat n)) /\
         bitsleft p = Some (take (Z.to_nat n) rest) /\
         r = Return (drop (Z.to_nat n) rest)))).
Proof.
  intros H.
  apply PayloadData_frombitarray_inv in H
    as [(e & _ & -> & -> & ->)|[(sz & rest & e & Hsz & Hget & -> & -> & ->)|
        (sz & rest & body & rest' & p1 & r1 & Hsz & Hget & Htry & Hsize & _ & Hr)]].
  { split; [|split; [|split]]; [discriminate|discriminate|auto|discriminate]. }
  { apply getnbits_Raise in Hget as [_ Hlt].
    split; [|split; [|split]]; cbn [pd_size set_size].
    - intros [= Hs]. rewrite Hs in Hlt. cbn in Hlt. lia.
    - intros n [= <-] _ _. eauto.
    - auto.
    - intros n [= <-] _ Hc. split; [reflexivity|]. split; [exact Hc|]. eauto. }
  pose proof (PayloadData_try_attrs _ _ _ _ _ _ _ Htry) as (Hs1 & _ & Hbr & _).
  cbn in Hs1, Hbr.
  pose proof (getnbits_Return _ _ _ _ Hget) as (Hbody & _ & Hlen).
  unfold PayloadData_try in Htry.
  destruct (PayloadData_bind body channel state) as [[oc st1] rb] eqn:Hbind.
  split; [|split; [|split]].
  - intros Hs [b Hb]. rewrite Hsize in Hs. injection Hs as Hs.
    rewrite (PayloadData_bind_bound _ _ _ _ Hb) in Hbind. injection Hbind as <- <- <-.
    apply PayloadData_decode_channels in Htry as (_ & _ & _ & Hdel).
    destruct Hdel as (-> & Hd & ->); [cbn [pd_size set_size]; rewrite Hs; reflexivity|eauto| |].
    { rewrite Hbody, Hs. reflexivity. }
    destruct Hr as [-> ->]. split; [auto|]. split; [reflexivity|]. split; [|eauto].
    congruence.
  - intros n Hn Hle Hc. exists sz, rest. split; [auto|]. right.
    rewrite Hsize in Hn. injection Hn as Hn.
    assert (Hl : 32 <= length body).
    { rewrite Hbody, length_take. lia. }
    rewrite PayloadData_bind_unbound in Hbind by assumption.
    assert (Hoc : oc = Some {| classid := Some (toint (take 32 body)) |}).
    { destruct (class_dict _ !! _); injection Hbind as <- <- <-; reflexivity. }
    assert (Hp1 : object_class p1 = oc).
    { subst oc. destruct rb as [[[[ni c] nm] pb]|e].
      - apply PayloadData_decode_attrs in Htry as (_ & _ & _ & _ & -> & _). reflexivity.
      - injection Htry as <- <- <-. reflexivity. }
    assert (Htk : take 32 body = take 32 rest).
    { rewrite Hbody. rewrite take_take. f_equal. lia. }
    rewrite <- Htk, <- Hoc, <- Hp1.
    destruct r1 as [[]|[msg bl|f]]; destruct Hr as [-> ->]; reflexivity.
  - intros Hne c Hc. rewrite Hsize in Hne.
    pose proof (PayloadData_bind_channels _ _ _ _ _ _ c Hbind Hc) as Hc1.
    destruct rb as [[[[ni cl] nm] pb]|e].
    + apply PayloadData_decode_channels in Htry as (_ & _ & [[-> _]|(Hz & _)] & _); [auto|].
      destruct oc; cbn [pd_size set_size set_object_class] in Hz; congruence.
    + injection Htry as <- <- <-. auto.
  - intros n Hn Hrange Hc. rewrite Hsize in Hn. injection Hn as Hn.
    assert (Hl : length body = Z.to_nat n).
    { rewrite Hbody, length_take, Hn. lia. }
    rewrite PayloadData_bind_short in Hbind by (assumption || lia).
    injection Hbind as <- <- <-. injection Htry as <- <- <-.
    destruct Hr as [-> ->].
    split; [reflexivity|]. split; [exact Hc|].
    exists sz, rest. split; [exact Hsz|]. right.
    cbn [object_class instance bitsleftreason bitsleft set_bitsleft set_object_class
         set_size PayloadData_init].
    rewrite Hl. rewrite Hbody at 1. rewrite Hn.
    pose proof (getnbits_Return _ _ _ _ Hget) as (_ & -> & _). rewrite Hn.
    repeat split; reflexivity.
Qed.


(** ** New instances *)

Lemma new_binding_register classkey state class_ :
  new_binding (register_unknown classkey state) class_ = new_binding state class_.
Proof.
  unfold new_binding, next_count.
  destruct (register_unknown_attrs classkey state) as [-> _]. reflexivity.
Qed.

Lemma PayloadData_decode_instancename self newinstance class_ name payloadbits channel state p state' r :
  PayloadData_decode self newinstance class_ name payloadbits channel state = (p, state', r) ->
  instancename p = Some name.
Proof.
  unfold PayloadData_decode.
  destruct (ObjectInstance_frombitarray _ payloadbits class_) as [inst [[|b rest]|e']];
    [destruct (decide _); [destruct (channels state !! channel)|]| |];
    intros H; injection H as <- <- <-; reflexivity.
Qed.

(** What a call does on an unbound channel when its body holds the 32 bits
    of a class key and the looked-up descriptor exists. *)
Lemma PayloadData_frombitarray_new self bits channel state p state' r sz rest class_ :
  PayloadData_frombitarray self bits channel state = (p, state', r) ->
  channels state !! channel = None ->
  read_payloadsize bits = Return (sz, rest) ->
  (32 <= toint sz)%Z -> Z.to_nat (toint sz) <= length rest ->
  let st1 := register_unknown (getclasskey (toint (take 32 rest))) state in
  class_dict st1 !! lookup_key channel rest = Some class_ ->
  state' = bind_channel (lookup_key channel rest) class_ channel st1 /\
  object_class p = Some {| classid := Some (toint (take 32 rest)) |} /\
  instancename p = Some (binding_instancename (new_binding state class_)).
Proof.
  intros H Hc Hsz Hle Hlen st1 Hcls.
  apply PayloadData_frombitarray_inv in H
    as [(e & He & _)|[(sz' & rest0 & e & Hsz' & Hget & _)|
        (sz' & rest0 & body & rest' & p1 & r1 & Hsz' & Hget & Htry & Hsize & _ & Hr)]].
  { congruence. }
  { rewrite Hsz in Hsz'. injection Hsz' as <- <-.
    apply getnbits_Raise in Hget as [_ Hlt]. lia. }
  rewrite Hsz in Hsz'. injection Hsz' as <- <-.
  apply getnbits_Return in Hget as (Hbody & _ & _).
  assert (Hl : 32 <= length body) by (rewrite Hbody, length_take; lia).
  assert (Htk : take 32 body = take 32 rest).
  { rewrite Hbody, take_take. f_equal. lia. }
  unfold PayloadData_try in Htry.
  rewrite PayloadData_bind_unbound in Htry by assumption.
  unfold lookup_key in Htry, Hcls. rewrite Htk in Htry. fold st1 in Htry.
  unfold lookup_key. rewrite Hcls in Htry.
  pose proof (PayloadData_decode_instancename _ _ _ _ _ _ _ _ _ _ Htry) as Hname.
  pose proof (PayloadData_decode_attrs _ _ _ _ _ _ _ _ _ _ Htry) as (_ & _ & _ & _ & Hoc & _).
  apply PayloadData_decode_channels in Htry as (_ & _ & [[-> _]|(Hz & _)] & _).
  2:{ cbn [pd_size set_size set_object_class] in Hz. injection Hz as Hz. lia. }
  unfold st1 in Hname. rewrite new_binding_register in Hname.
  split; [reflexivity|].
  destruct r1 as [[]|[msg bl|f]]; destruct Hr as [-> ->]; cbn [object_class instancename set_bitsleft];
    rewrite Hoc, Hname; auto.
Qed.

(** C2, as amended: channel 0 has no binding until its first payload; that
    payload consumes the first 32 bits of its body as a class key, and binds
    channel 0 to the descriptor registered under [None], the root class,
    whatever key was read, with the next instance name of that class. *)
Theorem channel0_first_payload rel bits state p state' r sz rest root :
  PayloadData_frombitarray (PayloadData_init rel) bits 0 state = (p, state', r) ->
  channels state !! 0%Z = None ->
  class_dict state !! None = Some root ->
  read_payloadsize bits = Return (sz, rest) ->
  (32 <= toint sz)%Z -> Z.to_nat (toint sz) <= length rest ->
  object_class p = Some {| classid := Some (toint (take 32 rest)) |} /\
  channels state' !! 0%Z = Some (new_binding state root) /\
  instancename p = Some (format_instancename (class_name root)
                           (next_count state (class_name root))).
Proof.
  intros H Hc Hroot Hsz Hle Hlen.
  eapply PayloadData_frombitarray_new with (class_ := root) in H; try eassumption.
  - destruct H as (-> & Hoc & Hname). split; [exact Hoc|]. split; [|exact Hname].
    cbn [channels bind_channel]. rewrite lookup_insert_eq.
    rewrite new_binding_register. reflexivity.
  - unfold lookup_key. destruct (decide (0 ≠ 0)%Z) as [Hne|_]; [contradiction|].
    rewrite register_unknown_other by discriminate. exact Hroot.
Qed.

Lemma triple_eta {A B C} (x : A * B * C) : x = (fst (fst x), snd (fst x), snd x).
Proof. destruct x as [[a b] c]. reflexivity. Qed.

Lemma channel0_class_prefix_counterexample :
  channels ParserState_init !! 0%Z = None /\
  outcome_of ParserState_init root_call = Return [] /\
  bitsleftreason (payload_after ParserState_init root_call) = None /\
  object_class (payload_after ParserState_init root_call)
    = Some {| classid := Some 17%Z |} /\
  PayloadData_tobitarray (payload_after ParserState_init root_call) = root_payload.
Proof. repeat split; vm_compute; reflexivity. Qed.

Lemma channel0_first_payload_witness :
  object_class (payload_after ParserState_init root_call)
    = Some {| classid := Some 17%Z |} /\
  channels (after_call ParserState_init root_call) !! 0%Z =
    Some {| binding_class := with_idsize root_class;
            binding_instancename := "FirstServerObject_0" |} /\
  instancename (payload_after ParserState_init root_call)
    = Some "FirstServerObject_0"%string.
Proof.
  apply (channel0_first_payload false root_payload ParserState_init _ _ _
           (take 14 root_payload) (drop 14 root_payload) root_class (triple_eta _)).
  - reflexivity.
  - vm_compute. reflexivity.
  - vm_compute. reflexivity.
  - vm_compute. discriminate.
  - vm_compute. lia.
Defined.

(** ** Instance names *)

(** The effect of one call on the instance counters and on the channel it
    is made on. *)
Lemma after_call_introduction state c :
  let state' := after_call state c in
  match introduction state state' (call_channel c) with
  | None => instance_count state' = instance_count state
  | Some b =>
      let C := class_name (binding_class b) in
      binding_instancename b = format_instancename C (next_count state C) /\
      instance_count state' = <[C := next_count state C]> (instance_count state)
  end.
Proof.
  unfold after_call, introduction.
  destruct (PayloadData_frombitarray _ _ _ state) as [[p state'] r] eqn:H. cbn [fst snd].
  destruct (channels state !! call_channel c) as [b|] eqn:Hc.
  - apply PayloadData_frombitarray_inv in H
      as [(e & _ & _ & -> & _)|[(sz & rest & e & _ & _ & _ & -> & _)|
          (sz & rest & body & rest' & p1 & r1 & Hsz & Hget & Htry & _)]];
      [reflexivity|reflexivity|].
    unfold PayloadData_try in Htry.
    rewrite (PayloadData_bind_bound _ _ _ _ Hc) in Htry.
    apply PayloadData_decode_channels in Htry as (_ & -> & _). reflexivity.
  - apply PayloadData_frombitarray_inv in H
      as [(e & _ & _ & -> & _)|[(sz & rest & e & _ & _ & _ & -> & _)|
          (sz & rest & body & rest' & p1 & r1 & Hsz & Hget & Htry & _)]];
      [rewrite Hc; reflexivity|rewrite Hc; reflexivity|].
    apply getnbits_Return in Hget as (Hbody & _ & Hlen).
    unfold PayloadData_try in Htry.
    destruct (Nat.lt_ge_cases (length body) 32) as [Hl|Hl].
    + rewrite PayloadData_bind_short in Htry by assumption.
      injection Htry as <- <- <-. rewrite Hc. reflexivity.
    + rewrite PayloadData_bind_unbound in Htry by assumption.
      set (st1 := register_unknown _ state) in *.
      destruct (register_unknown_attrs (getclasskey (toint (take 32 body))) state)
        as [Hic Hch]. fold st1 in Hic, Hch.
      destruct (class_dict st1 !! lookup_key (call_channel c) body) as [class_|].
      * apply PayloadData_decode_channels in Htry as (_ & _ & [[-> _]|(Hz & _)] & _).
        2:{ cbn [pd_size set_size set_object_class] in Hz. injection Hz as Hz.
            rewrite Hbody, length_take, Hz in Hl. cbn in Hl. lia. }
        cbn [channels bind_channel instance_count]. rewrite lookup_insert_eq.
        cbn [new_binding binding_class binding_instancename with_idsize class_name].
        unfold next_count. rewrite Hic. auto.
      * injection Htry as <- <- <-. rewrite Hch, Hc. exact Hic.
Qed.

Lemma next_count_insert state state' C C' :
  instance_count state' = <[C := next_count state C]> (instance_count state) ->
  next_count state' C' = if decide (C = C') then (next_count state C + 1)%Z
                         else next_count state C'.
Proof.
  intros H. unfold next_count at 1. rewrite H, lookup_insert.
  destruct (decide (C = C')) as [->|]; reflexivity.
Qed.

Lemma introductions_names calls : forall state (n : string -> nat),
  (forall C, next_count state C = Z.of_nat (n C)) ->
  forall C i b,
    filter (fun b => class_name (binding_class b) = C) (introductions state calls) !! i
      = Some b ->
    binding_instancename b = format_instancename C (Z.of_nat (n C + i)).
Proof.
  induction calls as [|c calls IH]; intros state n Hn C i b; cbn [introductions].
  - rewrite filter_nil. discriminate.
  - pose proof (after_call_introduction state c) as Hstep. cbn zeta in Hstep.
    destruct (introduction state (after_call state c) (call_channel c)) as [b0|].
    + destruct Hstep as [Hname Hcount].
      set (C0 := class_name (binding_class b0)) in *.
      assert (Hn' : forall C', next_count (after_call state c) C' =
                Z.of_nat (if decide (C0 = C') then S (n C') else n C')).
      { intros C'. rewrite (next_count_insert _ _ _ _ Hcount).
        destruct (decide (C0 = C')) as [<-|]; rewrite Hn; lia. }
      rewrite filter_cons. fold C0. destruct (decide (C0 = C)) as [HC|HC].
      * destruct i as [|i]; simpl.
        -- intros [= Hb]. subst b. rewrite Hname. fold C0. rewrite HC, Hn. do 2 f_equal. lia.
        -- intros Hi. rewrite (IH _ _ Hn' C i b Hi).
           destruct (decide (C0 = C)); [|contradiction]. do 2 f_equal. lia.
      * intros Hi. rewrite (IH _ _ Hn' C i b Hi).
        destruct (decide (C0 = C)); [contradiction|]. reflexivity.
    + apply (IH _ n); intros C'. unfold next_count. rewrite Hstep. apply Hn.
Qed.

(** C8: in a session, the i-th binding (counted from 0) introduced for the
    class named C, on whatever channels, has the instance name "C_i". *)
Theorem instance_naming calls C i b :
  filter (fun b => class_name (binding_class b) = C)
    (introductions ParserState_init calls) !! i = Some b ->
  binding_instancename b = format_instancename C (Z.of_nat i).
Proof.
  intros H. apply (introductions_names calls ParserState_init (fun _ => 0)) in H.
  - exact H.
  - intros C'. reflexivity.
Qed.


(** ** The width of property keys *)













(** ** Parameter lists *)

Lemma zip_longest_app_l {A B} (l1 e : list A) (l2 : list B) :
  length l1 = length l2 ->
  zip_longest (l1 ++ e) l2 = zip_longest l1 l2 ++ map (fun a => (Some a, None)) e.
Proof.
  revert l2. induction l1 as [|a l1 IH]; intros [|b l2] Hl; try discriminate.
  - cbn. induction e as [|a e IHe]; cbn; [reflexivity|]. f_equal. exact IHe.
  - cbn. f_equal. apply IH. injection Hl. auto.
Qed.

Lemma zip_longest_app_r {A B} (l1 : list A) (l2 e : list B) :
  length l1 = length l2 ->
  zip_longest l1 (l2 ++ e) = zip_longest l1 l2 ++ map (fun b => (None, Some b)) e.
Proof.
  revert l2. induction l1 as [|a l1 IH]; intros [|b l2] Hl; try discriminate.
  - reflexivity.
  - cbn. f_equal. apply IH. injection Hl. auto.
Qed.

Lemma Params_loop_missing_values presence extra values :
  length presence = length values ->
  Params_tobitarray_loop (presence ++ extra) values =
  Params_tobitarray_loop presence values ++ extra.
Proof.
  intros Hl. unfold Params_tobitarray_loop.
  rewrite zip_longest_app_l by assumption. rewrite flat_map_app. f_equal.
  induction extra as [|[] extra IH]; cbn; [reflexivity| |]; f_equal; exact IH.
Qed.

Lemma Params_loop_missing_presence presence values (extra : list (option bitarray)) :
  length presence = length values ->
  Params_tobitarray_loop presence (values ++ extra) =
  Params_tobitarray_loop presence values ++ repeat false (length extra).
Proof.
  intros Hl. unfold Params_tobitarray_loop.
  rewrite zip_longest_app_r by assumption. rewrite flat_map_app. f_equal.
  induction extra as [|v extra IH]; cbn; [reflexivity|]. f_equal. exact IH.
Qed.

(** C7, as amended: [PropertyValueParams.tobitarray] does not consult the
    member list.  Past the common length of the presence flags and the
    values, a flag without a value is emitted as it is (a 1 when the member
    was flagged present), a value without a flag as a single 0; a member with
    neither contributes no bit. *)
Theorem Params_tobitarray_missing param_list presence values :
  length presence = length values ->
  (forall other_list,
     PropertyValue_tobitarray (PropertyValueParams other_list presence values) =
     PropertyValue_tobitarray (PropertyValueParams param_list presence values)) /\
  (forall extra,
     PropertyValue_tobitarray (PropertyValueParams param_list (presence ++ extra) values) =
     PropertyValue_tobitarray (PropertyValueParams param_list presence values) ++ extra) /\
  (forall extra,
     PropertyValue_tobitarray (PropertyValueParams param_list presence (values ++ extra)) =
     PropertyValue_tobitarray (PropertyValueParams param_list presence values) ++
     repeat false (length extra)).
Proof.
  intros Hl. split; [reflexivity|]. split; intros extra; cbn [PropertyValue_tobitarray].
  - apply Params_loop_missing_values. rewrite length_map. exact Hl.
  - rewrite map_app, Params_loop_missing_presence by (rewrite length_map; exact Hl).
    rewrite length_map. reflexivity.
Qed.

Lemma Params_tobitarray_counterexample :
  (exists presence values e,
     PropertyValueParams_frombitarray one_int_param (of01 "100") =
       (PropertyValueParams one_int_param presence values, Raise e) /\
     length values < length one_int_param /\
     PropertyValue_tobitarray (PropertyValueParams one_int_param presence values) <> [false]) /\
  PropertyValue_tobitarray (PropertyValueParams two_int_params [] []) <> [false; false].
Proof.
  split; [|discriminate].
  exists [true], [], (ParseError (MsgMoreBits 32 2) [false; false]).
  split; [reflexivity|]. split; [cbn; lia|discriminate].
Qed.

Lemma Params_tobitarray_missing_witness :
  PropertyValue_tobitarray (PropertyValueParams one_int_param ([] ++ [true]) []) =
  PropertyValue_tobitarray (PropertyValueParams one_int_param [] []) ++ [true].
Proof.
  apply (Params_tobitarray_missing one_int_param [] []). reflexivity.
Defined.

(** ** The size field *)





(** ** Evaluations *)

(** C1, where the code departs from it: the parser accepts
    [truncated_strings_packet], and the re-serialized packet has the length of
    the input but is not the input. *)
Theorem truncated_strings_roundtrip :
  exists packet,
    fst (parsepacket ParserState_init truncated_strings_packet) = Return packet /\
    length (Packet_tobitarray packet) = length truncated_strings_packet /\
    Packet_tobitarray packet <> truncated_strings_packet.
Proof.
  eexists. split; [vm_compute; reflexivity|]. split; [vm_compute; reflexivity|].
  apply (bool_decide_eq_false_1 (_ = _)). vm_compute. reflexivity.
Qed.

Lemma nr_of_padding_bits_aligned n : n mod 8 = 0 -> nr_of_padding_bits n = 8.
Proof. intros H. unfold nr_of_padding_bits. rewrite H. reflexivity. Qed.

(** C3, where the code departs from it: [seven_acks_packet] is the encoding
    of a sequence number, seven acks and the terminator, its 120 bits are
    byte-aligned and no bit remains after the terminator, and the parser
    rejects it with "Left over bits at the end of the packet". *)
Theorem seven_acks_rejected :
  Packet_tobitarray seven_acks = seven_acks_packet /\
  length seven_acks_packet mod 8 = 0 /\
  fst (parsepacket ParserState_init seven_acks_packet) =
    Raise (ParseError MsgPacketLeftOver []).
Proof. repeat split; vm_compute; reflexivity. Qed.

Lemma captured_error_counterexample :
  outcome_of ParserState_init unknown_class_call = Return [] /\
  bitsleftreason (payload_after ParserState_init unknown_class_call)
    = Some (MsgUnknownProperty "000000" "unknown52") /\
  bitsleft (payload_after ParserState_init unknown_class_call) = Some (of01 "00") /\
  after_call ParserState_init unknown_class_call <> ParserState_init /\
  class_dict (after_call ParserState_init unknown_class_call)
    !! Some "11111111111111111111111111111111"%string =
    Some {| class_name := "unknown52"; class_props := []; class_idsize := Some 6 |} /\
  instance_count (after_call ParserState_init unknown_class_call) !! "unknown52"%string
    = Some 0%Z /\
  is_Some (channels (after_call ParserState_init unknown_class_call) !! 5%Z).
Proof.
  split; [vm_compute; reflexivity|]. split; [vm_compute; reflexivity|].
  split; [vm_compute; reflexivity|].
  split; [|split; [vm_compute; reflexivity|split; [vm_compute; reflexivity|]]].
  - intros H. apply (f_equal (fun s => instance_count s !! "unknown52"%string)) in H.
    vm_compute in H. discriminate H.
  - vm_compute. eauto.
Qed.

Lemma captured_error_keeps_state_witness :
  is_Some (bitsleftreason (payload_after (session [open_call]) short_call)) /\
  is_Some (channels (session [open_call]) !! 1%Z) /\
  after_call (session [open_call]) short_call = session [open_call].
Proof.
  assert (H2 : is_Some (bitsleftreason (payload_after (session [open_call]) short_call))).
  { vm_compute. eexists. reflexivity. }
  assert (H3 : is_Some (channels (session [open_call]) !! 1%Z)).
  { vm_compute. eexists. reflexivity. }
  split; [exact H2|]. split; [exact H3|].
  exact (captured_error_keeps_state false five_bit_payload 1 (session [open_call])
           _ _ _ (triple_eta _) H2 (or_introl H3)).
Defined.



Lemma channel_lifecycle_counterexample :
  is_Some (channels (session [open_call]) !! 1%Z) /\
  object_deleted (payload_after (session [open_call]) close_call) = true /\
  channels (session [open_call; close_call]) !! 1%Z = None /\
  outcome_of (session [open_call; close_call]) short_call = Return [] /\
  pd_size (payload_after (session [open_call; close_call]) short_call) = Some 5%Z /\
  object_class (payload_after (session [open_call; close_call]) short_call)
    = Some {| classid := None |} /\
  bitsleftreason (payload_after (session [open_call; close_call]) short_call)
    = Some (MsgMoreBits 32 5) /\
  bitsleft (payload_after (session [open_call; close_call]) short_call)
    = Some (of01 "10101") /\
  channels (session [open_call; close_call; short_call]) !! 1%Z = None.
Proof.
  split; [vm_compute; eauto|]. repeat split; vm_compute; reflexivity.
Qed.

Lemma channel_lifecycle_witness :
  object_deleted (payload_after (session [open_call]) close_call) = true /\
  channels (after_call (session [open_call]) close_call)
    = delete 1%Z (channels (session [open_call])) /\
  after_call (session [open_call; close_call]) short_call
    = session [open_call; close_call] /\
  channels (after_call (session [open_call; close_call]) short_call) !! 1%Z = None.
Proof.
  destruct (channel_lifecycle false empty_payload 1 (session [open_call]) _ _ _
              (triple_eta _)) as (Ha & _ & _).
  destruct (channel_lifecycle false five_bit_payload 1 (session [open_call; close_call])
              _ _ _ (triple_eta _)) as (_ & _ & _ & Hb).
  destruct Ha as (Hd & Hc & _).
  - vm_compute. reflexivity.
  - vm_compute. eexists. reflexivity.
  - destruct (Hb 5%Z) as (Hs & Hu & _).
    + vm_compute. reflexivity.
    + lia.
    + vm_compute. reflexivity.
    + split; [exact Hd|]. split; [exact Hc|]. split; [exact Hs|exact Hu].
Defined.

Lemma unbound_size0_witness :
  bitsleftreason (payload_after ParserState_init empty_call) = Some (MsgMoreBits 32 0) /\
  bitsleft (payload_after ParserState_init empty_call) = Some [] /\
  object_deleted (payload_after ParserState_init empty_call) = false /\
  after_call ParserState_init empty_call = ParserState_init.
Proof.
  destruct (unbound_size0 false empty_payload 5 ParserState_init _ _ _ (triple_eta _))
    as (Ha & Hb & Hc & Hd & _).
  - vm_compute. reflexivity.
  - vm_compute. reflexivity.
  - auto.
Defined.

Lemma instance_naming_witness :
  exists b,
    filter (fun b => class_name (binding_class b) = "TrGameReplicationInfo"%string)
      (introductions ParserState_init [open_call; close_call; open_call]) !! 1 = Some b /\
    binding_instancename b = "TrGameReplicationInfo_1"%string.
Proof.
  eexists. split; [vm_compute; reflexivity|].
  apply (instance_naming [open_call; close_call; open_call] "TrGameReplicationInfo" 1).
  vm_compute. reflexivity.
Defined.


(** ** Integers *)

Lemma tobytes_n_take j : forall m bits,
  take j (tobytes_n m bits) = tobytes_n (min j m) bits.
Proof.
  induction j as [|j IH]; intros [|m] bits; try reflexivity.
  cbn [tobytes_n take Nat.min]. f_equal. apply IH.
Qed.

Lemma tobytes_n_nil n : tobytes_n n [] = repeat zero n.
Proof. induction n as [|n IH]; [reflexivity|]. cbn. f_equal. exact IH. Qed.

Lemma tobytes_n_app m : forall k bits,
  length bits <= 8 * m -> tobytes_n (m + k) bits = tobytes_n m bits ++ repeat zero k.
Proof.
  induction m as [|m IH]; intros k bits Hl.
  - destruct bits; [|cbn in Hl; lia]. apply tobytes_n_nil.
  - cbn [tobytes_n Nat.add app]. f_equal. apply IH. rewrite length_skipn. lia.
Qed.

Lemma tobytes_first4 bits :
  take 4 (tobytes bits ++ repeat zero 4) = tobytes_n 4 bits.
Proof.
  unfold tobytes. set (m := (length bits + 7) / 8).
  assert (Hm : length bits <= 8 * m).
  { unfold m. pose proof (Nat.div_mod_eq (length bits + 7) 8).
    pose proof (Nat.mod_upper_bound (length bits + 7) 8). lia. }
  rewrite <- (tobytes_n_app m 4 bits Hm), tobytes_n_take.
  replace (min 4 (m + 4)) with 4 by lia. reflexivity.
Qed.

Lemma nth_take_drop8 (bits : bitarray) k j :
  j < 8 -> nth j (take 8 (drop k bits)) false = nth (k + j) bits false.
Proof.
  intros Hj. rewrite nth_firstn.
  assert ((j <? 8) = true) as -> by (apply Nat.ltb_lt; exact Hj).
  apply nth_skipn.
Qed.

Lemma toint_pad32 bits : toint bits = le_value (pad32 bits).
Proof.
  unfold toint. rewrite tobytes_first4. unfold pad32.
  cbn [tobytes_n frombytes flat_map bits2byte byte2bits app seq map].
  rewrite !skipn_skipn. cbn [Nat.add].
  rewrite <- (drop_0 bits) at 1 2 3 4 5 6 7 8.
  rewrite !nth_take_drop8 by lia. cbn [Nat.add]. reflexivity.
Qed.

Lemma testbit_le_value l : forall i,
  Z.testbit (le_value l) (Z.of_nat i) = nth i l false.
Proof.
  induction l as [|b l IH]; intros i.
  - cbn. rewrite Z.bits_0. destruct i; reflexivity.
  - cbn [le_value]. rewrite Z.add_comm. destruct i as [|i].
    + apply Z.testbit_0_r.
    + rewrite Nat2Z.inj_succ, Z.testbit_succ_r by lia. cbn [nth]. apply IH.
Qed.

Lemma le_value_range l : (0 <= le_value l < 2 ^ Z.of_nat (length l))%Z.
Proof.
  induction l as [|b l IH]; [cbn; lia|].
  cbn [le_value length]. rewrite Nat2Z.inj_succ, Z.pow_succ_r by lia.
  destruct b; cbn [Z.b2z]; lia.
Qed.

Lemma pad32_length bits : length (pad32 bits) = 32.
Proof. reflexivity. Qed.

Lemma nth_pad32 bits i : i < 32 -> nth i (pad32 bits) false = nth i bits false.
Proof.
  intros Hi. unfold pad32.
  rewrite (nth_indep _ false (nth 0 bits false)) by (rewrite length_map, length_seq; lia).
  rewrite (map_nth (fun i => nth i bits false) (seq 0 32) 0 i), seq_nth by lia. reflexivity.
Qed.

Lemma pack_L_toint bits : pack_L (toint bits) = pad32 bits.
Proof.
  unfold pack_L. rewrite toint_pad32. unfold pad32 at 2.
  apply map_ext_in. intros i Hi%in_seq.
  rewrite testbit_le_value. apply nth_pad32. lia.
Qed.

Lemma take_pad32 bits n : n = length bits -> n <= 32 -> take n (pad32 bits) = bits.
Proof.
  intros -> Hn. apply (nth_ext _ _ false false).
  - rewrite length_take, pad32_length. lia.
  - intros i Hi. rewrite length_take, pad32_length in Hi.
    rewrite nth_firstn by lia. assert ((i <? length bits) = true) as -> by (apply Nat.ltb_lt; lia).
    apply nth_pad32. lia.
Qed.

Lemma int2bitarray_toint bits :
  length bits <= 32 ->
  int2bitarray (toint bits) (length bits) = bits /\
  (0 <= toint bits < 2 ^ Z.of_nat (length bits))%Z.
Proof.
  intros Hl. split.
  - unfold int2bitarray. rewrite pack_L_toint. apply take_pad32; [reflexivity|exact Hl].
  - rewrite toint_pad32.
    assert (Hv : le_value (pad32 bits) = le_value bits).
    { apply Z.bits_inj'. intros i Hi. rewrite <- (Z2Nat.id i Hi), !testbit_le_value.
      destruct (Nat.lt_ge_cases (Z.to_nat i) 32) as [H|H].
      - apply nth_pad32, H.
      - rewrite !nth_overflow; [reflexivity|lia|rewrite pad32_length; lia]. }
    rewrite Hv. apply le_value_range.
Qed.

Lemma toint_int2bitarray v n :
  n <= 32 -> (0 <= v < 2 ^ Z.of_nat n)%Z ->
  length (int2bitarray v n) = n /\ toint (int2bitarray v n) = v.
Proof.
  intros Hn Hv.
  assert (Hlen : length (int2bitarray v n) = n).
  { unfold int2bitarray, pack_L. rewrite length_take, length_map, length_seq. lia. }
  split; [exact Hlen|].
  rewrite toint_pad32. apply Z.bits_inj'. intros i Hi.
  rewrite <- (Z2Nat.id i Hi), testbit_le_value.
  destruct (Nat.lt_ge_cases (Z.to_nat i) n) as [H|H].
  - rewrite nth_pad32 by lia. unfold int2bitarray. rewrite nth_firstn.
    assert ((Z.to_nat i <? n) = true) as -> by (apply Nat.ltb_lt; lia).
    unfold pack_L.
    rewrite (nth_indep _ false (Z.testbit v (Z.of_nat 0)))
      by (rewrite length_map, length_seq; lia).
    rewrite (map_nth (fun i => Z.testbit v (Z.of_nat i)) (seq 0 32) 0), seq_nth by lia.
    reflexivity.
  - assert (Hb : Z.testbit v (Z.of_nat (Z.to_nat i)) = false).
    { destruct (Z.eq_dec v 0%Z) as [->|Hv0]; [apply Z.bits_0|].
      apply Z.bits_above_log2; [lia|].
      apply Z.log2_lt_pow2; [lia|].
      apply Z.lt_le_trans with (2 ^ Z.of_nat n)%Z; [lia|].
      apply Z.pow_le_mono_r; lia. }
    rewrite Hb. destruct (Nat.lt_ge_cases (Z.to_nat i) 32) as [H32|H32].
    + rewrite nth_pad32 by lia. apply nth_overflow. lia.
    + apply nth_overflow. rewrite pad32_length. lia.
Qed.

(** ** Reading bits and strings *)

Lemma getnbits_app n bits a b :
  getnbits n bits = Return (a, b) -> a ++ b = bits /\ length a = n.
Proof.
  intros H. apply getnbits_Return in H as (-> & -> & Hl).
  split; [apply firstn_skipn|]. rewrite length_take. lia.
Qed.

Lemma getnbits_exact a b : getnbits (length a) (a ++ b) = Return (a, b).
Proof.
  unfold getnbits.
  destruct (Nat.ltb_spec (length (a ++ b)) (length a)) as [H|H].
  - rewrite length_app in H. lia.
  - rewrite take_app_length, drop_app_length. reflexivity.
Qed.

Lemma byte2bits_length c : length (byte2bits c) = 8.
Proof. destruct c. reflexivity. Qed.

Lemma bits2byte_byte2bits c bits : bits2byte (take 8 (byte2bits c ++ bits)) = c.
Proof. destruct c. reflexivity. Qed.

Lemma byte2bits_bits2byte (bits : bitarray) :
  8 <= length bits -> byte2bits (bits2byte (take 8 bits)) = take 8 bits.
Proof.
  intros H.
  destruct bits as [|b0 [|b1 [|b2 [|b3 [|b4 [|b5 [|b6 [|b7 rest]]]]]]]]; cbn in H; try lia.
  reflexivity.
Qed.

Lemma tobytes_ge8 (bits : bitarray) :
  8 <= length bits -> tobytes bits = bits2byte (take 8 bits) :: tobytes (drop 8 bits).
Proof.
  intros H. unfold tobytes. rewrite length_skipn.
  replace ((length bits + 7) / 8) with (S ((length bits - 8 + 7) / 8)).
  - reflexivity.
  - replace (length bits + 7) with ((length bits - 8 + 7) + 1 * 8) by lia.
    rewrite Nat.div_add by lia. lia.
Qed.

Lemma tobytes_lt8 (bits : bitarray) :
  0 < length bits < 8 -> tobytes bits = [bits2byte (take 8 bits)].
Proof.
  intros H. unfold tobytes.
  replace ((length bits + 7) / 8) with 1; [reflexivity|].
  apply Nat.div_unique with (length bits - 1); lia.
Qed.

Lemma tobytes_byte c bits : tobytes (byte2bits c ++ bits) = c :: tobytes bits.
Proof.
  rewrite tobytes_ge8 by (rewrite length_app, byte2bits_length; lia).
  rewrite bits2byte_byte2bits.
  rewrite <- (byte2bits_length c) at 1. rewrite drop_app_length. reflexivity.
Qed.

Lemma getstring_encoded s rest :
  no_zero s ->
  getstring (frombytes (list_ascii_of_string s) ++ repeat false 8 ++ rest) = (s, rest).
Proof.
  unfold no_zero, getstring. intros H.
  assert (Hu : forall bytes, Forall (fun c => c <> zero) bytes ->
            until_zero (tobytes (frombytes bytes ++ repeat false 8 ++ rest)) = bytes).
  { induction 1 as [|c bytes Hc _ IH].
    - change (frombytes [] ++ repeat false 8 ++ rest) with (byte2bits zero ++ rest).
      rewrite tobytes_byte. reflexivity.
    - cbn [frombytes flat_map]. rewrite <- app_assoc. rewrite tobytes_byte.
      cbn [until_zero]. destruct (Ascii.eqb_spec c zero); [contradiction|].
      f_equal. exact IH. }
  rewrite Hu by exact H. rewrite string_of_list_ascii_of_string. f_equal.
  assert (Hl : length (frombytes (list_ascii_of_string s)) = length (list_ascii_of_string s) * 8).
  { clear. induction (list_ascii_of_string s) as [|c l IH]; [reflexivity|].
    cbn [frombytes flat_map length]. rewrite length_app, byte2bits_length.
    unfold frombytes in IH. rewrite IH. lia. }
  rewrite app_assoc.
  replace ((length (list_ascii_of_string s) + 1) * 8)
    with (length (frombytes (list_ascii_of_string s) ++ repeat false 8)).
  - apply drop_app_length.
  - rewrite length_app, Hl, repeat_length. lia.
Qed.

Lemma frombytes_length bytes : length (frombytes bytes) = 8 * length bytes.
Proof.
  induction bytes as [|c l IH]; [reflexivity|].
  cbn [frombytes flat_map length]. rewrite length_app, byte2bits_length.
  unfold frombytes in IH. rewrite IH. lia.
Qed.

Lemma string_length_of_list l : String.length (string_of_list_ascii l) = length l.
Proof. induction l as [|c l IH]; [reflexivity|]. cbn. f_equal. exact IH. Qed.

Lemma until_zero_decoded : forall n (bits : bitarray), length bits = n ->
  let chars := until_zero (tobytes bits) in
  let rest := drop ((length chars + 1) * 8) bits in
  Forall (fun c => c <> zero) chars /\
  (frombytes chars ++ repeat false 8 ++ rest = bits \/
   (rest = [] /\ length bits < 8 * (length chars + 1))).
Proof.
  induction n as [n IH] using (well_founded_induction lt_wf). intros bits Hn.
  destruct (Nat.lt_ge_cases (length bits) 8) as [Hlt|Hge].
  - cbn zeta. split.
    + destruct bits as [|b bits]; [constructor|].
      rewrite tobytes_lt8 by (cbn [length] in *; lia). cbn [until_zero].
      destruct (Ascii.eqb_spec (bits2byte (take 8 (b :: bits))) zero); repeat constructor.
      assumption.
    + right. split; [apply drop_ge; lia|lia].
  - rewrite tobytes_ge8 by exact Hge. cbn [until_zero].
    destruct (Ascii.eqb_spec (bits2byte (take 8 bits)) zero) as [Hz|Hz]; cbn zeta.
    + split; [constructor|]. left. cbn [frombytes flat_map length app Nat.add Nat.mul].
      change (repeat false 8) with (byte2bits zero). rewrite <- Hz.
      rewrite byte2bits_bits2byte by exact Hge. apply take_drop.
    + destruct (IH (length (drop 8 bits)) ltac:(rewrite length_drop; lia) (drop 8 bits) eq_refl)
        as [Hall Hcase].
      cbn zeta in Hcase. set (chars := until_zero (tobytes (drop 8 bits))) in *.
      split; [constructor; assumption|].
      cbn [length]. rewrite drop_drop in Hcase.
      replace ((S (length chars) + 1) * 8) with (8 + (length chars + 1) * 8) by lia.
      destruct Hcase as [Heq|[Hnil Hlen]].
      * left. cbn [frombytes flat_map]. rewrite <- app_assoc.
        unfold frombytes in Heq. rewrite Heq.
        rewrite byte2bits_bits2byte by exact Hge. apply take_drop.
      * right. split; [exact Hnil|]. rewrite length_drop in Hlen. lia.
Qed.

Lemma getstring_decoded bits s rest :
  getstring bits = (s, rest) ->
  no_zero s /\
  (frombytes (list_ascii_of_string s) ++ repeat false 8 ++ rest = bits \/
   (rest = [] /\ length bits < 8 * (String.length s + 1))).
Proof.
  unfold getstring. intros [= <- <-].
  destruct (until_zero_decoded (length bits) bits eq_refl) as [Hall Hcase].
  unfold no_zero. rewrite list_ascii_of_string_of_list_ascii, string_length_of_list.
  split; assumption.
Qed.

(** ** Round trips of values, properties and instances *)

Lemma simple_basic_roundtrip name t bits size :
  simple_basic t = true ->
  match parse_basic_property name (Some t) bits size with
  | Return (v, rest) => PropertyValue_tobitarray v ++ rest = bits
  | Raise (ParseError _ bitsleft) => bitsleft = bits
  | Raise (OtherError _) => True
  end.
Proof.
  destruct t; try discriminate; intros _; cbn [parse_basic_property].
  - unfold PropertyValueInt_frombitarray.
    destruct (getnbits 32 bits) as [[a b]|[m bl|f]] eqn:H; cbn [mbind result_bind].
    + apply getnbits_app in H as [Happ Hlen]. cbn [PropertyValue_tobitarray].
      destruct (int2bitarray_toint a ltac:(lia)) as [Hrt _]. rewrite Hlen in Hrt.
      rewrite Hrt. exact Happ.
    + apply getnbits_Raise in H as [[= _ ->] _]. reflexivity.
    + exact I.
  - unfold PropertyValueBool_frombitarray.
    destruct (getnbits 1 bits) as [[a b]|[m bl|f]] eqn:H; cbn [mbind result_bind].
    + apply getnbits_app in H as [Happ Hlen]. cbn [PropertyValue_tobitarray].
      destruct a as [|a0 [|a1 a]]; try discriminate Hlen. exact Happ.
    + apply getnbits_Raise in H as [[= _ ->] _]. reflexivity.
    + exact I.
  - reflexivity.
  - destruct size as [size|]; [|exact I]. unfold PropertyValueBitarray_frombitarray.
    destruct (getnbits size bits) as [[a b]|[m bl|f]] eqn:H; cbn [mbind result_bind].
    + apply getnbits_app in H as [Happ _]. exact Happ.
    + apply getnbits_Raise in H as [[= _ ->] _]. reflexivity.
    + exact I.
Qed.

Lemma simple_member_roundtrip member bits :
  simple_member member = true ->
  match parse_basic_property (member_name member) (member_type member) bits
          (member_size member) with
  | Return (v, rest) => PropertyValue_tobitarray v ++ rest = bits
  | Raise (ParseError _ bitsleft) => bitsleft = bits
  | Raise (OtherError _) => True
  end.
Proof.
  unfold simple_member. destruct (member_type member) as [t|].
  - apply simple_basic_roundtrip.
  - intros _. exact I.
Qed.

Lemma PropertyValueStruct_loop_roundtrip member_list : forall bits values values' r,
  forallb simple_member member_list = true ->
  PropertyValueStruct_loop member_list bits values = (values', r) ->
  exists consumed,
    flat_map PropertyValue_tobitarray values' =
      flat_map PropertyValue_tobitarray values ++ consumed /\
    accounts_for consumed bits r.
Proof.
  induction member_list as [|member rest IH]; intros bits values values' r Hs;
    cbn [PropertyValueStruct_loop].
  - intros [= <- <-]. exists []. rewrite app_nil_r. split; reflexivity.
  - cbn [forallb] in Hs. apply andb_true_iff in Hs as [Hm Hs].
    pose proof (simple_member_roundtrip member bits Hm) as Hrt.
    destruct (parse_basic_property _ _ bits _) as [[v bits1]|[m bl|f]].
    + intros H. apply IH in H as (consumed & Hflat & Hacc); [|exact Hs].
      exists (PropertyValue_tobitarray v ++ consumed). split.
      * rewrite Hflat, flat_map_app. cbn [flat_map]. rewrite app_nil_r, app_assoc. reflexivity.
      * rewrite <- Hrt. destruct r as [rest'|[m bl|f]]; cbn [accounts_for] in *;
          rewrite <- ?app_assoc, ?Hacc; auto.
    + intros [= <- <-]. exists []. rewrite app_nil_r. split; [reflexivity|]. exact Hrt.
    + intros [= <- <-]. exists []. rewrite app_nil_r. split; [reflexivity|exact I].
Qed.

Lemma zip_longest_app {A B} (l1 e1 : list A) (l2 e2 : list B) :
  length l1 = length l2 ->
  zip_longest (l1 ++ e1) (l2 ++ e2) = zip_longest l1 l2 ++ zip_longest e1 e2.
Proof.
  revert l2. induction l1 as [|a l1 IH]; intros [|b l2] Hl; try discriminate.
  - reflexivity.
  - cbn. f_equal. apply IH. injection Hl. auto.
Qed.

Lemma Params_emitted_snoc presence values b v :
  length presence = length values ->
  Params_emitted (presence ++ [b]) (values ++ [v]) =
  Params_emitted presence values ++
  (if b then [true] ++ match v with Some x => PropertyValue_tobitarray x | None => [] end
   else [false]).
Proof.
  intros Hl. unfold Params_emitted, Params_tobitarray_loop.
  rewrite map_app, zip_longest_app by (rewrite length_map; exact Hl).
  rewrite flat_map_app. f_equal. cbn. rewrite app_nil_r.
  destruct b, v; reflexivity.
Qed.

Lemma Params_emitted_flag presence values b :
  length presence = length values ->
  Params_emitted (presence ++ [b]) values = Params_emitted presence values ++ [b].
Proof.
  intros Hl. unfold Params_emitted.
  apply Params_loop_missing_values. rewrite length_map. exact Hl.
Qed.

Lemma PropertyValueParams_loop_roundtrip param_list :
  forall bits presence values presence' values' r,
  forallb simple_member param_list = true ->
  length presence = length values ->
  PropertyValueParams_loop param_list bits presence values = (presence', values', r) ->
  exists consumed,
    Params_emitted presence' values' = Params_emitted presence values ++ consumed /\
    accounts_for consumed bits r /\
    length values' <= length presence' <= S (length values') /\
    (forall rest, r = Return rest ->
       length presence' = length values' /\
       length presence' = length presence + length param_list).
Proof.
  induction param_list as [|member rest IH]; intros bits presence values presence' values' r Hs Hl;
    cbn [PropertyValueParams_loop].
  - intros [= <- <- <-]. exists []. rewrite app_nil_r.
    split; [reflexivity|]. split; [reflexivity|]. split; [lia|].
    intros rest' _. cbn [length]. lia.
  - cbn [forallb] in Hs. apply andb_true_iff in Hs as [Hm Hs].
    destruct (getnbits 1 bits) as [[present bits1]|[m bl|f]] eqn:Hget.
    2:{ apply getnbits_Raise in Hget as [[= _ ->] _].
        intros [= <- <- <-]. exists []. rewrite app_nil_r.
        split; [reflexivity|]. split; [reflexivity|]. split; [lia|]. discriminate. }
    2:{ apply getnbits_Raise in Hget as [[=] _]. }
    apply getnbits_app in Hget as [Happ Hlen].
    destruct present as [|b [|b' present]]; try discriminate Hlen. cbn [nth].
    destruct b.
    + pose proof (simple_member_roundtrip member bits1 Hm) as Hrt.
      destruct (parse_basic_property _ _ bits1 _) as [[v bits2]|[m bl|f]].
      * intros H. apply IH in H as (consumed & Hem & Hacc & Hlens & Hret);
          [|exact Hs|rewrite !length_app; cbn [length]; lia].
        rewrite Params_emitted_snoc in Hem by exact Hl.
        exists ([true] ++ PropertyValue_tobitarray v ++ consumed). split; [|split; [|split]].
        -- rewrite Hem, <- !app_assoc. reflexivity.
        -- rewrite <- Happ, <- Hrt.
           destruct r as [rest'|[m bl|f]]; cbn [accounts_for] in *;
             rewrite <- ?app_assoc; cbn [app]; rewrite ?Hacc; auto.
        -- exact Hlens.
        -- intros rest' Hr. destruct (Hret rest' Hr) as [H1 H2]. split; [exact H1|].
           rewrite H2, length_app. cbn [length]. lia.
      * intros [= <- <- <-]. exists [true]. split; [|split; [|split]].
        -- apply Params_emitted_flag, Hl.
        -- cbn [accounts_for]. rewrite Hrt. exact Happ.
        -- rewrite length_app. cbn [length]. lia.
        -- discriminate.
      * intros [= <- <- <-]. exists [true]. split; [|split; [|split]].
        -- apply Params_emitted_flag, Hl.
        -- exact I.
        -- rewrite length_app. cbn [length]. lia.
        -- discriminate.
    + intros H. apply IH in H as (consumed & Hem & Hacc & Hlens & Hret);
        [|exact Hs|rewrite !length_app; cbn [length]; lia].
      rewrite Params_emitted_snoc in Hem by exact Hl.
      exists ([false] ++ consumed). split; [|split; [|split]].
      * rewrite Hem, <- !app_assoc. reflexivity.
      * rewrite <- Happ.
        destruct r as [rest'|[m bl|f]]; cbn [accounts_for] in *;
          rewrite <- ?app_assoc; cbn [app]; rewrite ?Hacc; auto.
      * exact Hlens.
      * intros rest' Hr. destruct (Hret rest' Hr) as [H1 H2]. split; [exact H1|].
        rewrite H2, length_app. cbn [length]. lia.
Qed.

Lemma PropertyValueParams_roundtrip param_list bits v r :
  forallb simple_member param_list = true ->
  PropertyValueParams_frombitarray param_list bits = (v, r) ->
  accounts_for (PropertyValue_tobitarray v) bits r /\
  exists presence values,
    v = PropertyValueParams param_list presence values /\
    length values <= length presence <= S (length values) /\
    (forall rest, r = Return rest ->
       length presence = length param_list /\ length values = length param_list).
Proof.
  intros Hs. unfold PropertyValueParams_frombitarray.
  destruct (PropertyValueParams_loop param_list bits [] []) as [[presence values] r'] eqn:H.
  intros [= <- <-].
  apply PropertyValueParams_loop_roundtrip in H as (consumed & Hem & Hacc & Hlens & Hret);
    [|exact Hs|reflexivity].
  split.
  - cbn [PropertyValue_tobitarray]. fold (Params_emitted presence values).
    rewrite Hem. exact Hacc.
  - exists presence, values. split; [reflexivity|]. split; [exact Hlens|].
    intros rest Hr. destruct (Hret rest Hr) as [H1 H2]. cbn [length] in H2. lia.
Qed.

Lemma PropertyValueStruct_roundtrip member_list bits v r :
  forallb simple_member member_list = true ->
  PropertyValueStruct_frombitarray member_list bits = (v, r) ->
  accounts_for (PropertyValue_tobitarray v) bits r.
Proof.
  intros Hs. unfold PropertyValueStruct_frombitarray.
  destruct (PropertyValueStruct_loop member_list bits []) as [values r'] eqn:H.
  intros [= <- <-].
  apply PropertyValueStruct_loop_roundtrip in H as (consumed & Hflat & Hacc); [|exact Hs].
  cbn [PropertyValue_tobitarray]. rewrite Hflat. exact Hacc.
Qed.

Lemma accounts_for_prefix pre emitted bits r :
  accounts_for emitted bits r -> accounts_for (pre ++ emitted) (pre ++ bits) r.
Proof.
  destruct r as [rest|[m bl|f]]; cbn [accounts_for]; [| |auto];
    intros <-; rewrite app_assoc; reflexivity.
Qed.

Lemma ObjectProperty_roundtrip id_size bits class_ p r :
  ObjectProperty_frombitarray (ObjectProperty_init id_size) bits class_ = (p, r) ->
  plain_property p = true ->
  accounts_for (ObjectProperty_tobitarray p) bits r.
Proof.
  unfold ObjectProperty_frombitarray, plain_property.
  cbn [propertyid_size ObjectProperty_init].
  destruct (getnbits id_size bits) as [[idbits bits1]|[m bl|f]] eqn:Hget.
  2:{ apply getnbits_Raise in Hget as [[= _ ->] _]. intros [= <- <-] _. reflexivity. }
  2:{ apply getnbits_Raise in Hget as [[=] _]. }
  apply getnbits_app in Hget as [Happ Hlen].
  set (d := default UnknownProperty (dict_get (class_props class_) (to01 idbits))).
  assert (Hid : id_size <= 32 ->
            int2bitarray (toint idbits) id_size = idbits).
  { intros Hle. destruct (int2bitarray_toint idbits ltac:(lia)) as [Hrt _].
    rewrite Hlen in Hrt. exact Hrt. }
  destruct (property_values d) as [|kv vals] eqn:Hvals.
  - destruct (type_is_true (property_type_ d)) eqn:Htrue.
    + destruct (property_type_ d) as [[t|l|l]|] eqn:Hty.
      * pose proof (simple_basic_roundtrip (property_name d) t bits1 (property_size d)) as Hrt.
        destruct (parse_basic_property _ _ bits1 _) as [[v rest]|[m bl|f]];
          intros [= <- <-]; cbn [propertyid_size property_ op_value propertyid];
          intros [Hle Hs]%andb_true_iff; apply Nat.leb_le in Hle;
          unfold simple_property in Hs; rewrite Hvals, Hty in Hs; specialize (Hrt Hs);
          unfold ObjectProperty_tobitarray;
          cbn [propertyid_size property_ op_value propertyid accounts_for PropertyValue_tobitarray];
          rewrite ?(Hid Hle), ?app_nil_r, <- ?app_assoc, ?Hrt; auto.
      * destruct (PropertyValueParams_frombitarray l bits1) as [v r'] eqn:Hp.
        intros [= <- <-]; cbn [propertyid_size property_ op_value propertyid].
        intros [Hle Hs]%andb_true_iff; apply Nat.leb_le in Hle.
        unfold simple_property in Hs; rewrite Hvals, Hty in Hs.
        apply PropertyValueParams_roundtrip in Hp as [Hacc _]; [|exact Hs].
        unfold ObjectProperty_tobitarray.
        cbn [propertyid_size property_ op_value propertyid]. rewrite (Hid Hle), <- Happ.
        apply accounts_for_prefix, Hacc.
      * destruct (PropertyValueStruct_frombitarray l bits1) as [v r'] eqn:Hp.
        intros [= <- <-]; cbn [propertyid_size property_ op_value propertyid].
        intros [Hle Hs]%andb_true_iff; apply Nat.leb_le in Hle.
        unfold simple_property in Hs; rewrite Hvals, Hty in Hs.
        apply PropertyValueStruct_roundtrip in Hp; [|exact Hs].
        unfold ObjectProperty_tobitarray.
        cbn [propertyid_size property_ op_value propertyid]. rewrite (Hid Hle), <- Happ.
        apply accounts_for_prefix, Hp.
      * discriminate Htrue.
    + intros [= <- <-]; cbn [propertyid_size property_ op_value propertyid].
      intros [Hle _]%andb_true_iff; apply Nat.leb_le in Hle.
      unfold ObjectProperty_tobitarray.
      cbn [propertyid_size property_ op_value propertyid accounts_for].
      rewrite (Hid Hle), app_nil_r. exact Happ.
  - destruct (property_size d) as [size|].
    + destruct (getnbits size bits1) as [[valuebits rest]|[m bl|f]] eqn:Hv;
        intros [= <- <-]; cbn [propertyid_size property_ op_value propertyid];
        intros [Hle _]%andb_true_iff; apply Nat.leb_le in Hle;
        unfold ObjectProperty_tobitarray;
        cbn [propertyid_size property_ op_value propertyid accounts_for PropertyValue_tobitarray];
        rewrite ?(Hid Hle).
      * apply getnbits_app in Hv as [Hv _]. rewrite <- app_assoc, Hv. exact Happ.
      * apply getnbits_Raise in Hv as [[= _ ->] _]. rewrite app_nil_r. exact Happ.
      * exact I.
    + intros [= <- <-] _. exact I.
Qed.

Lemma accounts_for_app pre consumed bits bits1 r :
  pre ++ bits1 = bits -> accounts_for consumed bits1 r ->
  accounts_for (pre ++ consumed) bits r.
Proof. intros <- H. apply accounts_for_prefix, H. Qed.

Lemma ObjectInstance_loop_roundtrip fuel : forall bits class_ props props' r,
  ObjectInstance_loop fuel bits class_ props = (props', r) ->
  exists new,
    props' = props ++ new /\
    (forallb plain_property new = true ->
     accounts_for (flat_map ObjectProperty_tobitarray new) bits r).
Proof.
  induction fuel as [|fuel IH]; intros bits class_ props props' r;
    cbn [ObjectInstance_loop]; destruct bits as [|b bits].
  - intros [= <- <-]. exists []. rewrite app_nil_r. split; reflexivity.
  - intros [= <- <-]. exists []. rewrite app_nil_r. split; [reflexivity|]. intros _. exact I.
  - intros [= <- <-]. exists []. rewrite app_nil_r. split; reflexivity.
  - destruct (class_idsize class_) as [id_size|].
    2:{ intros [= <- <-]. exists []. rewrite app_nil_r. split; [reflexivity|]. intros _. exact I. }
    destruct (ObjectProperty_frombitarray _ (b :: bits) class_) as [p rp] eqn:Hp.
    destruct rp as [bits1|e].
    + intros H. apply IH in H as (new & -> & Hnew).
      exists (p :: new). split; [rewrite <- app_assoc; reflexivity|].
      cbn [forallb flat_map]. intros [Hpp Hpn]%andb_true_iff.
      pose proof (ObjectProperty_roundtrip _ _ _ _ _ Hp Hpp) as Hacc.
      cbn [accounts_for] in Hacc.
      eapply accounts_for_app; [exact Hacc|]. apply Hnew, Hpn.
    + intros [= <- <-]. exists [p]. split; [reflexivity|].
      cbn [forallb flat_map]. rewrite andb_true_r, app_nil_r. intros Hpp.
      apply (ObjectProperty_roundtrip _ _ _ _ _ Hp Hpp).
Qed.

Lemma ObjectInstance_loop_Return fuel : forall bits class_ props props' rest,
  ObjectInstance_loop fuel bits class_ props = (props', Return rest) -> rest = [].
Proof.
  induction fuel as [|fuel IH]; intros bits class_ props props' rest;
    cbn [ObjectInstance_loop]; destruct bits as [|b bits]; try (intros [= _ <-]; reflexivity);
    try discriminate.
  destruct (class_idsize class_) as [id_size|]; [|discriminate].
  destruct (ObjectProperty_frombitarray _ (b :: bits) class_) as [p [bits1|e]];
    [apply IH|discriminate].
Qed.

Lemma ObjectInstance_roundtrip is_rpc bits class_ inst r :
  ObjectInstance_frombitarray {| properties := []; is_rpc := is_rpc |} bits class_
    = (inst, r) ->
  plain_instance inst = true ->
  accounts_for (ObjectInstance_tobitarray inst) bits r.
Proof.
  unfold ObjectInstance_frombitarray. cbn [properties].
  destruct (ObjectInstance_loop _ bits class_ []) as [props r'] eqn:H.
  intros [= <- <-]. apply ObjectInstance_loop_roundtrip in H as (new & -> & Hnew).
  exact Hnew.
Qed.

(** ** Round trips of payloads *)

Lemma read_payloadsize_app bits sz stream :
  read_payloadsize bits = Return (sz, stream) ->
  sz ++ stream = bits /\ 13 <= length sz <= 14.
Proof.
  unfold read_payloadsize.
  destruct (getnbits 14 bits) as [[raw rest]|e] eqn:Hget; [|discriminate].
  cbn [mbind result_bind]. apply getnbits_app in Hget as [Happ Hlen].
  destruct (nth 10 raw false && nth 13 raw false) eqn:Hesc.
  - intros [= <- <-].
    destruct raw as [|b0 [|b1 [|b2 [|b3 [|b4 [|b5 [|b6 [|b7 [|b8 [|b9 [|b10 [|b11 [|b12 [|b13 [|]]]]]]]]]]]]]]];
      try discriminate Hlen.
    apply andb_true_iff in Hesc as [_ H13]. cbn in H13. subst b13.
    split; [|cbn; lia]. rewrite <- Happ. reflexivity.
  - intros [= <- <-]. split; [exact Happ|lia].
Qed.

Lemma PayloadData_decode_roundtrip self newinstance class_ name payloadbits channel state p state' r :
  PayloadData_decode self newinstance class_ name payloadbits channel state = (p, state', r) ->
  plain_payload p = true ->
  object_class p = object_class self /\
  match r with
  | Return _ =>
      match instance p with Some i => ObjectInstance_tobitarray i | None => [] end = payloadbits
  | Raise (ParseError _ bitsleft) =>
      match instance p with Some i => ObjectInstance_tobitarray i | None => [] end ++ bitsleft
        = payloadbits
  | Raise (OtherError _) => True
  end.
Proof.
  unfold PayloadData_decode.
  destruct (ObjectInstance_frombitarray _ payloadbits class_) as [inst ri] eqn:Hi.
  pose proof (ObjectInstance_roundtrip _ _ _ _ _ Hi) as Hrt.
  destruct ri as [[|b rest]|e].
  - destruct (decide _); [destruct (channels state !! channel)|];
      intros [= <- <- <-]; cbn [instance set_instance set_object_deleted plain_payload object_class];
      intros Hp; specialize (Hrt Hp); cbn [accounts_for] in Hrt;
      rewrite ?app_nil_r in Hrt; auto.
  - unfold ObjectInstance_frombitarray in Hi.
    destruct (ObjectInstance_loop _ payloadbits class_ _) as [props rl] eqn:Hloop.
    injection Hi as _ ->. apply ObjectInstance_loop_Return in Hloop. discriminate Hloop.
  - intros [= <- <- <-]. cbn [instance set_instance plain_payload object_class].
    intros Hp. specialize (Hrt Hp). split; [reflexivity|]. destruct e; exact Hrt.
Qed.

Lemma PayloadData_try_roundtrip self payloadbits channel state p state' r :
  PayloadData_try self payloadbits channel state = (p, state', r) ->
  object_class self = None -> instance self = None ->
  plain_payload p = true ->
  match r with
  | Return _ => body_bits p = payloadbits
  | Raise (ParseError _ bitsleft) => body_bits p ++ bitsleft = payloadbits
  | Raise (OtherError _) => True
  end.
Proof.
  intros Htry Hoc Hinst Hplain. unfold PayloadData_try in Htry. unfold body_bits.
  destruct (channels state !! channel) as [b|] eqn:Hc.
  - rewrite (PayloadData_bind_bound _ _ _ _ Hc) in Htry.
    apply PayloadData_decode_roundtrip in Htry as [Ho Hr]; [|exact Hplain].
    rewrite Ho, Hoc. exact Hr.
  - destruct (Nat.lt_ge_cases (length payloadbits) 32) as [Hl|Hl].
    + rewrite PayloadData_bind_short in Htry by assumption.
      injection Htry as <- <- <-.
      cbn [object_class set_object_class instance ObjectClass_tobitarray classid].
      rewrite Hinst. reflexivity.
    + rewrite PayloadData_bind_unbound in Htry by assumption.
      assert (Hkey : int2bitarray (toint (take 32 payloadbits)) 32 = take 32 payloadbits).
      { destruct (int2bitarray_toint (take 32 payloadbits)) as [Hrt _].
        - rewrite length_take. lia.
        - rewrite length_take in Hrt. replace (32 `min` length payloadbits) with 32 in Hrt by lia.
          exact Hrt. }
      destruct (class_dict _ !! lookup_key channel payloadbits).
      * apply PayloadData_decode_roundtrip in Htry as [Ho Hr]; [|exact Hplain].
        rewrite Ho. cbn [object_class set_object_class ObjectClass_tobitarray classid].
        rewrite Hkey.
        destruct r as [[]|[m bl|f]]; [| |exact I].
        -- transitivity (take 32 payloadbits ++ drop 32 payloadbits);
             [f_equal; exact Hr|apply take_drop].
        -- rewrite <- app_assoc.
           transitivity (take 32 payloadbits ++ drop 32 payloadbits);
             [f_equal; exact Hr|apply take_drop].
      * injection Htry as <- <- <-. exact I.
Qed.

Lemma PayloadData_roundtrip rel bits channel state p state' rest :
  PayloadData_frombitarray (PayloadData_init rel) bits channel state
    = (p, state', Return rest) ->
  plain_payload p = true ->
  PayloadData_tobitarray p ++ rest = bits.
Proof.
  intros H Hplain.
  apply PayloadData_frombitarray_inv in H
    as [(e & _ & _ & _ & [=])|[(sz & stream & e & _ & _ & _ & _ & [=])|
        (sz & stream & body & rest' & p1 & r1 & Hsz & Hget & Htry & Hsize & Hnr & Hr)]].
  apply read_payloadsize_app in Hsz as [Hsz Hlen].
  apply getnbits_app in Hget as [Hbody _].
  destruct (int2bitarray_toint sz ltac:(lia)) as [Hrt _].
  assert (Hbits : forall q, pd_size q = Some (toint sz) ->
            nr_of_payload_bits q = Some (length sz) ->
            PayloadData_tobitarray q =
              sz ++ body_bits q ++ match bitsleft q with Some b => b | None => [] end).
  { intros q Hq1 Hq2. unfold PayloadData_tobitarray, body_bits.
    rewrite Hq1, Hq2, Hrt, <- !app_assoc. reflexivity. }
  rewrite (Hbits p Hsize Hnr).
  pose proof (PayloadData_try_attrs _ _ _ _ _ _ _ Htry) as (_ & _ & _ & Hbl & _).
  cbn [bitsleft set_size PayloadData_init] in Hbl.
  destruct r1 as [[]|[m bl|f]]; destruct Hr as [-> Hr]; [| |discriminate Hr];
    injection Hr as <-.
  - apply PayloadData_try_roundtrip in Htry; [|reflexivity|reflexivity|exact Hplain].
    rewrite Hbl, app_nil_r, Htry, <- app_assoc, Hbody. exact Hsz.
  - apply PayloadData_try_roundtrip in Htry; [|reflexivity|reflexivity|exact Hplain].
    cbn [bitsleft set_bitsleft].
    replace (body_bits (set_bitsleft p1 m bl)) with (body_bits p1) by reflexivity.
    rewrite <- !app_assoc, (app_assoc (body_bits p1)), Htry, Hbody. exact Hsz.
Qed.

(** ** Round trips of channels, parts and packets *)

Lemma int2bitarray_read n bits a b :
  getnbits n bits = Return (a, b) -> n <= 32 ->
  int2bitarray (toint a) n ++ b = bits.
Proof.
  intros H Hn. apply getnbits_app in H as [Happ Hlen].
  destruct (int2bitarray_toint a ltac:(lia)) as [Hrt _]. rewrite Hlen in Hrt.
  rewrite Hrt. exact Happ.
Qed.

Lemma ChannelData_roundtrip bits with_counter state cd state' rest :
  ChannelData_frombitarray ChannelData_init bits with_counter state
    = (cd, state', Return rest) ->
  match payload cd with Some p => plain_payload p | None => true end = true ->
  ChannelData_tobitarray cd ++ rest = bits /\
  (is_Some (counter cd) <-> with_counter = true).
Proof.
  unfold ChannelData_frombitarray.
  destruct (getnbits 10 bits) as [[chbits bits1]|e] eqn:H10; [|discriminate].
  apply int2bitarray_read in H10; [|lia].
  destruct with_counter.
  - destruct (getnbits 5 bits1) as [[cbits bits2]|e] eqn:H5; [|discriminate].
    apply int2bitarray_read in H5; [|lia].
    destruct (getnbits 8 bits2) as [[ubits bits3]|e] eqn:H8; [|discriminate].
    apply getnbits_app in H8 as [H8 _].
    destruct (PayloadData_frombitarray _ bits3 (toint chbits) state) as [[pd st] r] eqn:Hp.
    intros [= <- <- ->]. cbn [payload]. intros Hplain.
    apply PayloadData_roundtrip in Hp; [|exact Hplain].
    split; [|split; [reflexivity|eauto]].
    unfold ChannelData_tobitarray. cbn [channel counter unknownbits payload default from_option id].
    rewrite <- !app_assoc, Hp, H8, H5. exact H10.
  - destruct (PayloadData_frombitarray _ bits1 (toint chbits) state) as [[pd st] r] eqn:Hp.
    intros [= <- <- ->]. cbn [payload]. intros Hplain.
    apply PayloadData_roundtrip in Hp; [|exact Hplain].
    split; [|split; [intros [? [=]]|discriminate]].
    unfold ChannelData_tobitarray. cbn [channel counter unknownbits payload ChannelData_init].
    cbn [app]. rewrite <- !app_assoc, Hp. exact H10.
Qed.

Lemma PacketData_flags_roundtrip bits pd with_counter rest :
  PacketData_flags PacketData_init bits = (pd, Return (with_counter, rest)) ->
  channel_data pd = None /\ PacketData_tobitarray pd ++ rest = bits /\
  (exists f, flag1a pd = Some f /\
     ((f = of01 "00" /\ with_counter = false /\ unknownbits10 pd = None) \/
      (f = of01 "01" /\ with_counter = true /\ unknownbits10 pd = None) \/
      (f = of01 "10" /\ with_counter = true /\ unknownbits10 pd = Some (of01 "11")))).
Proof.
  unfold PacketData_flags.
  destruct (getnbits 2 bits) as [[f bits1]|e] eqn:H1; [|discriminate].
  apply getnbits_app in H1 as [H1 _].
  assert (Hsel : forall self f0 bits0,
    flag1a self = Some f0 -> channel_data self = None -> unknownbits10 self = None ->
    (if decide (f0 = of01 "00") then (self, Return (false, bits0))
     else if decide (f0 = of01 "01") then (self, Return (true, bits0))
     else if decide (f0 = of01 "10") then
       match getnbits 2 bits0 with
       | Raise e => (self, Raise e)
       | Return (u, bits2) =>
           let self' := {| flag1a := flag1a self; unknownbits11 := unknownbits11 self;
                           unknownbits10 := Some u; channel_data := channel_data self |} in
           if decide (u ≠ of01 "11")
           then (self', Raise (ParseError (MsgUnknownbits10 (to01 u)) bits2))
           else (self', Return (true, bits2))
       end
     else (self, Raise (ParseError (MsgFlag1a (to01 f0)) bits0)))
      = (pd, Return (with_counter, rest)) ->
    channel_data pd = None /\
    (match unknownbits11 self with Some true => of01 "11" | _ => [] end ++ f0 ++ bits0 = bits ->
     PacketData_tobitarray pd ++ rest = bits) /\
    (exists f, flag1a pd = Some f /\
     ((f = of01 "00" /\ with_counter = false /\ unknownbits10 pd = None) \/
      (f = of01 "01" /\ with_counter = true /\ unknownbits10 pd = None) \/
      (f = of01 "10" /\ with_counter = true /\ unknownbits10 pd = Some (of01 "11"))))).
  { intros self f0 bits0 Hf Hcd Hu.
    destruct (decide (f0 = of01 "00")) as [H00|_].
    { intros [= <- <- <-]. split; [exact Hcd|]. split.
      - intros <-. unfold PacketData_tobitarray. rewrite Hf, Hu, Hcd. cbn [default from_option id].
        rewrite app_nil_r, <- !app_assoc. reflexivity.
      - exists f0. eauto 10. }
    destruct (decide (f0 = of01 "01")) as [H01|_].
    { intros [= <- <- <-]. split; [exact Hcd|]. split.
      - intros <-. unfold PacketData_tobitarray. rewrite Hf, Hu, Hcd. cbn [default from_option id].
        rewrite app_nil_r, <- !app_assoc. reflexivity.
      - exists f0. eauto 10. }
    destruct (decide (f0 = of01 "10")) as [H10|_]; [|discriminate].
    destruct (getnbits 2 bits0) as [[u bits2]|e] eqn:H2; [|discriminate].
    apply getnbits_app in H2 as [H2 _]. cbn zeta.
    destruct (decide (u ≠ of01 "11")) as [|Hu11]; [discriminate|].
    intros [= <- <- <-]. cbn [channel_data flag1a unknownbits10]. split; [exact Hcd|]. split.
    - intros <-. unfold PacketData_tobitarray.
      cbn [channel_data flag1a unknownbits10 unknownbits11]. rewrite Hf, Hcd. cbn [default from_option id].
      rewrite app_nil_r, <- !app_assoc, H2. reflexivity.
    - exists f0. split; [exact Hf|]. right. right. split; [exact H10|]. split; [reflexivity|].
      f_equal. destruct (decide (u = of01 "11")); [assumption|contradiction]. }
  destruct (decide (f = of01 "11")) as [H11|H11].
  - destruct (getnbits 2 bits1) as [[f2 bits2]|e] eqn:H2; [|discriminate].
    apply getnbits_app in H2 as [H2 _].
    intros H. apply Hsel in H as (Hcd & Hbits & Hf); try reflexivity.
    split; [exact Hcd|]. split; [|exact Hf].
    apply Hbits. cbn [unknownbits11]. rewrite H2, <- H11. exact H1.
  - intros H. apply Hsel in H as (Hcd & Hbits & Hf); try reflexivity.
    split; [exact Hcd|]. split; [|exact Hf].
    apply Hbits. cbn [unknownbits11 PacketData_init app]. exact H1.
Qed.

Lemma PacketData_roundtrip bits state pd state' rest :
  PacketData_frombitarray PacketData_init bits state = (pd, state', Return rest) ->
  plain_part (PartData pd) = true ->
  PacketData_tobitarray pd ++ rest = bits.
Proof.
  unfold PacketData_frombitarray.
  destruct (PacketData_flags PacketData_init bits) as [pd0 [[wc bits1]|e]] eqn:Hf;
    [|discriminate].
  apply PacketData_flags_roundtrip in Hf as (Hcd & Hbits & _).
  destruct (ChannelData_frombitarray ChannelData_init bits1 wc state) as [[cd st] r] eqn:Hc.
  intros [= <- <- ->]. cbn [plain_part channel_data]. intros Hplain.
  apply ChannelData_roundtrip in Hc as [Hc _]; [|exact Hplain].
  unfold PacketData_tobitarray in *. cbn [flag1a unknownbits11 unknownbits10 channel_data].
  rewrite Hcd in Hbits. rewrite app_nil_r in Hbits.
  rewrite <- Hbits, <- Hc, <- !app_assoc. reflexivity.
Qed.

Lemma PacketAck_roundtrip bits pa rest :
  PacketAck_frombitarray {| acknr := None |} bits = (pa, Return rest) ->
  PacketAck_tobitarray pa ++ rest = bits /\ length bits = 14 + length rest.
Proof.
  unfold PacketAck_frombitarray.
  destruct (getnbits 14 bits) as [[a b]|e] eqn:H; [|discriminate].
  intros [= <- <-]. unfold PacketAck_tobitarray. cbn [acknr]. split.
  - apply int2bitarray_read; [exact H|lia].
  - apply getnbits_app in H as [<- Hl]. rewrite length_app. lia.
Qed.

Lemma getnbits_1 bits f rest :
  getnbits 1 bits = Return (f, rest) -> exists b, f = [b] /\ bits = b :: rest.
Proof.
  intros H. apply getnbits_app in H as [<- Hl].
  destruct f as [|b [|? ?]]; try discriminate. exists b. split; reflexivity.
Qed.

Lemma Packet_loop_roundtrip fuel : forall bits state ps ps' state' rest,
  Packet_loop fuel bits state ps = (ps', state', Return rest) ->
  exists new, ps' = ps ++ new /\
    (forallb plain_part new = true ->
     exists t, flat_map Part_tobitarray new ++ t ++ rest = bits /\
               (t = [] /\ rest = [] \/ t = of01 "1")).
Proof.
  induction fuel as [|fuel IH]; intros bits state ps ps' state' rest.
  - destruct bits; cbn [Packet_loop]; [|discriminate].
    intros [= <- <- <-]. exists []. rewrite app_nil_r. split; [reflexivity|].
    intros _. exists []. split; [reflexivity|]. left. split; reflexivity.
  - destruct bits as [|b bits0].
    { cbn [Packet_loop]. intros [= <- <- <-]. exists []. rewrite app_nil_r.
      split; [reflexivity|]. intros _. exists []. split; [reflexivity|].
      left. split; reflexivity. }
    cbn [Packet_loop].
    destruct (getnbits 1 (b :: bits0)) as [[f bits1]|e] eqn:H1; [|discriminate].
    apply getnbits_1 in H1 as (b' & -> & Hcons). injection Hcons as <- <-.
    destruct (decide _) as [H0|H0].
    + destruct (PacketData_frombitarray PacketData_init bits0 state) as [[part st] r] eqn:Hp.
      destruct r as [bits2|e]; cbv beta iota zeta; [|discriminate].
      intros H. apply IH in H as (new & -> & Hnew).
      exists (PartData part :: new). split; [rewrite <- app_assoc; reflexivity|].
      cbn [forallb]. intros [Hpart Hrest]%andb_prop.
      apply PacketData_roundtrip in Hp; [|exact Hpart].
      destruct (Hnew Hrest) as (t & Ht & Hcase). exists t. split; [|exact Hcase].
      cbn [flat_map Part_tobitarray]. rewrite <- !app_assoc, Ht, Hp.
      injection H0 as ->. reflexivity.
    + destruct (14 <=? length bits0) eqn:Hlen.
      * destruct (PacketAck_frombitarray {| acknr := None |} bits0) as [part r] eqn:Hp.
        destruct r as [bits2|e]; cbv beta iota zeta; [|discriminate].
        intros H. apply IH in H as (new & -> & Hnew).
        exists (PartAck part :: new). split; [rewrite <- app_assoc; reflexivity|].
        cbn [forallb plain_part andb]. intros Hrest.
        apply PacketAck_roundtrip in Hp as [Hp _].
        destruct (Hnew Hrest) as (t & Ht & Hcase). exists t. split; [|exact Hcase].
        cbn [flat_map Part_tobitarray]. rewrite <- !app_assoc, Ht, Hp.
        destruct b; [reflexivity|]. exfalso. apply H0. reflexivity.
      * intros [= <- <- <-]. exists []. rewrite app_nil_r. split; [reflexivity|].
        intros _. exists (of01 "1"). split; [|right; reflexivity].
        destruct b; [reflexivity|]. exfalso. apply H0. reflexivity.
Qed.

Lemma Packet_frombitarray_inv bits state packet state' rest :
  Packet_frombitarray Packet_init bits state = (packet, state', Return rest) ->
  exists seqnrbits bits1 ps padding,
    getnbits 14 bits = Return (seqnrbits, bits1) /\
    Packet_loop (length bits1) bits1 state [] = (ps, state', Return padding) /\
    packet = {| seqnr := Some (toint seqnrbits); parts := ps;
                paddingbits := Some padding |} /\
    rest = [] /\
    length bits = 14 + length (flat_map Part_tobitarray ps) + 1 + length padding /\
    length padding = nr_of_padding_bits (14 + length (flat_map Part_tobitarray ps) + 1).
Proof.
  unfold Packet_frombitarray.
  destruct (getnbits 14 bits) as [[seqnrbits bits1]|e] eqn:H14; [|discriminate].
  cbn [parts Packet_init].
  destruct (Packet_loop (length bits1) bits1 state []) as [[ps st] [bits2|e]] eqn:Hloop;
    [|discriminate].
  cbn zeta.
  assert (Hparsed : length (Packet_tobitarray
            {| seqnr := Some (toint seqnrbits); parts := ps;
               paddingbits := paddingbits Packet_init |})
          = 14 + length (flat_map Part_tobitarray ps) + 1).
  { unfold Packet_tobitarray. cbn [seqnr parts paddingbits Packet_init default from_option].
    rewrite !length_app. cbn [length of01].
    pose proof (getnbits_app _ _ _ _ H14) as [_ Hl].
    destruct (toint_int2bitarray (toint seqnrbits) 14 ltac:(lia)) as [Hlen _].
    { destruct (int2bitarray_toint seqnrbits ltac:(lia)) as [_ Hr]. rewrite Hl in Hr.
      exact Hr. }
    rewrite Hlen. cbn. lia. }
  rewrite Hparsed.
  destruct (decide _) as [|Hc1]; [discriminate|].
  destruct (decide _) as [|Hc2]; [discriminate|].
  apply dec_stable in Hc1. apply dec_stable in Hc2.
  rewrite <- Hc2.
  pose proof (getnbits_exact bits2 []) as Hex. rewrite app_nil_r in Hex. rewrite Hex.
  intros [= <- <- <-]. exists seqnrbits, bits1, ps, bits2.
  repeat split; try reflexivity; try assumption. lia.
Qed.

Lemma Packet_roundtrip bits state packet state' rest :
  Packet_frombitarray Packet_init bits state = (packet, state', Return rest) ->
  plain_packet packet = true ->
  Packet_tobitarray packet = bits.
Proof.
  intros H. apply Packet_frombitarray_inv in H
    as (seqnrbits & bits1 & ps & padding & H14 & Hloop & -> & -> & Hlen & Hpad).
  unfold plain_packet. cbn [parts]. intros Hplain.
  apply Packet_loop_roundtrip in Hloop as (new & Hnew & Hrt). cbn [app] in Hnew. subst new.
  destruct (Hrt Hplain) as (t & Ht & Hcase).
  pose proof (getnbits_app _ _ _ _ H14) as [Happ Hl].
  assert (Hlt : length t = 1).
  { rewrite <- Happ, <- Ht in Hlen. rewrite !length_app in Hlen. lia. }
  destruct Hcase as [[-> _]| ->]; [discriminate|].
  unfold Packet_tobitarray. cbn [seqnr parts paddingbits default from_option id].
  rewrite Ht. apply int2bitarray_read; [exact H14|lia].
Qed.

(** ** The exceptions of a parse *)

Lemma advances_le n m bits r : m <= n -> advances n bits r -> advances m bits r.
Proof. destruct r; cbn; [lia|auto]. Qed.

Lemma advances_trans n m bits rest r :
  n + length rest <= length bits -> advances m rest r -> advances (n + m) bits r.
Proof. destruct r; cbn; [lia|auto]. Qed.

Lemma getnbits_advances n bits : advances n bits (rest_of (getnbits n bits)).
Proof.
  unfold getnbits. destruct (Nat.ltb_spec (length bits) n); cbn; [reflexivity|].
  rewrite length_skipn. lia.
Qed.

Lemma advances_bind {A B} bits (r : result (A * bitarray))
    (k : A * bitarray -> result (B * bitarray)) :
  advances 0 bits (rest_of r) ->
  (forall v rest, advances 0 rest (rest_of (k (v, rest)))) ->
  advances 0 bits (rest_of (r ≫= k)).
Proof.
  destruct r as [[v rest]|e]; cbn; [|auto]. intros Hl Hk.
  apply (advances_trans 0 0 bits rest); [exact Hl|apply Hk].
Qed.

Lemma advances_Return {A} bits (v : A) : advances 0 bits (rest_of (Return (v, bits))).
Proof. cbn. lia. Qed.

Lemma getstring_shorter bits : length (snd (getstring bits)) <= length bits.
Proof. unfold getstring. cbn [snd]. rewrite length_skipn. lia. Qed.

Lemma PropertyValueString_advances bits :
  advances 0 bits (rest_of (PropertyValueString_frombitarray bits)).
Proof.
  unfold PropertyValueString_frombitarray.
  apply advances_bind; [apply (advances_le 32); [lia|apply getnbits_advances]|].
  intros sizebits rest. cbv beta iota zeta.
  destruct (0 <? toint sizebits)%Z; [|apply advances_Return].
  pose proof (getstring_shorter rest) as Hs.
  destruct (getstring rest) as [value rest']. cbn [snd] in Hs.
  destruct (_ =? _)%Z; cbn; [lia|reflexivity].
Qed.

Lemma PropertyValueInt_advances bits :
  advances 0 bits (rest_of (PropertyValueInt_frombitarray bits)).
Proof.
  unfold PropertyValueInt_frombitarray.
  apply advances_bind; [apply (advances_le 32); [lia|apply getnbits_advances]|].
  intros v rest. apply advances_Return.
Qed.

Lemma parse_basic_property_advances name t bits size :
  (t = Some Tbitarray -> is_Some size) ->
  advances 0 bits (rest_of (parse_basic_property name t bits size)).
Proof.
  intros Hsize. destruct t as [[]|]; cbn [parse_basic_property].
  - apply PropertyValueString_advances.
  - apply PropertyValueInt_advances.
  - unfold PropertyValueFloat_frombitarray.
    apply advances_bind; [apply (advances_le 32); [lia|apply getnbits_advances]|].
    intros v rest. apply advances_Return.
  - unfold PropertyValueBool_frombitarray.
    apply advances_bind; [apply (advances_le 1); [lia|apply getnbits_advances]|].
    intros v rest. apply advances_Return.
  - apply advances_Return.
  - destruct (Hsize eq_refl) as [n ->]. unfold PropertyValueBitarray_frombitarray.
    apply advances_bind; [apply (advances_le n); [lia|apply getnbits_advances]|].
    intros v rest. apply advances_Return.
  - unfold PropertyValueMystery1_frombitarray.
    repeat (apply advances_bind;
            [first [apply PropertyValueInt_advances|apply PropertyValueString_advances]|
             intros ? ?; cbv beta iota]).
    apply advances_Return.
  - unfold PropertyValueMystery2_frombitarray.
    repeat (apply advances_bind; [apply PropertyValueString_advances|
                                  intros ? ?; cbv beta iota]).
    apply advances_Return.
  - unfold PropertyValueMystery3_frombitarray.
    repeat (apply advances_bind; [apply PropertyValueString_advances|
                                  intros ? ?; cbv beta iota]).
    apply advances_Return.
  - reflexivity.
Qed.

Lemma member_sized_size m :
  member_sized m = true -> member_type m = Some Tbitarray -> is_Some (member_size m).
Proof.
  unfold member_sized. intros H Ht. rewrite Ht in H.
  apply bool_decide_eq_true in H. exact H.
Qed.

Lemma PropertyValueStruct_loop_advances members : forall bits values,
  forallb member_sized members = true ->
  advances 0 bits (snd (PropertyValueStruct_loop members bits values)).
Proof.
  induction members as [|m members IH]; intros bits values; cbn [PropertyValueStruct_loop forallb].
  - intros _. cbn. lia.
  - intros [Hm Hms]%andb_prop.
    pose proof (parse_basic_property_advances (member_name m) (member_type m) bits
                  (member_size m) (member_sized_size m Hm)) as Hp.
    destruct (parse_basic_property _ _ _ _) as [[v rest]|e]; cbn in Hp; [|exact Hp].
    apply (advances_trans 0 0 bits rest); [exact Hp|apply IH, Hms].
Qed.

Lemma PropertyValueParams_loop_advances members : forall bits presence values,
  forallb member_sized members = true ->
  advances 0 bits (snd (PropertyValueParams_loop members bits presence values)).
Proof.
  induction members as [|m members IH]; intros bits presence values;
    cbn [PropertyValueParams_loop forallb].
  - intros _. cbn. lia.
  - intros [Hm Hms]%andb_prop.
    pose proof (getnbits_advances 1 bits) as H1.
    destruct (getnbits 1 bits) as [[present rest]|e]; cbn in H1; [|exact H1].
    cbv zeta. destruct (nth 0 present false).
    + pose proof (parse_basic_property_advances (member_name m) (member_type m) rest
                    (member_size m) (member_sized_size m Hm)) as Hp.
      destruct (parse_basic_property _ _ _ _) as [[v rest']|e]; cbn in Hp; [|exact Hp].
      apply (advances_trans 0 0 bits rest'); [lia|apply IH, Hms].
    + apply (advances_trans 0 0 bits rest); [lia|apply IH, Hms].
Qed.

Lemma dict_get_In {V} (d : list (string * V)) key v :
  dict_get d key = Some v -> exists k, In (k, v) d.
Proof.
  induction d as [|[k v'] d IH]; cbn [dict_get]; [discriminate|].
  destruct (String.eqb k key).
  - intros [= ->]. exists k. left. reflexivity.
  - intros H. destruct (IH H) as [k' Hk']. exists k'. right. exact Hk'.
Qed.

Lemma class_sized_property class_ key :
  class_sized class_ = true ->
  property_sized (default UnknownProperty (dict_get (class_props class_) key)) = true.
Proof.
  intros [Hall _]%andb_prop. destruct (dict_get _ key) as [d|] eqn:Hd; [|reflexivity].
  apply dict_get_In in Hd as [k Hk]. rewrite forallb_forall in Hall.
  apply (Hall (k, d) Hk).
Qed.

Lemma ObjectProperty_advances id_size bits class_ :
  class_sized class_ = true ->
  advances id_size bits
    (snd (ObjectProperty_frombitarray (ObjectProperty_init id_size) bits class_)).
Proof.
  intros Hc. unfold ObjectProperty_frombitarray. cbn [propertyid_size ObjectProperty_init].
  pose proof (getnbits_advances id_size bits) as Hid.
  destruct (getnbits id_size bits) as [[idbits rest]|e]; cbn in Hid; [|exact Hid].
  cbv zeta.
  pose proof (class_sized_property class_ (to01 idbits) Hc) as Hp.
  set (d := default UnknownProperty (dict_get (class_props class_) (to01 idbits))) in *.
  unfold property_sized in Hp.
  replace id_size with (id_size + 0) by lia.
  destruct (property_values d) as [|kv vs].
  - destruct (property_type_ d) as [[t|members|members]|]; cbn [type_is_true].
    + assert (Hb : advances 0 rest (rest_of (parse_basic_property (property_name d)
                                               (Some t) rest (property_size d)))).
      { apply parse_basic_property_advances. intros [= ->].
        apply bool_decide_eq_true in Hp. exact Hp. }
      destruct (parse_basic_property _ _ _ _) as [[v rest']|e]; cbn [snd rest_of] in *;
        [apply (advances_trans _ _ _ rest); [exact Hid|exact Hb]|exact Hb].
    + destruct members as [|m members]; [reflexivity|].
      unfold PropertyValueParams_frombitarray.
      pose proof (PropertyValueParams_loop_advances (m :: members) rest [] [] Hp) as Hl.
      destruct (PropertyValueParams_loop _ _ _ _) as [[presence values] r].
      cbn [snd] in *. apply (advances_trans _ _ _ rest); [exact Hid|exact Hl].
    + destruct members as [|m members]; [reflexivity|].
      unfold PropertyValueStruct_frombitarray.
      pose proof (PropertyValueStruct_loop_advances (m :: members) rest [] Hp) as Hl.
      destruct (PropertyValueStruct_loop _ _ _) as [values r].
      cbn [snd] in *. apply (advances_trans _ _ _ rest); [exact Hid|exact Hl].
    + reflexivity.
  - apply bool_decide_eq_true in Hp. destruct Hp as [size ->].
    pose proof (getnbits_advances size rest) as Hv.
    destruct (getnbits size rest) as [[valuebits rest']|e]; cbn in *; [lia|exact Hv].
Qed.

Lemma ObjectInstance_loop_advances fuel : forall bits class_ props w,
  class_sized class_ = true -> class_idsize class_ = Some w -> 1 <= w ->
  length bits <= fuel ->
  advances 0 bits (snd (ObjectInstance_loop fuel bits class_ props)).
Proof.
  induction fuel as [|fuel IH]; intros bits class_ props w Hc Hw Hpos Hfuel.
  - destruct bits; [cbn; lia|cbn in Hfuel; lia].
  - destruct bits as [|b bits]; [cbn; lia|].
    cbn [ObjectInstance_loop]. rewrite Hw.
    pose proof (ObjectProperty_advances w (b :: bits) class_ Hc) as Hp.
    destruct (ObjectProperty_frombitarray _ _ _) as [p [rest|e]]; cbn [snd] in *;
      [|exact Hp].
    cbn [advances] in Hp.
    apply (advances_trans 0 0 (b :: bits) rest); [lia|].
    apply (IH rest class_ _ w Hc Hw Hpos). lia.
Qed.

Lemma class_dict_literal_sized :
  forallb (fun kc => class_sized (snd kc)) class_dict_literal = true.
Proof. vm_compute. reflexivity. Qed.

Lemma sound_state_init : sound_state ParserState_init.
Proof.
  split; [|split].
  - destruct (class_dict ParserState_init !! None) eqn:H; [eauto|].
    apply not_elem_of_list_to_map_2 in H. exfalso. apply H.
    apply list_elem_of_In. apply in_map_iff. exists (None, root_class).
    split; [reflexivity|]. left. reflexivity.
  - intros key c H. apply elem_of_list_to_map_2 in H.
    pose proof class_dict_literal_sized as Hall. rewrite forallb_forall in Hall.
    apply (Hall (key, c)). apply list_elem_of_In, H.
  - intros ch b H. cbn in H. rewrite lookup_empty in H. discriminate.
Qed.

Lemma sound_state_register classkey state :
  sound_state state -> sound_state (register_unknown classkey state).
Proof.
  intros (Hroot & Hd & Hc). unfold register_unknown.
  destruct (class_dict state !! Some classkey); [exact (conj Hroot (conj Hd Hc))|].
  split; [|split]; cbn [class_dict channels].
  - rewrite lookup_insert_ne by discriminate. exact Hroot.
  - intros key c. rewrite lookup_insert. destruct (decide (Some classkey = key)).
    + intros [= <-]. reflexivity.
    + apply Hd.
  - exact Hc.
Qed.

Lemma sound_state_bind key class_ channel state :
  sound_state state -> class_dict state !! key = Some class_ ->
  sound_state (bind_channel key class_ channel state).
Proof.
  intros (Hroot & Hd & Hc) Hk. pose proof (Hd _ _ Hk) as Hs.
  split; [|split]; cbn [class_dict channels bind_channel].
  - rewrite lookup_insert. destruct (decide (key = None)); [eauto|exact Hroot].
  - intros key' c. rewrite lookup_insert. destruct (decide (key = key')).
    + intros [= <-]. exact Hs.
    + apply Hd.
  - intros ch b. rewrite lookup_insert. destruct (decide (channel = ch)).
    + intros [= <-]. split; [exact Hs|reflexivity].
    + apply Hc.
Qed.

Lemma sound_state_del state channel :
  sound_state state -> sound_state (del_channel state channel).
Proof.
  intros (Hroot & Hd & Hc). split; [exact Hroot|]. split; [exact Hd|].
  cbn [channels del_channel]. intros ch b. rewrite lookup_delete.
  destruct (decide (channel = ch)); [discriminate|apply Hc].
Qed.

Lemma PayloadData_bind_sound payloadbits channel state oc state' r :
  PayloadData_bind payloadbits channel state = (oc, state', r) ->
  sound_state state ->
  sound_state state' /\
  match r with
  | Return (_, class_, _, rest) =>
      class_sized class_ = true /\
      class_idsize class_ = Some (derive_idsize (class_props class_)) /\
      is_Some (channels state' !! channel)
  | Raise e => raised_by_module e = true
  end.
Proof.
  unfold PayloadData_bind. intros H Hs.
  destruct (channels state !! channel) as [b|] eqn:Hb.
  - injection H as <- <- <-. split; [exact Hs|].
    destruct Hs as (_ & _ & Hc). destruct (Hc _ _ Hb) as [H1 H2].
    split; [exact H1|]. split; [exact H2|]. rewrite Hb. eauto.
  - unfold ObjectClass_frombitarray in H.
    pose proof (getnbits_advances 32 payloadbits) as H32.
    destruct (getnbits 32 payloadbits) as [[classbits rest]|e]; cbn [rest_of advances] in H32.
    + set (st1 := register_unknown (getclasskey (toint classbits)) state) in *.
      assert (Hs1 : sound_state st1) by apply sound_state_register, Hs.
      cbn [classid option_map] in H.
      set (key := if decide (channel ≠ 0%Z) then Some (getclasskey (toint classbits))
                  else None) in *.
      assert (Hkey : is_Some (class_dict st1 !! key)).
      { subst key. destruct (decide (channel ≠ 0%Z)).
        - apply register_unknown_lookup.
        - apply Hs1. }
      destruct Hkey as [class_ Hk]. rewrite Hk in H. injection H as <- <- <-.
      split; [apply sound_state_bind; assumption|].
      destruct Hs1 as (_ & Hd & _). split; [exact (Hd _ _ Hk)|]. split; [reflexivity|].
      cbn [channels bind_channel]. rewrite lookup_insert_eq. eauto.
    + injection H as <- <- <-. split; [exact Hs|exact H32].
Qed.

Lemma PayloadData_decode_sound self newinstance class_ name payloadbits channel state
    p state' r :
  PayloadData_decode self newinstance class_ name payloadbits channel state
    = (p, state', r) ->
  sound_state state ->
  class_sized class_ = true ->
  class_idsize class_ = Some (derive_idsize (class_props class_)) ->
  is_Some (channels state !! channel) ->
  sound_state state' /\ forall e, r = Raise e -> raised_by_module e = true.
Proof.
  unfold PayloadData_decode, ObjectInstance_frombitarray. intros H Hs Hc Hw [b Hb].
  assert (Hpos : 1 <= derive_idsize (class_props class_)).
  { apply andb_prop in Hc as [_ Hc]. apply Nat.leb_le, Hc. }
  pose proof (ObjectInstance_loop_advances (S (length payloadbits)) payloadbits class_ []
                _ Hc Hw Hpos ltac:(lia)) as Hl.
  destruct (ObjectInstance_loop _ payloadbits class_ _) as [props [[|b' rest]|e']];
    cbn [snd advances] in Hl.
  - destruct (decide _).
    + rewrite Hb in H. injection H as <- <- <-.
      split; [apply sound_state_del, Hs|discriminate].
    + injection H as <- <- <-. split; [exact Hs|discriminate].
  - injection H as <- <- <-. split; [exact Hs|]. intros e [= <-]. reflexivity.
  - injection H as <- <- <-. split; [exact Hs|]. intros e [= <-]. exact Hl.
Qed.

Lemma PayloadData_try_sound self payloadbits channel state p state' r :
  PayloadData_try self payloadbits channel state = (p, state', r) ->
  sound_state state ->
  sound_state state' /\ forall e, r = Raise e -> raised_by_module e = true.
Proof.
  unfold PayloadData_try. intros H Hs.
  destruct (PayloadData_bind payloadbits channel state) as [[oc st1] rb] eqn:Hbind.
  apply PayloadData_bind_sound in Hbind as [Hs1 Hr]; [|exact Hs].
  destruct rb as [[[[ni class_] name] rest]|e].
  - destruct Hr as (Hc & Hw & Hch).
    eapply PayloadData_decode_sound; eassumption.
  - injection H as <- <- <-. split; [exact Hs1|]. intros e' [= <-]. exact Hr.
Qed.

Lemma read_payloadsize_advances bits :
  advances 13 bits (rest_of (read_payloadsize bits)).
Proof.
  unfold read_payloadsize.
  pose proof (getnbits_advances 14 bits) as H.
  destruct (getnbits 14 bits) as [[sizebits rest]|e]; cbn in *; [|exact H].
  destruct (_ && _); cbn; lia.
Qed.

Lemma PayloadData_frombitarray_sound self bits channel state p state' r :
  PayloadData_frombitarray self bits channel state = (p, state', r) ->
  sound_state state ->
  sound_state state' /\ advances 13 bits r.
Proof.
  unfold PayloadData_frombitarray. intros H Hs.
  pose proof (read_payloadsize_advances bits) as Hsz.
  destruct (read_payloadsize bits) as [[sizebits rest]|e]; cbn [rest_of advances] in Hsz.
  - cbv zeta in H.
    pose proof (getnbits_advances (Z.to_nat (toint sizebits)) rest) as Hb.
    destruct (getnbits _ rest) as [[body rest']|e]; cbn [rest_of advances] in Hb.
    + destruct (PayloadData_try _ body channel state) as [[p1 st1] r1] eqn:Htry.
      apply PayloadData_try_sound in Htry as [Hs1 Hr]; [|exact Hs].
      destruct r1 as [[]|[msg left|f]]; injection H as <- <- <-;
        (split; [exact Hs1|]); cbn; try lia.
      apply (Hr _ eq_refl).
    + injection H as <- <- <-. split; [exact Hs|exact Hb].
  - injection H as <- <- <-. split; [exact Hs|exact Hsz].
Qed.

Lemma ChannelData_frombitarray_sound bits with_counter state cd state' r :
  ChannelData_frombitarray ChannelData_init bits with_counter state = (cd, state', r) ->
  sound_state state ->
  sound_state state' /\ advances 23 bits r.
Proof.
  unfold ChannelData_frombitarray. intros H Hs.
  pose proof (getnbits_advances 10 bits) as H10.
  destruct (getnbits 10 bits) as [[chbits bits1]|e]; cbn [rest_of advances] in H10;
    [|injection H as <- <- <-; split; [exact Hs|exact H10]].
  cbv zeta in H. destruct with_counter.
  - pose proof (getnbits_advances 5 bits1) as H5.
    destruct (getnbits 5 bits1) as [[cbits bits2]|e]; cbn [rest_of advances] in H5;
      [|injection H as <- <- <-; split; [exact Hs|exact H5]].
    pose proof (getnbits_advances 8 bits2) as H8.
    destruct (getnbits 8 bits2) as [[ubits bits3]|e]; cbn [rest_of advances] in H8;
      [|injection H as <- <- <-; split; [exact Hs|exact H8]].
    destruct (PayloadData_frombitarray _ bits3 (toint chbits) state) as [[pd st] rp] eqn:Hp.
    injection H as <- <- <-.
    apply PayloadData_frombitarray_sound in Hp as [Hs' Hp]; [|exact Hs].
    split; [exact Hs'|]. destruct rp; cbn in *; [lia|exact Hp].
  - destruct (PayloadData_frombitarray _ bits1 (toint chbits) state) as [[pd st] rp] eqn:Hp.
    injection H as <- <- <-.
    apply PayloadData_frombitarray_sound in Hp as [Hs' Hp]; [|exact Hs].
    split; [exact Hs'|]. destruct rp; cbn in *; [lia|exact Hp].
Qed.

Lemma PacketData_flags_advances bits :
  advances 2 bits (rest_of (match snd (PacketData_flags PacketData_init bits) with
                            | Return (wc, rest) => Return (wc, rest)
                            | Raise e => Raise e
                            end)).
Proof.
  unfold PacketData_flags.
  pose proof (getnbits_advances 2 bits) as H1.
  destruct (getnbits 2 bits) as [[f bits1]|e]; cbn [rest_of advances] in H1; [|exact H1].
  assert (Hsel : forall self f0 bits0, 2 + length bits0 <= length bits ->
    advances 2 bits (rest_of (match snd
      (if decide (f0 = of01 "00") then (self, Return (false, bits0))
       else if decide (f0 = of01 "01") then (self, Return (true, bits0))
       else if decide (f0 = of01 "10") then
         match getnbits 2 bits0 with
         | Raise e => (self, Raise e)
         | Return (u, bits2) =>
             let self' := {| flag1a := flag1a self; unknownbits11 := unknownbits11 self;
                             unknownbits10 := Some u; channel_data := channel_data self |} in
             if decide (u ≠ of01 "11")
             then (self', Raise (ParseError (MsgUnknownbits10 (to01 u)) bits2))
             else (self', Return (true, bits2))
         end
       else (self, Raise (ParseError (MsgFlag1a (to01 f0)) bits0)))
     with Return (wc, rest) => Return (wc, rest) | Raise e => Raise e end))).
  { intros self f0 bits0 Hl.
    destruct (decide (f0 = of01 "00")); [cbn; lia|].
    destruct (decide (f0 = of01 "01")); [cbn; lia|].
    destruct (decide (f0 = of01 "10")); [|reflexivity].
    pose proof (getnbits_advances 2 bits0) as H2.
    destruct (getnbits 2 bits0) as [[u bits2]|e']; cbn [rest_of advances] in H2; [|exact H2].
    cbv zeta. destruct (decide (u ≠ of01 "11")); [reflexivity|cbn; lia]. }
  destruct (decide (f = of01 "11")).
  - pose proof (getnbits_advances 2 bits1) as H2.
    destruct (getnbits 2 bits1) as [[f2 bits2]|e']; cbn [rest_of advances] in H2; [|exact H2].
    apply Hsel. lia.
  - apply Hsel. lia.
Qed.

Lemma PacketData_frombitarray_sound bits state pd state' r :
  PacketData_frombitarray PacketData_init bits state = (pd, state', r) ->
  sound_state state ->
  sound_state state' /\ advances 25 bits r.
Proof.
  unfold PacketData_frombitarray. intros H Hs.
  pose proof (PacketData_flags_advances bits) as Hf.
  destruct (PacketData_flags PacketData_init bits) as [pd0 [[wc bits1]|e]];
    cbn [snd rest_of advances] in Hf;
    [|injection H as <- <- <-; split; [exact Hs|exact Hf]].
  destruct (ChannelData_frombitarray ChannelData_init bits1 wc state) as [[cd st] rc] eqn:Hc.
  injection H as <- <- <-.
  apply ChannelData_frombitarray_sound in Hc as [Hs' Hc]; [|exact Hs].
  split; [exact Hs'|]. destruct rc; cbn in *; [lia|exact Hc].
Qed.

Lemma Packet_loop_sound fuel : forall bits state ps ps' state' r,
  Packet_loop fuel bits state ps = (ps', state', r) ->
  length bits <= fuel ->
  sound_state state ->
  sound_state state' /\ advances 0 bits r.
Proof.
  induction fuel as [|fuel IH]; intros bits state ps ps' state' r H Hfuel Hs.
  - destruct bits; [|cbn in Hfuel; lia]. injection H as <- <- <-.
    split; [exact Hs|cbn; lia].
  - destruct bits as [|b bits0]; [injection H as <- <- <-; split; [exact Hs|cbn; lia]|].
    cbn [Packet_loop] in H. cbn [length] in Hfuel.
    change (getnbits 1 (b :: bits0)) with (Return ([b], bits0)) in H.
    cbv beta iota in H.
    destruct (decide _) as [H0|H0].
    + destruct (PacketData_frombitarray PacketData_init bits0 state) as [[part st] rp] eqn:Hp.
      apply PacketData_frombitarray_sound in Hp as [Hs1 Hp]; [|exact Hs].
      destruct rp as [bits2|e]; cbn [advances] in Hp.
      * apply IH in H as [Hs2 Hr]; [|lia|exact Hs1]. split; [exact Hs2|].
        destruct r; cbn in *; [lia|exact Hr].
      * injection H as <- <- <-. split; [exact Hs1|exact Hp].
    + destruct (14 <=? length bits0).
      * destruct (PacketAck_frombitarray {| acknr := None |} bits0) as [part rp] eqn:Hp.
        unfold PacketAck_frombitarray in Hp.
        pose proof (getnbits_advances 14 bits0) as H14.
        destruct (getnbits 14 bits0) as [[a bits2]|e']; cbn [rest_of advances] in H14;
          injection Hp as <- <-.
        -- apply IH in H as [Hs2 Hr]; [|lia|exact Hs]. split; [exact Hs2|].
           destruct r; cbn in *; [lia|exact Hr].
        -- injection H as <- <- <-. split; [exact Hs|exact H14].
      * injection H as <- <- <-. split; [exact Hs|cbn; lia].
Qed.

Lemma parsepacket_sound state bits :
  sound_state state ->
  sound_state (snd (parsepacket state bits)) /\
  match fst (parsepacket state bits) with
  | Return _ => True
  | Raise e => raised_by_module e = true
  end.
Proof.
  intros Hs. unfold parsepacket, Packet_frombitarray.
  pose proof (getnbits_advances 14 bits) as H14.
  destruct (getnbits 14 bits) as [[seqnrbits bits1]|e]; cbn [rest_of advances] in H14;
    [|split; [exact Hs|exact H14]].
  destruct (Packet_loop (length bits1) bits1 state (parts Packet_init))
    as [[ps st] r] eqn:Hloop.
  apply Packet_loop_sound in Hloop as [Hs1 Hr]; [|lia|exact Hs].
  destruct r as [bits2|e]; [|split; [exact Hs1|exact Hr]].
  cbv zeta. destruct (decide _); [split; [exact Hs1|reflexivity]|].
  destruct (decide _); [split; [exact Hs1|reflexivity]|].
  pose proof (getnbits_advances
    (nr_of_padding_bits (length (Packet_tobitarray
       {| seqnr := Some (toint seqnrbits); parts := ps;
          paddingbits := paddingbits Packet_init |}))) bits2) as Hpad.
  destruct (getnbits _ bits2) as [[padding rest]|e]; cbn [rest_of advances] in Hpad;
    cbn [fst snd]; (split; [exact Hs1|]); [exact I|exact Hpad].
Qed.

Lemma sound_state_Parser_after packets : sound_state (Parser_after packets).
Proof.
  unfold Parser_after. generalize sound_state_init. generalize ParserState_init.
  induction packets as [|bits packets IH]; intros state Hs; cbn [fold_left]; [exact Hs|].
  apply IH, parsepacket_sound, Hs.
Qed.

(** ** Class keys *)

(** ** Packets of acks *)

Lemma int2bitarray_14 n :
  (0 <= n < 2 ^ 14)%Z ->
  length (int2bitarray n 14) = 14 /\ toint (int2bitarray n 14) = n.
Proof. intros H. apply toint_int2bitarray; [lia|exact H]. Qed.

Lemma Packet_loop_acks padding state : forall acks fuel ps,
  Forall (fun n => (0 <= n < 2 ^ 14)%Z) acks ->
  length padding < 14 ->
  length (flat_map Part_tobitarray (ack_parts acks) ++ of01 "1" ++ padding) <= fuel ->
  Packet_loop fuel (flat_map Part_tobitarray (ack_parts acks) ++ of01 "1" ++ padding)
    state ps
  = (ps ++ ack_parts acks, state, Return padding).
Proof.
  induction acks as [|n acks IH]; intros fuel ps Hall Hpad Hfuel.
  - cbn [ack_parts map flat_map app of01] in *.
    change (of01 "1" ++ padding) with (true :: padding) in *.
    destruct fuel as [|fuel]; [cbn in Hfuel; lia|].
    cbn [Packet_loop].
    change (getnbits 1 (true :: padding)) with (Return ([true], padding)).
    cbv beta iota.
    destruct (decide _) as [H0|_]; [discriminate H0|].
    destruct (Nat.leb_spec 14 (length padding)); [lia|].
    rewrite app_nil_r. reflexivity.
  - inversion Hall as [|? ? Hn Hacks]; subst.
    destruct (int2bitarray_14 n Hn) as [Hl Hv].
    set (rest := flat_map Part_tobitarray (ack_parts acks) ++ of01 "1" ++ padding) in *.
    assert (Hbits : flat_map Part_tobitarray (ack_parts (n :: acks)) ++ of01 "1" ++ padding
                    = true :: (int2bitarray n 14 ++ rest)).
    { cbn [ack_parts map flat_map Part_tobitarray PacketAck_tobitarray acknr].
      rewrite <- !app_assoc. reflexivity. }
    rewrite Hbits in *. clear Hbits.
    destruct fuel as [|fuel]; [cbn in Hfuel; lia|].
    cbn [Packet_loop].
    change (getnbits 1 (true :: (int2bitarray n 14 ++ rest)))
      with (Return ([true], int2bitarray n 14 ++ rest)).
    cbv beta iota.
    destruct (decide _) as [H0|_]; [discriminate H0|].
    destruct (Nat.leb_spec 14 (length (int2bitarray n 14 ++ rest))) as [_|Hlt];
      [|rewrite length_app in Hlt; lia].
    unfold PacketAck_frombitarray.
    pose proof (getnbits_exact (int2bitarray n 14) rest) as Hget. rewrite Hl in Hget.
    rewrite Hget, Hv. clear Hget.
    cbv beta iota.
    rewrite IH; [rewrite <- app_assoc; reflexivity|exact Hacks|exact Hpad|].
    cbn [length] in Hfuel. rewrite length_app in Hfuel. lia.
Qed.

Lemma ack_parts_length acks :
  Forall (fun n => (0 <= n < 2 ^ 14)%Z) acks ->
  length (flat_map Part_tobitarray (ack_parts acks)) = 15 * length acks.
Proof.
  induction 1 as [|n acks Hn _ IH]; [reflexivity|].
  cbn [ack_parts map flat_map Part_tobitarray PacketAck_tobitarray acknr].
  fold (ack_parts acks). rewrite !length_app, IH.
  destruct (int2bitarray_14 n Hn) as [-> _]. cbn [length of01]. cbn. lia.
Qed.

(** ** The registry over time *)

Lemma registry_grows_refl state : registry_grows state state.
Proof. split; intros; eexists; split; eauto; lia. Qed.

Lemma registry_grows_trans s1 s2 s3 :
  registry_grows s1 s2 -> registry_grows s2 s3 -> registry_grows s1 s3.
Proof.
  intros [Hd1 Hi1] [Hd2 Hi2]. split.
  - intros key c H. destruct (Hd1 _ _ H) as (c2 & H2 & Hn2 & Hp2).
    destruct (Hd2 _ _ H2) as (c3 & H3 & Hn3 & Hp3).
    exists c3. split; [exact H3|]. split; congruence.
  - intros name n H. destruct (Hi1 _ _ H) as (n2 & H2 & Hle2).
    destruct (Hi2 _ _ H2) as (n3 & H3 & Hle3). exists n3. split; [exact H3|lia].
Qed.

Lemma registry_grows_register classkey state :
  registry_grows state (register_unknown classkey state).
Proof.
  unfold register_unknown. destruct (class_dict state !! Some classkey) eqn:Hk;
    [apply registry_grows_refl|].
  split; cbn [class_dict instance_count].
  - intros key c H. exists c. split; [|auto].
    rewrite lookup_insert_ne; [exact H|]. intros <-. congruence.
  - intros name n H. exists n. split; [exact H|lia].
Qed.

Lemma registry_grows_bind key class_ channel state :
  class_dict state !! key = Some class_ ->
  registry_grows state (bind_channel key class_ channel state).
Proof.
  intros Hk. split; cbn [class_dict instance_count bind_channel].
  - intros key' c H. rewrite lookup_insert. destruct (decide (key = key')) as [<-|_].
    + exists (with_idsize class_). rewrite Hk in H. injection H as <-. auto.
    + exists c. auto.
  - intros name n H. rewrite lookup_insert.
    destruct (decide (class_name class_ = name)) as [<-|_].
    + eexists. split; [reflexivity|]. unfold next_count. rewrite H. cbn. lia.
    + exists n. split; [exact H|lia].
Qed.

Lemma registry_grows_del state channel : registry_grows state (del_channel state channel).
Proof. split; intros; eexists; split; eauto; lia. Qed.

Lemma PayloadData_bind_frame payloadbits channel state oc state' r :
  PayloadData_bind payloadbits channel state = (oc, state', r) ->
  registry_grows state state' /\
  (forall ch, ch ≠ channel -> channels state' !! ch = channels state !! ch).
Proof.
  unfold PayloadData_bind. intros H.
  destruct (channels state !! channel) as [b|] eqn:Hb.
  { injection H as <- <- <-. split; [apply registry_grows_refl|auto]. }
  unfold ObjectClass_frombitarray in H.
  destruct (getnbits 32 payloadbits) as [[classbits rest]|e].
  2:{ injection H as <- <- <-. split; [apply registry_grows_refl|auto]. }
  set (st1 := register_unknown (getclasskey (toint classbits)) state) in *.
  pose proof (registry_grows_register (getclasskey (toint classbits)) state) as Hg1.
  fold st1 in Hg1.
  assert (Hch : channels st1 = channels state) by apply register_unknown_attrs.
  destruct (class_dict st1 !! _) as [class_|] eqn:Hk; injection H as <- <- <-.
  - split.
    + eapply registry_grows_trans; [exact Hg1|]. apply registry_grows_bind. exact Hk.
    + intros ch Hne. cbn [channels bind_channel].
      rewrite lookup_insert_ne by congruence. rewrite Hch. reflexivity.
  - split; [exact Hg1|]. intros ch _. rewrite Hch. reflexivity.
Qed.

Lemma PayloadData_frombitarray_frame_eq self bits channel state p state' r :
  PayloadData_frombitarray self bits channel state = (p, state', r) ->
  registry_grows state state' /\
  (forall ch, ch ≠ channel -> channels state' !! ch = channels state !! ch).
Proof.
  intros H. apply PayloadData_frombitarray_inv in H
    as [(e & _ & _ & -> & _)|[(sz & rest & e & _ & _ & _ & -> & _)|
        (sz & rest & body & rest' & p1 & r1 & _ & _ & Htry & _)]];
    [split; [apply registry_grows_refl|auto]..|].
  unfold PayloadData_try in Htry.
  destruct (PayloadData_bind body channel state) as [[oc st1] rb] eqn:Hbind.
  apply PayloadData_bind_frame in Hbind as [Hg Hch].
  destruct rb as [[[[ni cl] nm] pb]|e]; [|injection Htry as <- <- <-; auto].
  apply PayloadData_decode_channels in Htry as (_ & _ & [[-> _]|(_ & _ & -> & _)] & _);
    [auto|].
  split.
  - eapply registry_grows_trans; [exact Hg|apply registry_grows_del].
  - intros ch Hne. cbn [channels del_channel].
    rewrite lookup_delete_ne by congruence. apply Hch, Hne.
Qed.

Lemma Packet_loop_grows fuel : forall bits state ps ps' state' r,
  Packet_loop fuel bits state ps = (ps', state', r) -> registry_grows state state'.
Proof.
  induction fuel as [|fuel IH]; intros bits state ps ps' state' r H.
  - destruct bits; injection H as <- <- <-; apply registry_grows_refl.
  - destruct bits as [|b bits0]; [injection H as <- <- <-; apply registry_grows_refl|].
    cbn [Packet_loop] in H.
    change (getnbits 1 (b :: bits0)) with (Return ([b], bits0)) in H.
    cbv beta iota in H.
    destruct (decide _) as [H0|H0].
    + unfold PacketData_frombitarray in H.
      destruct (PacketData_flags PacketData_init bits0) as [pd0 [[wc bits1]|e]].
      * unfold ChannelData_frombitarray in H.
        assert (Hpay : forall rel bits2 ch pd st rp,
                  PayloadData_frombitarray (PayloadData_init rel) bits2 ch state
                    = (pd, st, rp) -> registry_grows state st).
        { intros rel bits2 ch pd st rp Hp.
          apply PayloadData_frombitarray_frame_eq in Hp as [Hg _]. exact Hg. }
        destruct (getnbits 10 bits1) as [[chbits bits2]|e];
          [|injection H as <- <- <-; apply registry_grows_refl].
        cbv zeta in H. destruct wc.
        -- destruct (getnbits 5 bits2) as [[cbits bits3]|e];
             [|injection H as <- <- <-; apply registry_grows_refl].
           destruct (getnbits 8 bits3) as [[ubits bits4]|e];
             [|injection H as <- <- <-; apply registry_grows_refl].
           destruct (PayloadData_frombitarray _ bits4 (toint chbits) state)
             as [[pd st] rp] eqn:Hp.
           apply Hpay in Hp. destruct rp as [bits5|e].
           ++ apply IH in H. eapply registry_grows_trans; eassumption.
           ++ injection H as <- <- <-. exact Hp.
        -- destruct (PayloadData_frombitarray _ bits2 (toint chbits) state)
             as [[pd st] rp] eqn:Hp.
           apply Hpay in Hp. destruct rp as [bits5|e].
           ++ apply IH in H. eapply registry_grows_trans; eassumption.
           ++ injection H as <- <- <-. exact Hp.
      * injection H as <- <- <-. apply registry_grows_refl.
    + destruct (14 <=? length bits0).
      * destruct (PacketAck_frombitarray {| acknr := None |} bits0) as [part [bits2|e]].
        -- apply IH in H. exact H.
        -- injection H as <- <- <-. apply registry_grows_refl.
      * injection H as <- <- <-. apply registry_grows_refl.
Qed.


(** ** The codec: what decoding and encoding do to each other *)

Lemma triple_eta_snd {A B C} (x : A * B * C) (c : C) :
  snd x = c -> x = (fst (fst x), snd (fst x), c).
Proof. intros <-. apply triple_eta. Qed.

Lemma pair_eta_snd {A B} (x : A * B) (b : B) : snd x = b -> x = (fst x, b).
Proof. intros <-. apply surjective_pairing. Qed.

(** X1: [int2bitarray] gives back the bits that [toint] read: for a
    bitarray of at most 32 bits, [int2bitarray(toint(bits), len(bits))] is
    [bits], and [toint(bits)] is below [2 ** len(bits)]. *)
Theorem int2bitarray_of_toint bits :
  length bits <= 32 ->
  int2bitarray (toint bits) (length bits) = bits /\
  (0 <= toint bits < 2 ^ Z.of_nat (length bits))%Z.
Proof. apply int2bitarray_toint. Qed.

Lemma int2bitarray_of_toint_witness :
  length (of01 "1011") <= 32 /\
  int2bitarray (toint (of01 "1011")) (length (of01 "1011")) = of01 "1011" /\
  (0 <= toint (of01 "1011") < 2 ^ Z.of_nat (length (of01 "1011")))%Z.
Proof. split; [cbn; lia|apply (int2bitarray_of_toint (of01 "1011")); cbn; lia]. Defined.

(** X2: [toint] reads back the number that [int2bitarray] wrote: for
    [nbits <= 32] and [0 <= n < 2 ** nbits], [int2bitarray(n, nbits)] has
    [nbits] bits and [toint] of it is [n]. *)
Theorem toint_of_int2bitarray v n :
  n <= 32 -> (0 <= v < 2 ^ Z.of_nat n)%Z ->
  length (int2bitarray v n) = n /\ toint (int2bitarray v n) = v.
Proof. apply toint_int2bitarray. Qed.

Lemma toint_of_int2bitarray_witness :
  14 <= 32 /\ (0 <= 1000 < 2 ^ Z.of_nat 14)%Z /\
  length (int2bitarray 1000 14) = 14 /\ toint (int2bitarray 1000 14) = 1000%Z.
Proof.
  split; [lia|]. split; [cbn; lia|].
  apply (toint_of_int2bitarray 1000 14); [lia|cbn; lia].
Defined.

(** X3: [getstring] returns a string without a zero byte; its input is
    the bytes of that string, a zero byte and the returned rest, unless the
    input ended before the zero byte, in which case the rest is empty. *)
Theorem getstring_splits bits s rest :
  getstring bits = (s, rest) ->
  no_zero s /\
  (frombytes (list_ascii_of_string s) ++ repeat false 8 ++ rest = bits \/
   (rest = [] /\ length bits < 8 * (String.length s + 1))).
Proof. apply getstring_decoded. Qed.

Lemma getstring_splits_witness :
  getstring (drop 32 hi_string ++ of01 "101") = ("hi"%string, of01 "101") /\
  no_zero "hi" /\
  (frombytes (list_ascii_of_string "hi") ++ repeat false 8 ++ of01 "101"
     = drop 32 hi_string ++ of01 "101" \/
   (of01 "101" = [] /\
    length (drop 32 hi_string ++ of01 "101") < 8 * (String.length "hi" + 1))).
Proof.
  split; [vm_compute; reflexivity|].
  apply (getstring_splits (drop 32 hi_string ++ of01 "101") "hi" (of01 "101")).
  vm_compute. reflexivity.
Defined.

(** X4: [getstring] reads back a zero-terminated string: on the bytes of a
    string without a zero byte, followed by a zero byte and further bits, it
    returns the string and those bits. *)
Theorem getstring_reads_back s rest :
  no_zero s ->
  getstring (frombytes (list_ascii_of_string s) ++ repeat false 8 ++ rest) = (s, rest).
Proof. apply getstring_encoded. Qed.

Lemma getstring_reads_back_witness :
  no_zero "hi" /\
  getstring (frombytes (list_ascii_of_string "hi") ++ repeat false 8 ++ of01 "101")
    = ("hi"%string, of01 "101").
Proof.
  assert (H : no_zero "hi") by (repeat constructor; discriminate).
  split; [exact H|apply (getstring_reads_back "hi" (of01 "101") H)].
Defined.

(** X5: when [PropertyValueString.frombitarray] returns, the bits that
    [tobitarray] writes for the value, followed by the returned rest, are the
    input, unless the input ended before the terminator of the string: then
    the rest is empty and [tobitarray] writes more bits than were read. *)
Theorem PropertyValueString_decode_encode bits v rest :
  PropertyValueString_frombitarray bits = Return (v, rest) ->
  PropertyValue_tobitarray v ++ rest = bits \/
  (rest = [] /\ length bits < length (PropertyValue_tobitarray v)).
Proof.
  unfold PropertyValueString_frombitarray.
  destruct (getnbits 32 bits) as [[sz bits']|e] eqn:Hget; [|discriminate].
  cbn [mbind result_bind].
  apply getnbits_app in Hget as [Happ Hlen].
  destruct (int2bitarray_toint sz ltac:(lia)) as [Hrt Hrange]. rewrite Hlen in Hrt.
  destruct (Z.ltb_spec 0 (toint sz)) as [Hpos|Hzero].
  - destruct (getstring bits') as [value rest'] eqn:Hs.
    destruct (Z.eqb_spec (Z.of_nat (String.length value) + 1) (toint sz)) as [Hsz|];
      [|discriminate].
    intros [= <- <-]. cbn [PropertyValue_tobitarray].
    destruct (Z.ltb_spec 0 (toint sz)) as [_|]; [|lia].
    change (of01 "00000000") with (repeat false 8).
    apply getstring_decoded in Hs as [_ [Heq|[-> Hshort]]].
    + left. rewrite Hrt, <- !app_assoc, Heq. exact Happ.
    + right. split; [reflexivity|].
      rewrite <- Happ, Hrt, !length_app, frombytes_length, repeat_length.
      rewrite <- (string_length_of_list (list_ascii_of_string value)),
        string_of_list_ascii_of_string. lia.
  - intros [= <- <-]. left. cbn [PropertyValue_tobitarray].
    destruct (Z.ltb_spec 0 (toint sz)) as [|_]; [lia|].
    rewrite app_nil_r, Hrt. exact Happ.
Qed.

Lemma PropertyValueString_decode_encode_witness :
  PropertyValueString_frombitarray (hi_string ++ of01 "101")
    = Return (PropertyValueString (Some 3%Z) (Some "hi"%string), of01 "101") /\
  (PropertyValue_tobitarray (PropertyValueString (Some 3%Z) (Some "hi"%string))
     ++ of01 "101" = hi_string ++ of01 "101" \/
   (of01 "101" = [] /\
    length (hi_string ++ of01 "101")
      < length (PropertyValue_tobitarray
                  (PropertyValueString (Some 3%Z) (Some "hi"%string))))).
Proof.
  split; [vm_compute; reflexivity|].
  apply (PropertyValueString_decode_encode (hi_string ++ of01 "101")).
  vm_compute. reflexivity.
Defined.

(** X6: [PropertyValueString.frombitarray] reads back what [tobitarray]
    wrote: for a string without a zero byte whose length plus one fits 32
    bits, decoding the encoded value followed by any bits returns the value
    and those bits. *)
Theorem PropertyValueString_encode_decode s rest :
  no_zero s -> (Z.of_nat (String.length s) + 1 < 2 ^ 32)%Z ->
  let v := PropertyValueString (Some (Z.of_nat (String.length s) + 1)%Z) (Some s) in
  PropertyValueString_frombitarray (PropertyValue_tobitarray v ++ rest) = Return (v, rest).
Proof.
  intros Hs Hlen v. unfold v. cbn [PropertyValue_tobitarray].
  set (size := (Z.of_nat (String.length s) + 1)%Z) in *.
  destruct (Z.ltb_spec 0 size) as [_|]; [|lia].
  destruct (toint_int2bitarray size 32 ltac:(lia) ltac:(change (Z.of_nat 32) with 32%Z; lia))
    as [Hl Hv].
  unfold PropertyValueString_frombitarray.
  rewrite <- app_assoc. rewrite <- Hl at 1. rewrite getnbits_exact.
  cbn [mbind result_bind]. rewrite Hv.
  destruct (Z.ltb_spec 0 size) as [_|]; [|lia].
  change (of01 "00000000") with (repeat false 8). rewrite <- app_assoc.
  rewrite getstring_encoded by exact Hs.
  fold size. rewrite Z.eqb_refl. reflexivity.
Qed.

Lemma PropertyValueString_encode_decode_witness :
  no_zero "hi" /\ (Z.of_nat (String.length "hi") + 1 < 2 ^ 32)%Z /\
  PropertyValueString_frombitarray
    (PropertyValue_tobitarray
       (PropertyValueString (Some (Z.of_nat (String.length "hi") + 1)%Z) (Some "hi"%string))
     ++ of01 "101")
  = Return (PropertyValueString (Some (Z.of_nat (String.length "hi") + 1)%Z)
              (Some "hi"%string), of01 "101").
Proof.
  assert (H : no_zero "hi") by (repeat constructor; discriminate).
  assert (Hl : (Z.of_nat (String.length "hi") + 1 < 2 ^ 32)%Z) by (cbn; lia).
  split; [exact H|]. split; [exact Hl|].
  exact (PropertyValueString_encode_decode "hi" (of01 "101") H Hl).
Defined.

(** X7: [PropertyValueParams.frombitarray] on a parameter list without
    string or float members, whether it returns or raises a [ParseError]:
    the bits that [tobitarray] writes for the object, followed by the
    returned rest or the bits the error carries, are the input; there are as
    many values as presence flags or one less, and as many of each as
    parameters when the call returned. *)
Theorem PropertyValueParams_tobitarray_frombitarray param_list bits v r :
  forallb simple_member param_list = true ->
  PropertyValueParams_frombitarray param_list bits = (v, r) ->
  accounts_for (PropertyValue_tobitarray v) bits r /\
  exists presence values,
    v = PropertyValueParams param_list presence values /\
    length values <= length presence <= S (length values) /\
    (forall rest, r = Return rest ->
       length presence = length param_list /\ length values = length param_list).
Proof. apply PropertyValueParams_roundtrip. Qed.

Lemma PropertyValueParams_tobitarray_frombitarray_witness :
  forallb simple_member two_int_params = true /\
  accounts_for
    (PropertyValue_tobitarray
       (fst (PropertyValueParams_frombitarray two_int_params (drop 7 UpdateHUDHealth_property))))
    (drop 7 UpdateHUDHealth_property)
    (snd (PropertyValueParams_frombitarray two_int_params (drop 7 UpdateHUDHealth_property))).
Proof.
  split; [reflexivity|].
  apply (PropertyValueParams_tobitarray_frombitarray two_int_params
           (drop 7 UpdateHUDHealth_property) _ _ eq_refl (surjective_pairing _)).
Defined.

(** X8: [PropertyValueStruct.frombitarray] on a member list without string
    or float members, whether it returns or raises a [ParseError]: the bits
    that [tobitarray] writes for the object, followed by the returned rest or
    the bits the error carries, are the input. *)
Theorem PropertyValueStruct_tobitarray_frombitarray member_list bits v r :
  forallb simple_member member_list = true ->
  PropertyValueStruct_frombitarray member_list bits = (v, r) ->
  accounts_for (PropertyValue_tobitarray v) bits r.
Proof. apply PropertyValueStruct_roundtrip. Qed.

Lemma PropertyValueStruct_tobitarray_frombitarray_witness :
  forallb simple_member two_int_params = true /\
  accounts_for
    (PropertyValue_tobitarray
       (fst (PropertyValueStruct_frombitarray two_int_params (int2bitarray 75 32 ++ of01 "101"))))
    (int2bitarray 75 32 ++ of01 "101")
    (snd (PropertyValueStruct_frombitarray two_int_params (int2bitarray 75 32 ++ of01 "101"))).
Proof.
  split; [reflexivity|].
  apply (PropertyValueStruct_tobitarray_frombitarray two_int_params
           (int2bitarray 75 32 ++ of01 "101") _ _ eq_refl (surjective_pairing _)).
Defined.

(** X9: [ObjectProperty.frombitarray], whether it returns or raises a
    [ParseError]: if the property id has at most 32 bits and the descriptor
    found for it has no string or float type, the bits that [tobitarray]
    writes for the property, followed by the returned rest or the bits the
    error carries, are the input. *)
Theorem ObjectProperty_tobitarray_frombitarray id_size bits class_ p r :
  ObjectProperty_frombitarray (ObjectProperty_init id_size) bits class_ = (p, r) ->
  plain_property p = true ->
  accounts_for (ObjectProperty_tobitarray p) bits r.
Proof. apply ObjectProperty_roundtrip. Qed.

Lemma ObjectProperty_tobitarray_frombitarray_witness :
  plain_property
    (fst (ObjectProperty_frombitarray (ObjectProperty_init 7)
            (UpdateHUDHealth_property ++ of01 "101") TrPlayerPawn_class)) = true /\
  accounts_for
    (ObjectProperty_tobitarray
       (fst (ObjectProperty_frombitarray (ObjectProperty_init 7)
               (UpdateHUDHealth_property ++ of01 "101") TrPlayerPawn_class)))
    (UpdateHUDHealth_property ++ of01 "101")
    (snd (ObjectProperty_frombitarray (ObjectProperty_init 7)
            (UpdateHUDHealth_property ++ of01 "101") TrPlayerPawn_class)).
Proof.
  assert (H : plain_property
    (fst (ObjectProperty_frombitarray (ObjectProperty_init 7)
            (UpdateHUDHealth_property ++ of01 "101") TrPlayerPawn_class)) = true)
    by (vm_compute; reflexivity).
  split; [exact H|].
  exact (ObjectProperty_tobitarray_frombitarray 7 (UpdateHUDHealth_property ++ of01 "101")
           TrPlayerPawn_class _ _ (surjective_pairing _) H).
Defined.

(** X10: [ObjectInstance.frombitarray], whether it returns or raises a
    [ParseError]: if every property it decoded has an id of at most 32 bits
    and a descriptor without string or float type, the bits that
    [tobitarray] writes for the instance, followed by the returned rest or
    the bits the error carries, are the input. *)
Theorem ObjectInstance_tobitarray_frombitarray is_rpc bits class_ inst r :
  ObjectInstance_frombitarray {| properties := []; is_rpc := is_rpc |} bits class_
    = (inst, r) ->
  plain_instance inst = true ->
  accounts_for (ObjectInstance_tobitarray inst) bits r.
Proof. apply ObjectInstance_roundtrip. Qed.

Lemma ObjectInstance_tobitarray_frombitarray_witness :
  plain_instance
    (fst (ObjectInstance_frombitarray {| properties := []; is_rpc := false |}
            (HealthMax_property ++ UpdateHUDHealth_property ++ of01 "101")
            TrPlayerPawn_class)) = true /\
  accounts_for
    (ObjectInstance_tobitarray
       (fst (ObjectInstance_frombitarray {| properties := []; is_rpc := false |}
               (HealthMax_property ++ UpdateHUDHealth_property ++ of01 "101")
               TrPlayerPawn_class)))
    (HealthMax_property ++ UpdateHUDHealth_property ++ of01 "101")
    (snd (ObjectInstance_frombitarray {| properties := []; is_rpc := false |}
            (HealthMax_property ++ UpdateHUDHealth_property ++ of01 "101")
            TrPlayerPawn_class)).
Proof.
  assert (H : plain_instance
    (fst (ObjectInstance_frombitarray {| properties := []; is_rpc := false |}
            (HealthMax_property ++ UpdateHUDHealth_property ++ of01 "101")
            TrPlayerPawn_class)) = true)
    by (vm_compute; reflexivity).
  split; [exact H|].
  exact (ObjectInstance_tobitarray_frombitarray false
           (HealthMax_property ++ UpdateHUDHealth_property ++ of01 "101")
           TrPlayerPawn_class _ _ (surjective_pairing _) H).
Defined.

(** X11: [ObjectInstance.frombitarray] returns only when it has consumed
    all its input: the bits it returns are empty, so the check of
    [PayloadData.frombitarray] that raises 'Bits of payload left over' never
    fires, and the branch of [PayloadData_decode] for it is never taken. *)
Theorem ObjectInstance_frombitarray_leaves_nothing self bits class_ inst rest :
  ObjectInstance_frombitarray self bits class_ = (inst, Return rest) -> rest = [].
Proof.
  unfold ObjectInstance_frombitarray.
  destruct (ObjectInstance_loop _ bits class_ _) as [props r] eqn:H.
  intros [= _ ->]. apply ObjectInstance_loop_Return in H. exact H.
Qed.

Lemma ObjectInstance_frombitarray_leaves_nothing_witness :
  snd (ObjectInstance_frombitarray {| properties := []; is_rpc := false |}
         (HealthMax_property ++ UpdateHUDHealth_property) TrPlayerPawn_class)
    = Return [] /\
  @nil bool = [].
Proof.
  assert (H : snd (ObjectInstance_frombitarray {| properties := []; is_rpc := false |}
                     (HealthMax_property ++ UpdateHUDHealth_property) TrPlayerPawn_class)
              = Return []) by (vm_compute; reflexivity).
  split; [exact H|].
  exact (ObjectInstance_frombitarray_leaves_nothing _ _ _ _ [] (pair_eta_snd _ _ H)).
Defined.

(** X12: when [PayloadData.frombitarray] returns, also after it captured a
    [ParseError] in [bitsleft], and every property it decoded has an id of
    at most 32 bits and a descriptor without string or float type, the bits
    that [tobitarray] writes for the payload, followed by the returned rest,
    are the input. *)
Theorem PayloadData_tobitarray_frombitarray rel bits channel state p state' rest :
  PayloadData_frombitarray (PayloadData_init rel) bits channel state
    = (p, state', Return rest) ->
  plain_payload p = true ->
  PayloadData_tobitarray p ++ rest = bits.
Proof. apply PayloadData_roundtrip. Qed.

Lemma PayloadData_tobitarray_frombitarray_witness :
  snd (PayloadData_frombitarray (PayloadData_init false) (pawn_payload ++ of01 "101") 3
         ParserState_init) = Return (of01 "101") /\
  plain_payload
    (fst (fst (PayloadData_frombitarray (PayloadData_init false) (pawn_payload ++ of01 "101")
                 3 ParserState_init))) = true /\
  PayloadData_tobitarray
    (fst (fst (PayloadData_frombitarray (PayloadData_init false) (pawn_payload ++ of01 "101")
                 3 ParserState_init))) ++ of01 "101"
  = pawn_payload ++ of01 "101".
Proof.
  assert (H1 : snd (PayloadData_frombitarray (PayloadData_init false)
                      (pawn_payload ++ of01 "101") 3 ParserState_init)
               = Return (of01 "101")) by (vm_compute; reflexivity).
  assert (H2 : plain_payload
    (fst (fst (PayloadData_frombitarray (PayloadData_init false) (pawn_payload ++ of01 "101")
                 3 ParserState_init))) = true) by (vm_compute; reflexivity).
  split; [exact H1|]. split; [exact H2|].
  exact (PayloadData_tobitarray_frombitarray false (pawn_payload ++ of01 "101") 3
           ParserState_init _ _ _ (triple_eta_snd _ _ H1) H2).
Defined.

(** X13: when [ChannelData.frombitarray] returns and its payload has only
    properties with an id of at most 32 bits and a descriptor without string
    or float type, the bits that [tobitarray] writes, followed by the
    returned rest, are the input; the counter is set exactly when the
    channel data was read with a counter. *)
Theorem ChannelData_tobitarray_frombitarray bits with_counter state cd state' rest :
  ChannelData_frombitarray ChannelData_init bits with_counter state
    = (cd, state', Return rest) ->
  match payload cd with Some p => plain_payload p | None => true end = true ->
  ChannelData_tobitarray cd ++ rest = bits /\
  (is_Some (counter cd) <-> with_counter = true).
Proof. apply ChannelData_roundtrip. Qed.

Lemma ChannelData_tobitarray_frombitarray_witness :
  snd (ChannelData_frombitarray ChannelData_init (pawn_channel ++ of01 "101") false
         ParserState_init) = Return (of01 "101") /\
  ChannelData_tobitarray
    (fst (fst (ChannelData_frombitarray ChannelData_init (pawn_channel ++ of01 "101") false
                 ParserState_init))) ++ of01 "101"
  = pawn_channel ++ of01 "101".
Proof.
  assert (H1 : snd (ChannelData_frombitarray ChannelData_init (pawn_channel ++ of01 "101")
                      false ParserState_init)
               = Return (of01 "101")) by (vm_compute; reflexivity).
  split; [exact H1|].
  apply (ChannelData_tobitarray_frombitarray (pawn_channel ++ of01 "101") false
           ParserState_init _ _ _ (triple_eta_snd _ _ H1)).
  vm_compute. reflexivity.
Defined.

(** X14: when [PacketData.frombitarray] returns and the payload of its
    channel data has only properties with an id of at most 32 bits and a
    descriptor without string or float type, the bits that [tobitarray]
    writes, flags included, followed by the returned rest, are the input. *)
Theorem PacketData_tobitarray_frombitarray bits state pd state' rest :
  PacketData_frombitarray PacketData_init bits state = (pd, state', Return rest) ->
  plain_part (PartData pd) = true ->
  PacketData_tobitarray pd ++ rest = bits.
Proof. apply PacketData_roundtrip. Qed.

Lemma PacketData_tobitarray_frombitarray_witness :
  snd (PacketData_frombitarray PacketData_init (of01 "00" ++ pawn_channel ++ of01 "101")
         ParserState_init) = Return (of01 "101") /\
  PacketData_tobitarray
    (fst (fst (PacketData_frombitarray PacketData_init
                 (of01 "00" ++ pawn_channel ++ of01 "101") ParserState_init)))
    ++ of01 "101"
  = of01 "00" ++ pawn_channel ++ of01 "101".
Proof.
  assert (H1 : snd (PacketData_frombitarray PacketData_init
                      (of01 "00" ++ pawn_channel ++ of01 "101") ParserState_init)
               = Return (of01 "101")) by (vm_compute; reflexivity).
  split; [exact H1|].
  apply (PacketData_tobitarray_frombitarray (of01 "00" ++ pawn_channel ++ of01 "101")
           ParserState_init _ _ _ (triple_eta_snd _ _ H1)).
  vm_compute. reflexivity.
Defined.

(** X15: when [PacketAck.frombitarray] returns, the 14 bits that
    [tobitarray] writes for the ack, followed by the returned rest, are the
    input. *)
Theorem PacketAck_tobitarray_frombitarray bits pa rest :
  PacketAck_frombitarray {| acknr := None |} bits = (pa, Return rest) ->
  PacketAck_tobitarray pa ++ rest = bits /\ length bits = 14 + length rest.
Proof. apply PacketAck_roundtrip. Qed.

Lemma PacketAck_tobitarray_frombitarray_witness :
  PacketAck_frombitarray {| acknr := None |} (int2bitarray 9 14 ++ of01 "101")
    = ({| acknr := Some 9%Z |}, Return (of01 "101")) /\
  PacketAck_tobitarray {| acknr := Some 9%Z |} ++ of01 "101"
    = int2bitarray 9 14 ++ of01 "101" /\
  length (int2bitarray 9 14 ++ of01 "101") = 14 + length (of01 "101").
Proof.
  split; [vm_compute; reflexivity|].
  apply (PacketAck_tobitarray_frombitarray (int2bitarray 9 14 ++ of01 "101")).
  vm_compute. reflexivity.
Defined.

(** X16: when [Packet.frombitarray] returns, it has consumed its whole
    input; the packet keeps between one and eight padding bits, [tobitarray]
    writes as many bits as were read, and that number is a multiple of 8. *)
Theorem Packet_frombitarray_aligned bits state packet state' rest :
  Packet_frombitarray Packet_init bits state = (packet, state', Return rest) ->
  rest = [] /\
  length (Packet_tobitarray packet) = length bits /\
  length bits mod 8 = 0 /\
  exists padding, paddingbits packet = Some padding /\ 1 <= length padding <= 8.
Proof.
  intros H. apply Packet_frombitarray_inv in H
    as (seqnrbits & bits1 & ps & padding & H14 & Hloop & -> & -> & Hlen & Hpad).
  split; [reflexivity|].
  pose proof (getnbits_app _ _ _ _ H14) as [_ Hl].
  assert (H14' : length (int2bitarray (toint seqnrbits) 14) = 14).
  { apply toint_int2bitarray; [lia|].
    destruct (int2bitarray_toint seqnrbits ltac:(lia)) as [_ Hr]. rewrite Hl in Hr.
    exact Hr. }
  unfold nr_of_padding_bits in Hpad.
  set (n := 14 + length (flat_map Part_tobitarray ps) + 1) in *.
  pose proof (Nat.mod_upper_bound n 8 ltac:(lia)) as Hm.
  split; [|split].
  - unfold Packet_tobitarray. cbn [seqnr parts paddingbits default from_option id].
    rewrite !length_app, H14'. cbn [length of01]. cbn. lia.
  - replace (length bits) with (n + length padding) by lia. rewrite Hpad.
    rewrite (Nat.div_mod_eq n 8) at 1.
    replace (8 * (n / 8) + n mod 8 + (8 - n mod 8)) with ((n / 8 + 1) * 8) by lia.
    apply Nat.Div0.mod_mul.
  - exists padding. split; [reflexivity|]. lia.
Qed.

Lemma Packet_frombitarray_aligned_witness :
  snd (Packet_frombitarray Packet_init pawn_packet ParserState_init) = Return [] /\
  length (Packet_tobitarray
            (fst (fst (Packet_frombitarray Packet_init pawn_packet ParserState_init))))
    = length pawn_packet /\
  length pawn_packet mod 8 = 0.
Proof.
  assert (H1 : snd (Packet_frombitarray Packet_init pawn_packet ParserState_init)
               = Return []) by (vm_compute; reflexivity).
  split; [exact H1|].
  destruct (Packet_frombitarray_aligned pawn_packet ParserState_init _ _ _
              (triple_eta_snd _ _ H1)) as (_ & H2 & H3 & _).
  split; [exact H2|exact H3].
Defined.

(** X17: a packet that [Parser.parsepacket] returns, all of whose
    properties have an id of at most 32 bits and a descriptor without string
    or float type, is encoded by [tobitarray] as the bits it was parsed
    from. *)
Theorem parsepacket_roundtrip state bits packet :
  fst (parsepacket state bits) = Return packet ->
  plain_packet packet = true ->
  Packet_tobitarray packet = bits.
Proof.
  unfold parsepacket.
  destruct (Packet_frombitarray Packet_init bits state) as [[p st] [rest|e]] eqn:H;
    cbn [fst]; [|discriminate].
  intros [= ->]. eapply Packet_roundtrip. exact H.
Qed.

Lemma parsepacket_roundtrip_witness :
  exists packet,
    fst (parsepacket ParserState_init pawn_packet) = Return packet /\
    plain_packet packet = true /\
    Packet_tobitarray packet = pawn_packet.
Proof.
  eexists. split; [vm_compute; reflexivity|].
  split; [vm_compute; reflexivity|].
  apply (parsepacket_roundtrip ParserState_init pawn_packet);
    vm_compute; reflexivity.
Defined.

(** X18: [Packet.frombitarray] reads back a packet of acks: for a sequence
    number and ack numbers below [2 ** 14] and as many padding bits as the
    15 bits of header and terminator and of every ack ask for, decoding the
    bits of [tobitarray] gives the packet, consumes all bits and leaves the
    parser state as it was. *)
Theorem ack_packet_decodes seq acks padding state :
  (0 <= seq < 2 ^ 14)%Z ->
  Forall (fun n => (0 <= n < 2 ^ 14)%Z) acks ->
  length padding = nr_of_padding_bits (15 + 15 * length acks) ->
  Packet_frombitarray Packet_init (Packet_tobitarray (ack_packet seq acks padding)) state
    = (ack_packet seq acks padding, state, Return []).
Proof.
  intros Hseq Hacks Hpad.
  destruct (int2bitarray_14 seq Hseq) as [Hl Hv].
  pose proof (ack_parts_length acks Hacks) as Hparts.
  assert (Hp14 : length padding < 14).
  { rewrite Hpad. unfold nr_of_padding_bits. lia. }
  unfold Packet_frombitarray, Packet_tobitarray.
  cbn [seqnr parts paddingbits ack_packet Packet_init default from_option id].
  set (rest := flat_map Part_tobitarray (ack_parts acks) ++ of01 "1" ++ padding).
  pose proof (getnbits_exact (int2bitarray seq 14) rest) as Hget. rewrite Hl in Hget.
  rewrite Hget, Hv. clear Hget.
  unfold rest at 1 2. rewrite Packet_loop_acks; [|exact Hacks|exact Hp14|lia].
  cbn [app]. cbv zeta.
  assert (Hparsed : length (int2bitarray seq 14 ++ flat_map Part_tobitarray (ack_parts acks)
                            ++ of01 "1" ++ []) = 15 + 15 * length acks).
  { rewrite !length_app, Hl, Hparts. cbn. lia. }
  rewrite Hparsed.
  destruct (decide _) as [Hc|_].
  { exfalso. apply Hc. unfold rest. rewrite !length_app, Hl, Hparts. cbn [length of01].
    cbn. lia. }
  destruct (decide _) as [Hc|_]; [contradiction|].
  rewrite <- Hpad.
  pose proof (getnbits_exact padding []) as Hex. rewrite app_nil_r in Hex. rewrite Hex.
  reflexivity.
Qed.

Lemma ack_packet_decodes_witness :
  (0 <= 0 < 2 ^ 14)%Z /\
  Forall (fun n => (0 <= n < 2 ^ 14)%Z) [1; 2; 3; 4; 5; 6; 7]%Z /\
  length (of01 "00000000") = nr_of_padding_bits (15 + 15 * length [1; 2; 3; 4; 5; 6; 7]%Z) /\
  Packet_frombitarray Packet_init
    (Packet_tobitarray (ack_packet 0 [1; 2; 3; 4; 5; 6; 7]%Z (of01 "00000000")))
    ParserState_init
  = (ack_packet 0 [1; 2; 3; 4; 5; 6; 7]%Z (of01 "00000000"), ParserState_init, Return []).
Proof.
  assert (H1 : (0 <= 0 < 2 ^ 14)%Z) by lia.
  assert (H2 : Forall (fun n => (0 <= n < 2 ^ 14)%Z) [1; 2; 3; 4; 5; 6; 7]%Z)
    by (repeat constructor; lia).
  assert (H3 : length (of01 "00000000")
               = nr_of_padding_bits (15 + 15 * length [1; 2; 3; 4; 5; 6; 7]%Z))
    by reflexivity.
  split; [exact H1|]. split; [exact H2|]. split; [exact H3|].
  exact (ack_packet_decodes 0 [1; 2; 3; 4; 5; 6; 7]%Z (of01 "00000000") ParserState_init
           H1 H2 H3).
Defined.

(** X19: whatever packets a [Parser] has been given before, an exception
    of [parsepacket] is a [ParseError] or one of the two [RuntimeError]s
    that the module raises: no [KeyError] from the class registry, the
    channel table or ['idsize'], no [TypeError] from a missing ['size'], and
    no loop that runs without consuming bits. *)
Theorem parsepacket_raises packets bits e :
  fst (parsepacket (Parser_after packets) bits) = Raise e ->
  raised_by_module e = true.
Proof.
  intros H. pose proof (parsepacket_sound _ bits (sound_state_Parser_after packets)) as [_ Hr].
  rewrite H in Hr. exact Hr.
Qed.

Lemma parsepacket_raises_witness :
  fst (parsepacket (Parser_after [pawn_packet]) leaderboard_packet)
    = Raise (OtherError (CodingErrorPropertyType (Some "OnlineStatsWriteClass"%string))) /\
  raised_by_module
    (OtherError (CodingErrorPropertyType (Some "OnlineStatsWriteClass"%string))) = true.
Proof.
  split; [vm_compute; reflexivity|].
  apply (parsepacket_raises [pawn_packet] leaderboard_packet).
  vm_compute. reflexivity.
Defined.

(** X20: the class key of the 32 class bits that [ObjectClass.frombitarray]
    read: all class ids whose first five bits are [10001] share the key
    [10001] followed by 27 zeros, and every other id has its own 32 bits as
    key. *)
Theorem getclasskey_bits classbits :
  length classbits = 32 ->
  getclasskey (toint classbits) =
    if decide (take 5 classbits = of01 "10001")
    then "10001000000000000000000000000000"%string
    else to01 classbits.
Proof.
  intros Hlen. unfold getclasskey.
  destruct (int2bitarray_toint classbits ltac:(lia)) as [Hrt _]. rewrite Hlen in Hrt.
  rewrite Hrt. destruct (decide _) as [H5|H5]; [|reflexivity].
  unfold clear_from. rewrite H5, Hlen. reflexivity.
Qed.

Lemma getclasskey_bits_witness :
  length (of01 "10001011000000000000000000000001") = 32 /\
  getclasskey (toint (of01 "10001011000000000000000000000001"))
    = "10001000000000000000000000000000"%string.
Proof.
  split; [reflexivity|].
  exact (getclasskey_bits (of01 "10001011000000000000000000000001") eq_refl).
Defined.

(** X21: [PayloadData.frombitarray] on a channel leaves the binding of
    every other channel as it was, keeps every class of the registry under
    its key with its name and properties, and lowers no instance counter. *)
Theorem PayloadData_frombitarray_frame self bits channel state p state' r :
  PayloadData_frombitarray self bits channel state = (p, state', r) ->
  registry_grows state state' /\
  (forall ch, ch ≠ channel -> channels state' !! ch = channels state !! ch).
Proof. apply PayloadData_frombitarray_frame_eq. Qed.

Lemma PayloadData_frombitarray_frame_witness :
  registry_grows (session [open_call]) (after_call (session [open_call]) close_call) /\
  (forall ch, ch ≠ 1%Z ->
     channels (after_call (session [open_call]) close_call) !! ch
       = channels (session [open_call]) !! ch).
Proof.
  exact (PayloadData_frombitarray_frame (PayloadData_init false) empty_payload 1
           (session [open_call]) _ _ _ (triple_eta _)).
Defined.

(** X22: [Parser.parsepacket], whether it returns or raises, keeps every
    class of the registry under its key with its name and properties, and
    lowers no instance counter. *)
Theorem parsepacket_grows state bits : registry_grows state (snd (parsepacket state bits)).
Proof.
  unfold parsepacket, Packet_frombitarray.
  destruct (getnbits 14 bits) as [[seqnrbits bits1]|e]; [|apply registry_grows_refl].
  destruct (Packet_loop (length bits1) bits1 state (parts Packet_init))
    as [[ps st] r] eqn:Hloop.
  apply Packet_loop_grows in Hloop.
  destruct r as [bits2|e]; [|exact Hloop].
  cbv zeta. destruct (decide _); [exact Hloop|].
  destruct (decide _); [exact Hloop|].
  destruct (getnbits _ bits2) as [[padding rest]|e]; exact Hloop.
Qed.

(** X23: [PropertyValueVector.frombitarray] on a fresh object: when it
    returns, the 48 bits that [tobitarray] writes, followed by the returned
    rest, are the input; when it raises, after reading no, one or two of the
    three shorts, [tobitarray] writes no bits at all. *)
Theorem PropertyValueVector_tobitarray_frombitarray bits :
  match PropertyValueVector_frombitarray PropertyValueVector_init bits with
  | (v, Return rest) =>
      PropertyValueVector_tobitarray v ++ rest = bits /\ length bits = 48 + length rest
  | (v, Raise e) =>
      PropertyValueVector_tobitarray v = [] /\ length bits < 48 /\
      exists n, e = ParseError (MsgMoreBits 16 n) (drop (length bits - n) bits)
  end.
Proof.
  unfold PropertyValueVector_frombitarray.
  destruct (getnbits 16 bits) as [[v1 bits1]|e] eqn:H1.
  2:{ apply getnbits_Raise in H1 as [-> Hl]. split; [reflexivity|]. split; [lia|].
      exists (length bits). rewrite Nat.sub_diag. reflexivity. }
  pose proof (int2bitarray_read _ _ _ _ H1 ltac:(lia)) as Hr1.
  apply getnbits_app in H1 as [H1 Hl1]. cbv zeta.
  destruct (getnbits 16 bits1) as [[v2 bits2]|e] eqn:H2.
  2:{ apply getnbits_Raise in H2 as [-> Hl]. split; [reflexivity|].
      rewrite <- H1, length_app in *. split; [lia|].
      exists (length bits1). f_equal.
      replace (length v1 + length bits1 - length bits1) with (length v1) by lia.
      rewrite drop_app_length. reflexivity. }
  pose proof (int2bitarray_read _ _ _ _ H2 ltac:(lia)) as Hr2.
  apply getnbits_app in H2 as [H2 Hl2].
  destruct (getnbits 16 bits2) as [[v3 bits3]|e] eqn:H3.
  2:{ apply getnbits_Raise in H3 as [-> Hl]. split; [reflexivity|].
      rewrite <- H1, <- H2, !length_app in *. split; [lia|].
      exists (length bits2). f_equal.
      replace (length v1 + (length v2 + length bits2) - length bits2)
        with (length (v1 ++ v2)) by (rewrite length_app; lia).
      rewrite app_assoc, drop_app_length. reflexivity. }
  pose proof (int2bitarray_read _ _ _ _ H3 ltac:(lia)) as Hr3.
  apply getnbits_app in H3 as [H3 Hl3].
  unfold PropertyValueVector_tobitarray. cbn [short1 short2 short3]. split.
  - rewrite <- !app_assoc, Hr3, Hr2. exact Hr1.
  - rewrite <- H1, <- H2, <- H3, !length_app. lia.
Qed.

(** X24: [PropertyValueVector.frombitarray] reads back what [tobitarray]
    wrote: for three shorts below [2 ** 16], decoding the 48 encoded bits
    followed by any bits gives the three shorts and returns those bits. *)
Theorem PropertyValueVector_frombitarray_tobitarray s1 s2 s3 rest :
  (0 <= s1 < 2 ^ 16)%Z -> (0 <= s2 < 2 ^ 16)%Z -> (0 <= s3 < 2 ^ 16)%Z ->
  let v := {| short1 := Some s1; short2 := Some s2; short3 := Some s3 |} in
  PropertyValueVector_frombitarray PropertyValueVector_init
    (PropertyValueVector_tobitarray v ++ rest) = (v, Return rest).
Proof.
  intros H1 H2 H3 v. unfold v, PropertyValueVector_tobitarray, PropertyValueVector_frombitarray.
  cbn [short1 short2 short3 PropertyValueVector_init].
  destruct (toint_int2bitarray s1 16 ltac:(lia) H1) as [Hl1 Hv1].
  destruct (toint_int2bitarray s2 16 ltac:(lia) H2) as [Hl2 Hv2].
  destruct (toint_int2bitarray s3 16 ltac:(lia) H3) as [Hl3 Hv3].
  rewrite <- !app_assoc.
  pose proof (getnbits_exact (int2bitarray s1 16)
                (int2bitarray s2 16 ++ int2bitarray s3 16 ++ rest)) as G1.
  rewrite Hl1 in G1. rewrite G1. cbv zeta.
  pose proof (getnbits_exact (int2bitarray s2 16) (int2bitarray s3 16 ++ rest)) as G2.
  rewrite Hl2 in G2. rewrite G2.
  pose proof (getnbits_exact (int2bitarray s3 16) rest) as G3.
  rewrite Hl3 in G3. rewrite G3.
  rewrite Hv1, Hv2, Hv3. reflexivity.
Qed.

Lemma PropertyValueVector_frombitarray_tobitarray_witness :
  (0 <= 1 < 2 ^ 16)%Z /\ (0 <= 2 < 2 ^ 16)%Z /\ (0 <= 65535 < 2 ^ 16)%Z /\
  PropertyValueVector_frombitarray PropertyValueVector_init
    (PropertyValueVector_tobitarray
       {| short1 := Some 1%Z; short2 := Some 2%Z; short3 := Some 65535%Z |} ++ of01 "101")
  = ({| short1 := Some 1%Z; short2 := Some 2%Z; short3 := Some 65535%Z |},
     Return (of01 "101")).
Proof.
  assert (H1 : (0 <= 1 < 2 ^ 16)%Z) by lia.
  assert (H2 : (0 <= 2 < 2 ^ 16)%Z) by lia.
  assert (H3 : (0 <= 65535 < 2 ^ 16)%Z) by lia.
  split; [exact H1|]. split; [exact H2|]. split; [exact H3|].
  exact (PropertyValueVector_frombitarray_tobitarray 1 2 65535 (of01 "101") H1 H2 H3).
Defined.
